(** * ReviewLedger: the review controllers of gowithflow-backend

    A shallow embedding of
      - models/Review.js                (schema, unique index, statics),
      - controllers/reviewController.js (createReview ... markReviewAsHelpful),
      - controllers/adminController.js  (handleReportedReview),
    followed by the properties of the review ledger, and of
      - models/Issue.js                 (schema, pre-save hook, getStatistics),
      - the issue controller            (getIssueById, addResponse,
                                         updateIssueStatus, assignIssue,
                                         updateIssuePriority, closeIssue),
      - controllers/adminController.js  (getIssueStatsForDashboard),
    followed by the properties of the issue tracker.

    Conventions of the embedding.
      - Request bodies are JSON: their fields are JavaScript values
        ([Js.value]); a field that is absent reads as [Js.undefined].
      - A string is a sequence of UTF-16 code units below 256; text with
        other code units is outside the model.
      - Numbers are the integral Numbers and NaN: [Js.Int z] is the Number
        of value [z], for the integers [z] that binary64 holds exactly.
        Numbers with a fraction, and the infinities, are outside the
        model. Arithmetic on averages is exact (rationals).
      - ObjectIds are natural numbers in canonical form; a request carries
        well-formed ids.
      - The document store is explicit state; the collaborators that are not
        part of the controllers (job and user lookup, the notification
        model, the clock) are fields of an environment record. *)

From Stdlib Require Import ZArith QArith Qround List String Ascii Bool Arith Lia Lqa Sorted.
From Stdlib Require Import DecimalString.
From Stdlib Require Import PrimFloat.
Import ListNotations.

Local Open Scope string_scope.
Local Open Scope Z_scope.

(** ** JavaScript values and the built-ins the controllers call *)

Module Js.

Inductive number : Type :=
| NaN
| Int (z : Z).

Inductive value : Type :=
| undefined
| null
| boolean (b : bool)
| num (n : number)
| str (s : string).

(** ToBoolean: the falsy values are undefined, null, false, 0, NaN and "". *)
Definition truthy (v : value) : bool :=
  match v with
  | undefined | null => false
  | boolean b => b
  | num NaN => false
  | num (Int z) => negb (z =? 0)
  | str s => negb (String.eqb s "")
  end.

(** [a || b] *)
Definition or (a b : value) : value :=
  if truthy a then a else b.

(** WhiteSpace and LineTerminator among the code units below 256: TAB, LF,
    VT, FF, CR, SP and NBSP (U+00A0). *)
Definition isWhite (c : ascii) : bool :=
  let n := nat_of_ascii c in
  ((n =? 9) || (n =? 10) || (n =? 11) || (n =? 12) || (n =? 13) || (n =? 32)
   || (n =? 160))%nat.

Fixpoint trimStart (s : string) : string :=
  match s with
  | String c r => if isWhite c then trimStart r else s
  | EmptyString => EmptyString
  end.

Fixpoint trimEnd (s : string) : string :=
  match s with
  | String c r =>
      match trimEnd r with
      | EmptyString => if isWhite c then EmptyString else String c EmptyString
      | r' => String c r'
      end
  | EmptyString => EmptyString
  end.

(** String.prototype.trim *)
Definition trim (s : string) : string := trimEnd (trimStart s).

(** Value of a digit character in radix 36. *)
Definition digitValue (c : ascii) : option Z :=
  let n := Z.of_nat (nat_of_ascii c) in
  if (48 <=? n) && (n <=? 57) then Some (n - 48)
  else if (97 <=? n) && (n <=? 122) then Some (n - 87)
  else if (65 <=? n) && (n <=? 90) then Some (n - 55)
  else None.

(** The longest prefix of digits of the radix, read as a number; [acc] is
    [None] until a first digit has been read. *)
Fixpoint digits (radix : Z) (s : string) (acc : option Z) : option Z :=
  match s with
  | String c r =>
      match digitValue c with
      | Some d =>
          if d <? radix
          then digits radix r (Some (match acc with Some a => a * radix + d | None => d end))
          else acc
      | None => acc
      end
  | EmptyString => acc
  end.

(** The Number nearest to a natural number, ties to the even significand.
    (A number of 2^1024 or more, which JavaScript turns into Infinity, is
    outside the model.) *)
Definition toNumber (m : Z) : Z :=
  let b := Z.log2 m in
  if b <? 53 then m
  else
    let unit := 2 ^ (b - 52) in
    let q := m / unit in
    let r := m mod unit in
    let half := unit / 2 in
    if (half <? r) || ((r =? half) && Z.odd q) then (q + 1) * unit else q * unit.

(** parseInt(string) with no radix argument. *)
Definition parseIntString (s : string) : number :=
  let s1 := trimStart s in
  let '(sign, s2) :=
    match s1 with
    | String "-"%char r => (-1, r)
    | String "+"%char r => (1, r)
    | _ => (1, s1)
    end in
  let '(radix, s3) :=
    match s2 with
    | String "0"%char (String "x"%char r) => (16, r)
    | String "0"%char (String "X"%char r) => (16, r)
    | _ => (10, s2)
    end in
  match digits radix s3 None with
  | Some m => Int (sign * toNumber m)
  | None => NaN
  end.

(** Whether the Number [x], a positive integer that binary64 holds
    exactly, is the Number nearest to the integer [c]: [c] lies between
    the midpoints to the neighbours of [x], a midpoint included when the
    significand of [x] is even. Below 2^53 every integer is a Number. *)
Definition roundsTo (x c : Z) : bool :=
  let b := Z.log2 x in
  if b <? 53 then c =? x
  else
    let ulp := 2 ^ (b - 52) in
    let above := 2 * ulp in
    let below := if x =? 2 ^ b then ulp else 2 * ulp in
    let d := 4 * (c - x) in
    if Z.even (x / ulp) then (- below <=? d) && (d <=? above)
    else (- below <? d) && (d <? above).

(** Number::toString, step 5: the integer with the fewest significant
    digits of which [x] is the nearest Number and, of several such, the
    one nearest to [x]. The multiples of 10^j next to [x] are tried for
    j = digits - 1 down to 0. *)
Fixpoint shortest (j : nat) (x : Z) : Z :=
  let p := 10 ^ Z.of_nat j in
  let down := (x / p) * p in
  let up := down + p in
  let found :=
    match roundsTo x down, roundsTo x up with
    | true, true =>
        Some (if x - down <? up - x then down
              else if up - x <? x - down then up
              else if Z.even (x / p) then down else up)
    | true, false => Some down
    | false, true => Some up
    | false, false => None
    end in
  match found, j with
  | Some c, _ => c
  | None, S j' => shortest j' x
  | None, O => x
  end.

(** The decimal digits of a natural number without its trailing zeros. *)
Fixpoint stripZeros (fuel : nat) (m : Z) : Z :=
  match fuel with
  | O => m
  | S fuel' => if (m mod 10 =? 0) && negb (m =? 0) then stripZeros fuel' (m / 10) else m
  end.

(** Number::toString, steps 9 and 10, for a result of 10^21 or more: the
    significant digits, a point after the first of them when there are
    several, and the exponent. *)
Definition exponential (m : Z) : string :=
  let all := NilZero.string_of_int (Z.to_int m) in
  let significant :=
    NilZero.string_of_int (Z.to_int (stripZeros (String.length all) m)) in
  let exponent := NilZero.string_of_int (Z.to_int (Z.of_nat (String.length all) - 1)) in
  match significant with
  | String d EmptyString => String d ("e+" ++ exponent)
  | String d rest => String d ("." ++ rest ++ "e+" ++ exponent)
  | EmptyString => EmptyString
  end.

(** Number::toString in radix 10 on the integral Numbers: the shortest
    digits, in plain notation when they denote less than 10^21 and in
    exponential notation from there on. 2^60 prints as
    1152921504606847000 and 2^70 as 1.1805916207174113e+21. *)
Definition numberToString (n : number) : string :=
  match n with
  | NaN => "NaN"
  | Int z =>
      let x := Z.abs z in
      let c := shortest (String.length (NilZero.string_of_int (Z.to_int x)) - 1) x in
      let text :=
        if c <? 10 ^ 21 then NilZero.string_of_int (Z.to_int c) else exponential c in
      if z <? 0 then "-" ++ text else text
  end.

(** ToString *)
Definition ToString (v : value) : string :=
  match v with
  | undefined => "undefined"
  | null => "null"
  | boolean true => "true"
  | boolean false => "false"
  | num n => numberToString n
  | str s => s
  end.

(** parseInt(v): the argument is converted with ToString first. *)
Definition parseInt (v : value) : number := parseIntString (ToString v).

(** Math.round on exact rationals: the nearest integer, ties towards
    +infinity. *)
Definition Math_round (q : Q) : Z := Qfloor (q + (1 # 2)).

(** Math.ceil *)
Definition Math_ceil (q : Q) : Z := Qceiling q.

End Js.

(** ** Identifiers, errors and the collaborators' documents *)

Definition JobId := nat.
Definition UserId := nat.
Definition ReviewId := nat.

(** Errors that the storage layer, the runtime or a collaborator throws. *)
Inductive Thrown : Type :=
| ValidationError (paths : list string)
| MongoServerError (code : Z) (keyPattern : list string) (message : string)
| TypeError (message : string)
| CollaboratorError (message : string).

Module User.

(** Modelled from the spec: models/User.js is not among the sources. A user
    is what [findUser(id)] returns; the controllers read its id and its
    role. *)
Record t : Type := {
  _id : UserId;
  role : string
}.

End User.

Module Job.

(** Modelled from the spec: models/Job.js is not among the sources. A job
    is what [findJob(id)] returns: status, client, hired freelancer and
    title. *)
Record t : Type := {
  _id : JobId;
  status : string;
  client : option UserId;
  hiredFreelancer : option UserId;
  title : string
}.

End Job.

Module Notification.

(** Modelled from the spec: models/Notification.js is not among the
    sources. A notification is the argument of
    [notify(recipientId, kind, title, message, data)]; of [data] the review
    reference is kept. *)
Record t : Type := {
  recipient : option UserId;
  type : string;
  title : string;
  message : string;
  data_review : option ReviewId
}.

End Notification.

(** ** models/Review.js *)

Module Review.

Inductive ReviewType : Type :=
| client_to_freelancer
| freelancer_to_client.

(** A stored document of [reviewSchema]. The five category paths are not
    required, so they may be absent; [helpfulVotes] is the array of
    [{ user }] subdocuments; [isPublic] may hold null after a cast. The
    [reports] array and [updatedAt] are never read by the controllers and
    are left out. *)
Record t : Type := {
  _id : ReviewId;
  job : JobId;
  reviewer : UserId;
  recipient : UserId;
  rating : Z;
  comment : string;
  isPublic : option bool;
  type : ReviewType;
  communication : option Z;
  qualityOfWork : option Z;
  valueForMoney : option Z;
  expertise : option Z;
  professionalism : option Z;
  helpfulVotes : list UserId;
  isReported : bool;
  reportReason : option string;
  reportedBy : option UserId;
  reportedAt : option Z;
  isHidden : bool;
  moderationReason : option string;
  createdAt : Z
}.

(** The collection: documents in insertion order and the next fresh
    ObjectId. *)
Record collection : Type := {
  docs : list t;
  next_id : ReviewId
}.

Definition empty : collection := {| docs := []; next_id := O |}.

(** *** Schema validation *)

(** [min: 1, max: 5] *)
Definition inRange (z : Z) : bool := (1 <=? z) && (z <=? 5).

(** A Number path: NaN does not cast; then [min] and [max]. *)
Definition validateNumber (n : Js.number) : option Z :=
  match n with
  | Js.Int z => if inRange z then Some z else None
  | Js.NaN => None
  end.

(** [minlength: 10] together with [required] on a String path. *)
Definition validComment (s : string) : bool :=
  negb (String.eqb s "") && (10 <=? String.length s)%nat.

(** The [comment] path: cast to String, the [trim] setter, then the
    validators. *)
Definition validateComment (v : Js.value) : option string :=
  match v with
  | Js.undefined | Js.null => None
  | _ =>
      let s := Js.trim (Js.ToString v) in
      if validComment s then Some s else None
  end.

Definition validOptional (o : option Z) : bool :=
  match o with
  | Some z => inRange z
  | None => true
  end.

Definition invalidIf (ok : bool) (path : string) : list string :=
  if ok then [] else [path].

(** Paths of a loaded document that fail their validators: [save] runs the
    validators of every path of the document. *)
Definition validate (r : t) : list string :=
  invalidIf (inRange (rating r)) "rating"
  ++ invalidIf (validComment (comment r)) "comment"
  ++ invalidIf (validOptional (communication r)) "communication"
  ++ invalidIf (validOptional (qualityOfWork r)) "qualityOfWork"
  ++ invalidIf (validOptional (valueForMoney r)) "valueForMoney"
  ++ invalidIf (validOptional (expertise r)) "expertise"
  ++ invalidIf (validOptional (professionalism r)) "professionalism".

(** *** Queries *)

(** The filters the controllers build: each field is either absent from the
    filter object or compared for equality. *)
Record query : Type := {
  q_job : option JobId;
  q_reviewer : option UserId;
  q_recipient : option UserId;
  q_isPublic : option bool;
  q_isReported : option bool
}.

Definition holdsNat (c : option nat) (x : nat) : bool :=
  match c with
  | Some y => Nat.eqb x y
  | None => true
  end.

Definition holdsBool (c : option bool) (x : option bool) : bool :=
  match c, x with
  | Some b, Some b' => Bool.eqb b' b
  | Some _, None => false
  | None, _ => true
  end.

Definition matches (q : query) (r : t) : bool :=
  holdsNat (q_job q) (job r)
  && holdsNat (q_reviewer q) (reviewer r)
  && holdsNat (q_recipient q) (recipient r)
  && holdsBool (q_isPublic q) (isPublic r)
  && holdsBool (q_isReported q) (Some (isReported r)).

Definition find (q : query) (c : collection) : list t :=
  filter (matches q) (docs c).

Definition findOne (q : query) (c : collection) : option t :=
  List.find (matches q) (docs c).

Definition countDocuments (q : query) (c : collection) : nat :=
  List.length (find q c).

Definition findById (id : ReviewId) (c : collection) : option t :=
  List.find (fun r => Nat.eqb (_id r) id) (docs c).

Definition findByIdAndDelete (id : ReviewId) (c : collection) : collection :=
  {| docs := filter (fun r => negb (Nat.eqb (_id r) id)) (docs c);
     next_id := next_id c |}.

(** *** Writes *)

(** The object literal handed to [Review.create]. *)
Record input : Type := {
  in_job : JobId;
  in_reviewer : UserId;
  in_recipient : UserId;
  in_rating : Js.number;
  in_comment : Js.value;
  in_communication : Js.number;
  in_qualityOfWork : Js.number;
  in_valueForMoney : Js.number;
  in_expertise : Js.number;
  in_professionalism : Js.number;
  in_type : ReviewType;
  in_isPublic : bool
}.

Definition isSome {A : Type} (o : option A) : bool :=
  match o with
  | Some _ => true
  | None => false
  end.

(** Paths of a new document that fail to cast or to validate. *)
Definition invalidPaths (i : input) : list string :=
  invalidIf (isSome (validateNumber (in_rating i))) "rating"
  ++ invalidIf (isSome (validateComment (in_comment i))) "comment"
  ++ invalidIf (isSome (validateNumber (in_communication i))) "communication"
  ++ invalidIf (isSome (validateNumber (in_qualityOfWork i))) "qualityOfWork"
  ++ invalidIf (isSome (validateNumber (in_valueForMoney i))) "valueForMoney"
  ++ invalidIf (isSome (validateNumber (in_expertise i))) "expertise"
  ++ invalidIf (isSome (validateNumber (in_professionalism i))) "professionalism".

(** The unique compound index
    [{ job: 1, reviewer: 1, recipient: 1 }, { unique: true }]. *)
Definition uniqueKey : list string := ["job"; "reviewer"; "recipient"].

Definition sameKey (j : JobId) (rv rc : UserId) : query :=
  {| q_job := Some j; q_reviewer := Some rv; q_recipient := Some rc;
     q_isPublic := None; q_isReported := None |}.

Definition duplicateKey : Thrown :=
  MongoServerError 11000 uniqueKey
    "E11000 duplicate key error collection: reviews index: job_1_reviewer_1_recipient_1".

(** [Review.create]: the document is validated first; the insert is then
    refused by the unique index when a document with the same key is
    stored. Defaults: [helpfulVotes = []], [isReported = false],
    [isHidden = false]; [timestamps] sets [createdAt]. *)
Definition create (now : Z) (i : input) (c : collection) : collection * (Thrown + t) :=
  match validateNumber (in_rating i), validateComment (in_comment i),
        validateNumber (in_communication i), validateNumber (in_qualityOfWork i),
        validateNumber (in_valueForMoney i), validateNumber (in_expertise i),
        validateNumber (in_professionalism i) with
  | Some rt, Some cm, Some c1, Some c2, Some c3, Some c4, Some c5 =>
      if isSome (findOne (sameKey (in_job i) (in_reviewer i) (in_recipient i)) c)
      then (c, inl duplicateKey)
      else
        let r := {| _id := next_id c;
                    job := in_job i;
                    reviewer := in_reviewer i;
                    recipient := in_recipient i;
                    rating := rt;
                    comment := cm;
                    isPublic := Some (in_isPublic i);
                    type := in_type i;
                    communication := Some c1;
                    qualityOfWork := Some c2;
                    valueForMoney := Some c3;
                    expertise := Some c4;
                    professionalism := Some c5;
                    helpfulVotes := [];
                    isReported := false;
                    reportReason := None;
                    reportedBy := None;
                    reportedAt := None;
                    isHidden := false;
                    moderationReason := None;
                    createdAt := now |} in
        ({| docs := docs c ++ [r]; next_id := S (next_id c) |}, inr r)
  | _, _, _, _, _, _, _ => (c, inl (ValidationError (invalidPaths i)))
  end.

(** [review.save()] on a loaded document: every path is validated, then the
    stored document with the same [_id] is replaced. *)
Definition save (r : t) (c : collection) : collection * (Thrown + t) :=
  match validate r with
  | [] =>
      ({| docs := map (fun d => if Nat.eqb (_id d) (_id r) then r else d) (docs c);
          next_id := next_id c |}, inr r)
  | ps => (c, inl (ValidationError ps))
  end.

(** [review.remove()] *)
Definition remove (r : t) (c : collection) : collection :=
  findByIdAndDelete (_id r) c.

(** Assignments to the paths the controllers write. *)
Definition set_rating (v : Z) (r : t) : t :=
  {| _id := _id r; job := job r; reviewer := reviewer r; recipient := recipient r;
     rating := v; comment := comment r; isPublic := isPublic r; type := type r;
     communication := communication r; qualityOfWork := qualityOfWork r;
     valueForMoney := valueForMoney r; expertise := expertise r;
     professionalism := professionalism r; helpfulVotes := helpfulVotes r;
     isReported := isReported r; reportReason := reportReason r;
     reportedBy := reportedBy r; reportedAt := reportedAt r;
     isHidden := isHidden r; moderationReason := moderationReason r;
     createdAt := createdAt r |}.

Definition set_isPublic (v : option bool) (r : t) : t :=
  {| _id := _id r; job := job r; reviewer := reviewer r; recipient := recipient r;
     rating := rating r; comment := comment r; isPublic := v; type := type r;
     communication := communication r; qualityOfWork := qualityOfWork r;
     valueForMoney := valueForMoney r; expertise := expertise r;
     professionalism := professionalism r; helpfulVotes := helpfulVotes r;
     isReported := isReported r; reportReason := reportReason r;
     reportedBy := reportedBy r; reportedAt := reportedAt r;
     isHidden := isHidden r; moderationReason := moderationReason r;
     createdAt := createdAt r |}.

Definition set_helpfulVotes (v : list UserId) (r : t) : t :=
  {| _id := _id r; job := job r; reviewer := reviewer r; recipient := recipient r;
     rating := rating r; comment := comment r; isPublic := isPublic r; type := type r;
     communication := communication r; qualityOfWork := qualityOfWork r;
     valueForMoney := valueForMoney r; expertise := expertise r;
     professionalism := professionalism r; helpfulVotes := v;
     isReported := isReported r; reportReason := reportReason r;
     reportedBy := reportedBy r; reportedAt := reportedAt r;
     isHidden := isHidden r; moderationReason := moderationReason r;
     createdAt := createdAt r |}.

(** The four report paths, written together by reportReview. *)
Definition set_report (flag : bool) (reason : option string) (by_ : option UserId)
    (at_ : option Z) (r : t) : t :=
  {| _id := _id r; job := job r; reviewer := reviewer r; recipient := recipient r;
     rating := rating r; comment := comment r; isPublic := isPublic r; type := type r;
     communication := communication r; qualityOfWork := qualityOfWork r;
     valueForMoney := valueForMoney r; expertise := expertise r;
     professionalism := professionalism r; helpfulVotes := helpfulVotes r;
     isReported := flag; reportReason := reason;
     reportedBy := by_; reportedAt := at_;
     isHidden := isHidden r; moderationReason := moderationReason r;
     createdAt := createdAt r |}.

(** *** Sorting and paging of [find] *)

(** Stable insertion into a list that is descending for [leb], where
    [leb x r] says that [x] does not come before [r]. *)
Fixpoint insertDesc (leb : t -> t -> bool) (r : t) (l : list t) : list t :=
  match l with
  | [] => [r]
  | x :: xs => if leb x r then r :: l else x :: insertDesc leb r xs
  end.

(** [.sort({ path: -1 })] *)
Definition sortDesc (leb : t -> t -> bool) (l : list t) : list t :=
  fold_right (insertDesc leb) [] l.

(** [{ createdAt: -1 }] *)
Definition byCreatedAt (x r : t) : bool := createdAt x <=? createdAt r.

(** [{ reportedAt: -1 }]: a missing date sorts below every date. *)
Definition byReportedAt (x r : t) : bool :=
  match reportedAt x, reportedAt r with
  | Some a, Some b => a <=? b
  | Some _, None => false
  | None, _ => true
  end.

(** [.skip(skip).limit(limit)] applied after the sort: the server refuses a
    negative skip; a negative limit counts as its absolute value. *)
Definition page (skip limit : Z) (l : list t) : Thrown + list t :=
  if skip <? 0
  then inl (MongoServerError 51024 [] "BSON field 'skip' value must be >= 0")
  else inr (firstn (Z.abs_nat limit) (skipn (Z.to_nat skip) l)).

(** *** Statics *)

Module CategoryAverages.

Record t : Type := {
  communication : Q;
  qualityOfWork : Q;
  valueForMoney : Q;
  expertise : Q;
  professionalism : Q
}.

End CategoryAverages.

Module RatingDistribution.

Record t : Type := {
  fiveStar : nat;
  fourStar : nat;
  threeStar : nat;
  twoStar : nat;
  oneStar : nat
}.

End RatingDistribution.

Module Stats.

Record t : Type := {
  averageRating : Q;
  totalReviews : nat;
  categoryAverages : CategoryAverages.t;
  ratingDistribution : RatingDistribution.t
}.

End Stats.

Definition sumZ (l : list Z) : Z := fold_right Z.add 0 l.

(** The numeric values of an optional path over a group. *)
Definition values (path : t -> option Z) (l : list t) : list Z :=
  flat_map (fun r => match path r with Some z => [z] | None => [] end) l.

(** [$avg]: the mean of the numeric values, null when there is none. *)
Definition avg (l : list Z) : option Q :=
  match l with
  | [] => None
  | _ :: _ => Some (inject_Z (sumZ l) / inject_Z (Z.of_nat (List.length l)))%Q
  end.

(** [$sum: { $cond: [{ $eq: ['$rating', k] }, 1, 0] }] *)
Definition starCount (k : Z) (l : list t) : nat :=
  List.length (filter (fun r => rating r =? k) l).

(** [Math.round(x * 10) / 10] *)
Definition round1 (x : Q) : Q := (inject_Z (Js.Math_round (x * 10)) / 10)%Q.

(** [x || 0] on the result of [$avg]: null, and 0 itself, give 0. *)
Definition orZero (x : option Q) : Q :=
  match x with
  | Some q => q
  | None => 0%Q
  end.

Definition zeroStats : Stats.t :=
  {| Stats.averageRating := 0%Q;
     Stats.totalReviews := O;
     Stats.categoryAverages :=
       {| CategoryAverages.communication := 0%Q;
          CategoryAverages.qualityOfWork := 0%Q;
          CategoryAverages.valueForMoney := 0%Q;
          CategoryAverages.expertise := 0%Q;
          CategoryAverages.professionalism := 0%Q |};
     Stats.ratingDistribution :=
       {| RatingDistribution.fiveStar := O;
          RatingDistribution.fourStar := O;
          RatingDistribution.threeStar := O;
          RatingDistribution.twoStar := O;
          RatingDistribution.oneStar := O |} |}.

Definition byRecipient (userId : UserId) : query :=
  {| q_job := None; q_reviewer := None; q_recipient := Some userId;
     q_isPublic := None; q_isReported := None |}.

(** [reviewSchema.statics.getReviewStats]: [$match] on the recipient, one
    [$group] over the matched documents (no group when nothing matched).
    The rating is required, so its [$avg] over a group is a number; the
    [$avg] of a category is null when no document of the group has it. *)
Definition getReviewStats (userId : UserId) (c : collection) : Stats.t :=
  match find (byRecipient userId) c with
  | [] => zeroStats
  | (_ :: _) as g =>
      {| Stats.averageRating := round1 (orZero (avg (map rating g)));
         Stats.totalReviews := List.length g;
         Stats.categoryAverages :=
           {| CategoryAverages.communication := round1 (orZero (avg (values communication g)));
              CategoryAverages.qualityOfWork := round1 (orZero (avg (values qualityOfWork g)));
              CategoryAverages.valueForMoney := round1 (orZero (avg (values valueForMoney g)));
              CategoryAverages.expertise := round1 (orZero (avg (values expertise g)));
              CategoryAverages.professionalism := round1 (orZero (avg (values professionalism g))) |};
         Stats.ratingDistribution :=
           {| RatingDistribution.fiveStar := starCount 5 g;
              RatingDistribution.fourStar := starCount 4 g;
              RatingDistribution.threeStar := starCount 3 g;
              RatingDistribution.twoStar := starCount 2 g;
              RatingDistribution.oneStar := starCount 1 g |} |}
  end.

(** [reviewSchema.statics.getAverageRating]: the rounded average and the
    number of reviews of a recipient, both 0 when there is none. *)
Definition getAverageRating (userId : UserId) (c : collection) : Q * nat :=
  match find (byRecipient userId) c with
  | [] => (0%Q, O)
  | (_ :: _) as g => (round1 (orZero (avg (map rating g))), List.length g)
  end.

End Review.

(** ** The collaborators, the store and the responses *)

(** What the controllers obtain from outside: the Job and User models, the
    Notification model ([Some message] when its [create] throws) and the
    clock. *)
Record Env : Type := {
  Job_findById : JobId -> option Job.t;
  User_findById : UserId -> option User.t;
  User_find_admins : list User.t;
  Notification_create : Notification.t -> option string;
  Date_now : Z
}.

Record Store : Type := {
  reviews : Review.collection;
  notifications : list Notification.t
}.

Definition emptyStore : Store :=
  {| reviews := Review.empty; notifications := [] |}.

Definition withReviews (c : Review.collection) (st : Store) : Store :=
  {| reviews := c; notifications := notifications st |}.

(** [await Notification.create(n)] *)
Definition notify (env : Env) (n : Notification.t) (st : Store) : Store * option Thrown :=
  match Notification_create env n with
  | Some message => (st, Some (CollaboratorError message))
  | None => ({| reviews := reviews st; notifications := notifications st ++ [n] |}, None)
  end.

(** A sequence of awaited [Notification.create] calls: the first one that
    throws ends it. *)
Fixpoint notifyAll (env : Env) (ns : list Notification.t) (st : Store) : Store * option Thrown :=
  match ns with
  | [] => (st, None)
  | n :: rest =>
      match notify env n st with
      | (st', Some e) => (st', Some e)
      | (st', None) => notifyAll env rest st'
      end
  end.

(** [.populate(path)]: the referenced user, null when the reference is empty
    or dangling. *)
Definition populate (env : Env) (ref : option UserId) : option User.t :=
  match ref with
  | Some u => User_findById env u
  | None => None
  end.

Inductive Message : Type :=
| Text (s : string)
| ErrorMessage (e : Thrown).

Inductive Data : Type :=
| NoData
| ReviewData (review : Review.t)
| HelpfulData (helpfulCount : nat)
| UserReviewsData (reviews : list Review.t) (stats : Review.Stats.t)
    (page limit : Z) (totalReviews : nat) (totalPages : Z)
| JobReviewsData (clientReview freelancerReview : option Review.t)
| ReportedReviewsData (reportedReviews : list Review.t)
    (page limit : Z) (totalReported : nat) (totalPages : Z)
| ReviewStatsData (totalReviews : nat) (averageRating : Q)
    (starCounts : Review.RatingDistribution.t)
| MessageData (message : string).

(** Modelled from the spec: utils/apiResponse.js is not among the sources.
    A response records the arguments of the call that produced it, in the
    order in which the review controller passes them:
    [successResponse(res, status, message, data)] and
    [errorResponse(res, status, message)]. *)
Inductive Response : Type :=
| successResponse (status : Z) (message : string) (data : Data)
| errorResponse (status : Z) (message : Message).

Definition status (r : Response) : Z :=
  match r with
  | successResponse s _ _ => s
  | errorResponse s _ => s
  end.

Definition isSuccess (r : Response) : bool :=
  match r with
  | successResponse _ _ _ => true
  | errorResponse _ _ => false
  end.

(** [String.prototype.includes] *)
Fixpoint includes (s needle : string) : bool :=
  String.prefix needle s
  || match s with
     | String _ r => includes r needle
     | EmptyString => false
     end.

Definition dquote : string := String (ascii_of_nat 34) EmptyString.

(** [parseInt(x) || d] *)
Definition parseIntOr (x : Js.value) (d : Z) : Z :=
  match Js.parseInt x with
  | Js.Int z => if z =? 0 then d else z
  | Js.NaN => d
  end.

(** Boolean cast of a schema path: the values that convert, null, or a
    cast error. *)
Definition castBoolean (v : Js.value) : option (option bool) :=
  match v with
  | Js.boolean b => Some (Some b)
  | Js.num (Js.Int 1) => Some (Some true)
  | Js.num (Js.Int 0) => Some (Some false)
  | Js.str s =>
      if String.eqb s "true" || String.eqb s "1" || String.eqb s "yes" then Some (Some true)
      else if String.eqb s "false" || String.eqb s "0" || String.eqb s "no" then Some (Some false)
      else None
  | Js.null | Js.undefined => Some None
  | Js.num _ => None
  end.

(** ** controllers/reviewController.js *)

Module CreateReviewReq.

(** [req.user] and the fields read from [req.body]. *)
Record t : Type := {
  user : User.t;
  jobId : JobId;
  recipient : UserId;
  rating : Js.value;
  comment : Js.value;
  communication : Js.value;
  qualityOfWork : Js.value;
  valueForMoney : Js.value;
  expertise : Js.value;
  professionalism : Js.value;
  isPublic : Js.value
}.

End CreateReviewReq.

Definition alreadySubmitted : Response :=
  errorResponse 400 (Text "You have already submitted a review for this job").

(** The inner [catch] of createReview (lines 99-121). *)
Definition onCreateError (error : Thrown) : Response :=
  match error with
  | MongoServerError code keyPattern message =>
      if code =? 11000 then
        if existsb (fun k => String.eqb k "job" || String.eqb k "reviewer" || String.eqb k "recipient")
             keyPattern
        then alreadySubmitted
        else if includes message "from_1_to_1_project_1"
                || includes message "from: null, to: null, project: null"
        then errorResponse 500
               (Text "Database configuration issue. Please contact support. (Legacy index conflict)")
        else errorResponse 400 (Text "Duplicate review detected")
      else errorResponse 500 (ErrorMessage error)
  | _ => errorResponse 500 (ErrorMessage error)
  end.

(** The object literal of line 85. *)
Definition newReview (req : CreateReviewReq.t) (reviewType : Review.ReviewType) : Review.input :=
  let rating := CreateReviewReq.rating req in
  {| Review.in_job := CreateReviewReq.jobId req;
     Review.in_reviewer := User._id (CreateReviewReq.user req);
     Review.in_recipient := CreateReviewReq.recipient req;
     Review.in_rating := Js.parseInt rating;
     Review.in_comment := CreateReviewReq.comment req;
     Review.in_communication := Js.parseInt (Js.or (CreateReviewReq.communication req) rating);
     Review.in_qualityOfWork := Js.parseInt (Js.or (CreateReviewReq.qualityOfWork req) rating);
     Review.in_valueForMoney := Js.parseInt (Js.or (CreateReviewReq.valueForMoney req) rating);
     Review.in_expertise := Js.parseInt (Js.or (CreateReviewReq.expertise req) rating);
     Review.in_professionalism := Js.parseInt (Js.or (CreateReviewReq.professionalism req) rating);
     Review.in_type := reviewType;
     Review.in_isPublic :=
       match CreateReviewReq.isPublic req with
       | Js.boolean false => false
       | _ => true
       end |}.

Definition newReviewNotification (req : CreateReviewReq.t) (job : Job.t) (review : Review.t)
    : Notification.t :=
  {| Notification.recipient := Some (CreateReviewReq.recipient req);
     Notification.type := "new-review";
     Notification.title := "New Review Received";
     Notification.message :=
       "You've received a " ++ Js.ToString (CreateReviewReq.rating req)
       ++ "-star review for the job " ++ dquote ++ Job.title job ++ dquote;
     Notification.data_review := Some (Review._id review) |}.

(** createReview. Between its awaits other requests may commit, so the
    collection that [Review.findOne] reads at line 72 ([seen]) and the
    store that [Review.create] writes at line 85 ([st]) are separate
    arguments; [createReview] below runs both on one store. *)
Definition createReview_at (env : Env) (seen st : Store) (req : CreateReviewReq.t)
    : Store * Response :=
  let jobId := CreateReviewReq.jobId req in
  let recipient := CreateReviewReq.recipient req in
  let user := CreateReviewReq.user req in
  match Job_findById env jobId with
  | None => (st, errorResponse 404 (Text "Job not found"))
  | Some job =>
      match User_findById env recipient with
      | None => (st, errorResponse 404 (Text "Recipient user not found"))
      | Some recipientUser =>
          if negb (String.eqb (Job.status job) "completed")
          then (st, errorResponse 400 (Text "You can only review completed jobs"))
          else if negb (Review.isSome (populate env (Job.client job)))
                  || negb (Review.isSome (populate env (Job.hiredFreelancer job)))
          then (st, errorResponse 400
                      (Text "Job must have both a client and hired freelancer to submit reviews"))
          else
            let isClient := String.eqb (User.role user) "client" in
            let isFreelancer := String.eqb (User.role user) "freelancer" in
            if negb isClient && negb isFreelancer
            then (st, errorResponse 403
                        (Text "You must be either the client or the hired freelancer to submit a review"))
            else
              let reviewType :=
                if isClient then Review.client_to_freelancer else Review.freelancer_to_client in
              match Review.findOne (Review.sameKey jobId (User._id user) recipient) (reviews seen) with
              | Some existingReview => (st, alreadySubmitted)
              | None =>
                  match Review.create (Date_now env) (newReview req reviewType) (reviews st) with
                  | (_, inl error) => (st, onCreateError error)
                  | (c, inr review) =>
                      match notify env (newReviewNotification req job review) (withReviews c st) with
                      | (st', Some error) => (st', errorResponse 500 (ErrorMessage error))
                      | (st', None) =>
                          (st', successResponse 201 "Review submitted successfully" (ReviewData review))
                      end
                  end
              end
      end
  end.

Definition createReview (env : Env) (st : Store) (req : CreateReviewReq.t) : Store * Response :=
  createReview_at env st st req.

Module GetUserReviewsReq.

(** [req.user] is absent when the caller is not authenticated. *)
Record t : Type := {
  user : option User.t;
  userId : UserId;
  page : Js.value;
  limit : Js.value
}.

End GetUserReviewsReq.

(** The filter of getUserReviews (lines 170-176). *)
Definition userReviewsQuery (req : GetUserReviewsReq.t) : Review.query :=
  let userId := GetUserReviewsReq.userId req in
  {| Review.q_job := None;
     Review.q_reviewer := None;
     Review.q_recipient := Some userId;
     Review.q_isPublic :=
       match GetUserReviewsReq.user req with
       | None => Some true
       | Some u => if negb (Nat.eqb (User._id u) userId) then Some true else None
       end;
     Review.q_isReported := None |}.

Definition totalPages (total : nat) (limit : Z) : Z :=
  Js.Math_ceil (inject_Z (Z.of_nat total) / inject_Z limit)%Q.

Definition getUserReviews (env : Env) (st : Store) (req : GetUserReviewsReq.t)
    : Store * Response :=
  let userId := GetUserReviewsReq.userId req in
  let page := parseIntOr (GetUserReviewsReq.page req) 1 in
  let limit := parseIntOr (GetUserReviewsReq.limit req) 10 in
  let skip := (page - 1) * limit in
  match User_findById env userId with
  | None => (st, errorResponse 404 (Text "User not found"))
  | Some user =>
      let query := userReviewsQuery req in
      let totalReviews := Review.countDocuments query (reviews st) in
      match Review.page skip limit
              (Review.sortDesc Review.byCreatedAt (Review.find query (reviews st))) with
      | inl error => (st, errorResponse 500 (ErrorMessage error))
      | inr reviews_ =>
          let reviewStats := Review.getReviewStats userId (reviews st) in
          (st, successResponse 200 "Reviews retrieved successfully"
                 (UserReviewsData reviews_ reviewStats page limit totalReviews
                    (totalPages totalReviews limit)))
      end
  end.

Definition getJobReviews (env : Env) (st : Store) (jobId : JobId) : Store * Response :=
  match Job_findById env jobId with
  | None => (st, errorResponse 404 (Text "Job not found"))
  | Some job =>
      let reviewOf (party : option User.t) :=
        match party with
        | Some u =>
            Review.findOne
              {| Review.q_job := Some jobId; Review.q_reviewer := Some (User._id u);
                 Review.q_recipient := None; Review.q_isPublic := None;
                 Review.q_isReported := None |} (reviews st)
        | None => None
        end in
      let clientReview := reviewOf (populate env (Job.client job)) in
      let freelancerReview := reviewOf (populate env (Job.hiredFreelancer job)) in
      (st, successResponse 200 "Job reviews retrieved successfully"
             (JobReviewsData clientReview freelancerReview))
  end.

Module UpdateReviewReq.

Record t : Type := {
  user : User.t;
  id : ReviewId;
  rating : Js.value;
  content : Js.value;
  communication : Js.value;
  quality : Js.value;
  expertise : Js.value;
  deadlineAdherence : Js.value;
  overallExperience : Js.value;
  isPublic : Js.value
}.

End UpdateReviewReq.

(** [setDate(getDate() - 30)] in milliseconds, for a clock without
    daylight-saving changes. *)
Definition thirtyDays : Z := 30 * 24 * 60 * 60 * 1000.

(** The first of the [review.categories.x = ...] assignments that runs:
    [review.categories] is undefined, so it throws. *)
Definition categoriesAssignment (req : UpdateReviewReq.t) : option Thrown :=
  let throws (field : string) :=
    Some (TypeError ("Cannot set properties of undefined (setting '" ++ field ++ "')")) in
  if Js.truthy (UpdateReviewReq.communication req) then throws "communication"
  else if Js.truthy (UpdateReviewReq.quality req) then throws "quality"
  else if Js.truthy (UpdateReviewReq.expertise req) then throws "expertise"
  else if Js.truthy (UpdateReviewReq.deadlineAdherence req) then throws "deadlineAdherence"
  else if Js.truthy (UpdateReviewReq.overallExperience req) then throws "overallExperience"
  else None.

(** [if (rating) review.rating = parseInt(rating)]: the document after the
    assignment and the path when the value does not cast. *)
Definition assignRating (v : Js.value) (review : Review.t) : Review.t * list string :=
  if Js.truthy v then
    match Js.parseInt v with
    | Js.Int z => (Review.set_rating z review, [])
    | Js.NaN => (review, ["rating"])
    end
  else (review, []).

(** [if (isPublic !== undefined) review.isPublic = isPublic] *)
Definition assignIsPublic (v : Js.value) (review : Review.t) : Review.t * list string :=
  match v with
  | Js.undefined => (review, [])
  | _ =>
      match castBoolean v with
      | Some b => (Review.set_isPublic b review, [])
      | None => (review, ["isPublic"])
      end
  end.

Definition reviewUpdatedNotification (review : Review.t) : Notification.t :=
  {| Notification.recipient := Some (Review.recipient review);
     Notification.type := "new_review";
     Notification.title := "Review Updated";
     Notification.message := "A review you received has been updated";
     Notification.data_review := Some (Review._id review) |}.

(** updateReview. [content] is not a path of the schema: assigning it
    leaves the stored document as it is. *)
Definition updateReview (env : Env) (st : Store) (req : UpdateReviewReq.t) : Store * Response :=
  match Review.findById (UpdateReviewReq.id req) (reviews st) with
  | None => (st, errorResponse 404 (Text "Review not found"))
  | Some review =>
      if negb (Nat.eqb (Review.reviewer review) (User._id (UpdateReviewReq.user req)))
      then (st, errorResponse 403 (Text "You can only update your own reviews"))
      else
        let thirtyDaysAgo := Date_now env - thirtyDays in
        if Review.createdAt review <? thirtyDaysAgo
        then (st, errorResponse 400
                    (Text "Reviews can only be updated within 30 days of creation"))
        else
          let '(review1, e1) := assignRating (UpdateReviewReq.rating req) review in
          match categoriesAssignment req with
          | Some error => (st, errorResponse 500 (ErrorMessage error))
          | None =>
              let '(review2, e2) := assignIsPublic (UpdateReviewReq.isPublic req) review1 in
              match (e1 ++ e2)%list with
              | _ :: _ as castErrors =>
                  (st, errorResponse 500
                         (ErrorMessage (ValidationError (castErrors ++ Review.validate review2)%list)))
              | [] =>
                  match Review.save review2 (reviews st) with
                  | (_, inl error) => (st, errorResponse 500 (ErrorMessage error))
                  | (c, inr saved) =>
                      match notify env (reviewUpdatedNotification saved) (withReviews c st) with
                      | (st', Some error) => (st', errorResponse 500 (ErrorMessage error))
                      | (st', None) =>
                          (st', successResponse 200 "Review updated successfully" (ReviewData saved))
                      end
                  end
              end
          end
  end.

Module ByIdReq.

(** A request that names a review by [req.params.id]. *)
Record t : Type := {
  user : User.t;
  id : ReviewId
}.

End ByIdReq.

Definition deleteReview (env : Env) (st : Store) (req : ByIdReq.t) : Store * Response :=
  let reviewId := ByIdReq.id req in
  match Review.findById reviewId (reviews st) with
  | None => (st, errorResponse 404 (Text "Review not found"))
  | Some review =>
      if negb (Nat.eqb (Review.reviewer review) (User._id (ByIdReq.user req)))
         && negb (String.eqb (User.role (ByIdReq.user req)) "admin")
      then (st, errorResponse 403 (Text "You can only delete your own reviews"))
      else
        (withReviews (Review.findByIdAndDelete reviewId (reviews st)) st,
         successResponse 200 "Review deleted successfully" NoData)
  end.

Module ReportReviewReq.

Record t : Type := {
  user : User.t;
  id : ReviewId;
  reason : Js.value
}.

End ReportReviewReq.

Definition reviewReportedNotification (reason : Js.value) (review : Review.t) (admin : User.t)
    : Notification.t :=
  {| Notification.recipient := Some (User._id admin);
     Notification.type := "system_notification";
     Notification.title := "Review Reported";
     Notification.message :=
       "A review has been reported for violation. Reason: " ++ Js.ToString reason;
     Notification.data_review := Some (Review._id review) |}.

Definition reportReview (env : Env) (st : Store) (req : ReportReviewReq.t) : Store * Response :=
  let reason := ReportReviewReq.reason req in
  if negb (Js.truthy reason)
  then (st, errorResponse 400 (Text "Report reason is required"))
  else
    match Review.findById (ReportReviewReq.id req) (reviews st) with
    | None => (st, errorResponse 404 (Text "Review not found"))
    | Some review =>
        let userId := User._id (ReportReviewReq.user req) in
        if negb (Nat.eqb (Review.recipient review) userId)
        then (st, errorResponse 403 (Text "You can only report reviews about yourself"))
        else
          let reported :=
            Review.set_report true (Some (Js.trim (Js.ToString reason))) (Some userId)
              (Some (Date_now env)) review in
          match Review.save reported (reviews st) with
          | (_, inl error) => (st, errorResponse 500 (ErrorMessage error))
          | (c, inr saved) =>
              match notifyAll env (map (reviewReportedNotification reason saved)
                                     (User_find_admins env)) (withReviews c st) with
              | (st', Some error) => (st', errorResponse 500 (ErrorMessage error))
              | (st', None) =>
                  (st', successResponse 200
                          "Review reported successfully. Our team will review it shortly." NoData)
              end
          end
    end.

(** markReviewAsHelpful: the toggle of the caller's entry in
    [helpfulVotes]. *)
Definition markReviewAsHelpful (env : Env) (st : Store) (req : ByIdReq.t) : Store * Response :=
  let userId := User._id (ByIdReq.user req) in
  match Review.findById (ByIdReq.id req) (reviews st) with
  | None => (st, errorResponse 404 (Text "Review not found"))
  | Some review =>
      let alreadyMarked := existsb (fun item => Nat.eqb item userId) (Review.helpfulVotes review) in
      if alreadyMarked then
        let review' :=
          Review.set_helpfulVotes
            (filter (fun item => negb (Nat.eqb item userId)) (Review.helpfulVotes review)) review in
        match Review.save review' (reviews st) with
        | (_, inl error) => (st, errorResponse 500 (ErrorMessage error))
        | (c, inr saved) =>
            (withReviews c st,
             successResponse 200 "Removed helpful mark from review"
               (HelpfulData (List.length (Review.helpfulVotes saved))))
        end
      else
        let review' :=
          Review.set_helpfulVotes (Review.helpfulVotes review ++ [userId]) review in
        match Review.save review' (reviews st) with
        | (_, inl error) => (st, errorResponse 500 (ErrorMessage error))
        | (c, inr saved) =>
            (withReviews c st,
             successResponse 200 "Marked review as helpful"
               (HelpfulData (List.length (Review.helpfulVotes saved))))
        end
  end.

Module PageReq.

Record t : Type := {
  user : User.t;
  page : Js.value;
  limit : Js.value
}.

End PageReq.

Definition reportedQuery : Review.query :=
  {| Review.q_job := None; Review.q_reviewer := None; Review.q_recipient := None;
     Review.q_isPublic := None; Review.q_isReported := Some true |}.

Definition getReportedReviews (env : Env) (st : Store) (req : PageReq.t) : Store * Response :=
  if negb (String.eqb (User.role (PageReq.user req)) "admin")
  then (st, errorResponse 403 (Text "Not authorized to access reported reviews"))
  else
    let page := parseIntOr (PageReq.page req) 1 in
    let limit := parseIntOr (PageReq.limit req) 10 in
    let skip := (page - 1) * limit in
    let totalReported := Review.countDocuments reportedQuery (reviews st) in
    match Review.page skip limit
            (Review.sortDesc Review.byReportedAt (Review.find reportedQuery (reviews st))) with
    | inl error => (st, errorResponse 500 (ErrorMessage error))
    | inr reportedReviews =>
        (st, successResponse 200 "Reported reviews retrieved successfully"
               (ReportedReviewsData reportedReviews page limit totalReported
                  (totalPages totalReported limit)))
    end.

(** getReviewStats of the controller (the administrators' global figures):
    the count, the unrounded average and the star counts over the whole
    collection. The category averages (read from [categories.*], which no
    document has) and the per-month breakdown are not part of this data. *)
Definition getReviewStats (env : Env) (st : Store) (user : User.t) : Store * Response :=
  if negb (String.eqb (User.role user) "admin")
  then (st, errorResponse 403 (Text "Not authorized to access review statistics"))
  else
    let g := Review.docs (reviews st) in
    (st, successResponse 200 "Review statistics retrieved successfully"
           (ReviewStatsData (List.length g)
              (Review.orZero (Review.avg (map Review.rating g)))
              {| Review.RatingDistribution.fiveStar := Review.starCount 5 g;
                 Review.RatingDistribution.fourStar := Review.starCount 4 g;
                 Review.RatingDistribution.threeStar := Review.starCount 3 g;
                 Review.RatingDistribution.twoStar := Review.starCount 2 g;
                 Review.RatingDistribution.oneStar := Review.starCount 1 g |})).

(** ** controllers/adminController.js *)

Module Admin.

(** The controller's own helpers: [successResponse(res, data, statusCode = 200)]
    and [errorResponse(res, message, statusCode = 500)]. *)
Definition successResponse (data : Data) : Response :=
  successResponse 200 "" data.

Definition errorResponse (message : Message) (statusCode : Z) : Response :=
  errorResponse statusCode message.

(** The [reported] subdocument that handleReportedReview reads. *)
Record reported_t : Type := {
  isReported : bool;
  reportedBy : option UserId
}.

(** [review.reported], [review.from] and [review.to]: [reviewSchema]
    declares none of these paths, and a document of a strict schema has no
    property for an undeclared path, so each of them reads as undefined. *)
Definition reported (review : Review.t) : option reported_t := None.

Definition from (review : Review.t) : option UserId := None.

Definition to (review : Review.t) : option UserId := None.

Record req : Type := {
  user : User.t;
  reviewId : ReviewId;
  action : Js.value;
  adminNotes : Js.value
}.

(** [['approve', 'reject', 'delete'].includes(action)] *)
Definition recognized (action : Js.value) : bool :=
  match action with
  | Js.str s => existsb (String.eqb s) ["approve"; "reject"; "delete"]
  | _ => false
  end.

Definition isAction (action : Js.value) (name : string) : bool :=
  match action with
  | Js.str s => String.eqb s name
  | _ => false
  end.

Definition systemNotification (recipient : option UserId) (title message : string)
    : Notification.t :=
  {| Notification.recipient := recipient;
     Notification.type := "system-notification";
     Notification.title := title;
     Notification.message := message;
     Notification.data_review := None |}.

Definition removedMessage : string :=
  "A review you were involved with has been removed by an administrator for violating our guidelines.".

Definition answer (out : Store * option Thrown) (message : string) : Store * Response :=
  match out with
  | (st', Some error) => (st', errorResponse (ErrorMessage error) 500)
  | (st', None) => (st', successResponse (MessageData message))
  end.

Definition handleReportedReview (env : Env) (st : Store) (r : req) : Store * Response :=
  let action := action r in
  if negb (recognized action)
  then (st, errorResponse (Text "Invalid action. Must be approve, reject, or delete.") 400)
  else
    match Review.findById (reviewId r) (reviews st) with
    | None => (st, errorResponse (Text "Review not found") 404)
    | Some review =>
        match reported review with
        | None => (st, errorResponse (Text "This review has not been reported") 400)
        | Some rep =>
            if negb (isReported rep)
            then (st, errorResponse (Text "This review has not been reported") 400)
            else if isAction action "delete" then
              answer
                (notifyAll env
                   [systemNotification (from review) "Review Removed" removedMessage;
                    systemNotification (to review) "Review Removed" removedMessage]
                   (withReviews (Review.remove review (reviews st)) st))
                "Reported review has been deleted"
            else if isAction action "approve" then
              match Review.save review (reviews st) with
              | (_, inl error) => (st, errorResponse (ErrorMessage error) 500)
              | (c, inr _) =>
                  answer
                    (notifyAll env
                       [systemNotification (from review) "Review Report Resolved"
                          "A report against your review has been reviewed and the review has been maintained.";
                        systemNotification (reportedBy rep) "Review Report Resolved"
                          "Thank you for your report. After careful review, we have determined that the review does not violate our guidelines."]
                       (withReviews c st))
                    "Review report has been approved (rejected)"
              end
            else
              match Review.save (Review.set_isPublic (Some false) review) (reviews st) with
              | (_, inl error) => (st, errorResponse (ErrorMessage error) 500)
              | (c, inr _) =>
                  answer
                    (notifyAll env
                       [systemNotification (from review) "Review Hidden"
                          "Your review has been hidden as it was found to violate our community guidelines.";
                        systemNotification (reportedBy rep) "Review Report Resolved"
                          "Thank you for your report. After careful review, we have hidden the review as it violated our guidelines."]
                       (withReviews c st))
                    "Review has been hidden and report resolved"
              end
        end
    end.

End Admin.

(** ** The exposed operations *)

Inductive Request : Type :=
| CreateReview (req : CreateReviewReq.t)
| GetUserReviews (req : GetUserReviewsReq.t)
| GetJobReviews (jobId : JobId)
| UpdateReview (req : UpdateReviewReq.t)
| DeleteReview (req : ByIdReq.t)
| ReportReview (req : ReportReviewReq.t)
| MarkReviewAsHelpful (req : ByIdReq.t)
| GetReportedReviews (req : PageReq.t)
| GetReviewStats (user : User.t)
| HandleReportedReview (req : Admin.req).

Definition handle (env : Env) (st : Store) (rq : Request) : Store * Response :=
  match rq with
  | CreateReview req => createReview env st req
  | GetUserReviews req => getUserReviews env st req
  | GetJobReviews jobId => getJobReviews env st jobId
  | UpdateReview req => updateReview env st req
  | DeleteReview req => deleteReview env st req
  | ReportReview req => reportReview env st req
  | MarkReviewAsHelpful req => markReviewAsHelpful env st req
  | GetReportedReviews req => getReportedReviews env st req
  | GetReviewStats user => getReviewStats env st user
  | HandleReportedReview req => Admin.handleReportedReview env st req
  end.

(** The stores that the operations produce from the empty store, one
    request after the other, under any behaviour of the collaborators. *)
Inductive reachable : Store -> Prop :=
| reachable_empty : reachable emptyStore
| reachable_step (env : Env) (st : Store) (rq : Request) :
    reachable st -> reachable (fst (handle env st rq)).

(** ** The specification's vocabulary *)


(** The mean of a list of scores, 0 for the empty list. *)
Definition mean (l : list Z) : Q :=
  match l with
  | [] => 0%Q
  | _ :: _ => (inject_Z (fold_right Z.add 0%Z l) / inject_Z (Z.of_nat (List.length l)))%Q
  end.

(** A category of the payload against the score that is stored for it:
    the payload omits the category and the stored score is the rating [z],
    or the payload gives a Number from 1 to 5 and that Number is stored. *)
Definition defaultsTo (z : Z) (category : Js.value) (score : option Z) : Prop :=
  (category = Js.undefined /\ score = Some z)
  \/ (exists k, category = Js.num (Js.Int k) /\ 1 <= k <= 5 /\ score = Some k).


(** The error taxonomy of the specification, and the HTTP status with which
    the controllers answer each kind. *)
Inductive ErrorKind : Type :=
| NotFound
| InvalidState
| Forbidden
| Conflict
| InvalidArgument.

Definition statusOf (k : ErrorKind) : Z :=
  match k with
  | NotFound => 404
  | Forbidden => 403
  | InvalidState | Conflict | InvalidArgument => 400
  end.

(** The preconditions 1-5 of submitReview in the order of the
    specification: what must hold, the kind of the failure, and the message
    of the controller. A precondition on the job does not hold when there
    is no job. *)
Definition preconditions (env : Env) (req : CreateReviewReq.t)
    : list (bool * ErrorKind * string) :=
  let job := Job_findById env (CreateReviewReq.jobId req) in
  let role := User.role (CreateReviewReq.user req) in
  let assigned (party : Job.t -> option UserId) :=
    match job with
    | Some j => Review.isSome (populate env (party j))
    | None => false
    end in
  [ (Review.isSome job, NotFound, "Job not found");
    (Review.isSome (User_findById env (CreateReviewReq.recipient req)), NotFound,
     "Recipient user not found");
    (match job with Some j => String.eqb (Job.status j) "completed" | None => false end,
     InvalidState, "You can only review completed jobs");
    (assigned Job.client && assigned Job.hiredFreelancer, InvalidState,
     "Job must have both a client and hired freelancer to submit reviews");
    (String.eqb role "client" || String.eqb role "freelancer", Forbidden,
     "You must be either the client or the hired freelancer to submit a review") ].

(** Fail fast: the first precondition that does not hold. *)
Definition firstFailure (env : Env) (req : CreateReviewReq.t) : option (ErrorKind * string) :=
  match List.find (fun p => negb (fst (fst p))) (preconditions env req) with
  | Some (_, kind, message) => Some (kind, message)
  | None => None
  end.

(** The review type derived from the role of the acting user. *)
Definition derivedType (req : CreateReviewReq.t) : Review.ReviewType :=
  if String.eqb (User.role (CreateReviewReq.user req)) "client"
  then Review.client_to_freelancer
  else Review.freelancer_to_client.

(** The key of the unique index for a submission. *)
Definition keyOf (req : CreateReviewReq.t) : Review.query :=
  Review.sameKey (CreateReviewReq.jobId req) (User._id (CreateReviewReq.user req))
    (CreateReviewReq.recipient req).

(** What createReview does once the preconditions 1-5 hold: the advisory
    lookup, the insert, the notification. *)
Definition submitChecked (env : Env) (seen st : Store) (req : CreateReviewReq.t) (job : Job.t)
    : Store * Response :=
  match Review.findOne (keyOf req) (reviews seen) with
  | Some _ => (st, alreadySubmitted)
  | None =>
      match Review.create (Date_now env) (newReview req (derivedType req)) (reviews st) with
      | (_, inl error) => (st, onCreateError error)
      | (c, inr review) =>
          match notify env (newReviewNotification req job review) (withReviews c st) with
          | (st', Some error) => (st', errorResponse 500 (ErrorMessage error))
          | (st', None) =>
              (st', successResponse 201 "Review submitted successfully" (ReviewData review))
          end
      end
  end.

(** What holds of every document that the controllers have stored: it
    passes the validators of the schema, and no user occurs twice in its
    helpful votes. *)
Definition wellFormedReview (r : Review.t) : Prop :=
  Review.validate r = [] /\ NoDup (Review.helpfulVotes r).

Definition wellFormed (st : Store) : Prop :=
  Forall wellFormedReview (Review.docs (reviews st)).

(** The moderation fields of the data model. *)
Definition moderationFields (r : Review.t)
    : bool * option string * option UserId * option Z * bool * option string :=
  (Review.isReported r, Review.reportReason r, Review.reportedBy r, Review.reportedAt r,
   Review.isHidden r, Review.moderationReason r).

(** The toggle of the specification on a set of voters kept as a list:
    remove the user when present, add the user otherwise. *)
Definition toggle (userId : UserId) (votes : list UserId) : list UserId :=
  if existsb (fun item => Nat.eqb item userId) votes
  then filter (fun item => negb (Nat.eqb item userId)) votes
  else (votes ++ [userId])%list.

(** The caller of getUserReviews is the recipient whose reviews are
    queried. *)
Definition ownReviews (req : GetUserReviewsReq.t) : bool :=
  match GetUserReviewsReq.user req with
  | Some u => Nat.eqb (User._id u) (GetUserReviewsReq.userId req)
  | None => false
  end.

Definition receivedBy (userId : UserId) (r : Review.t) : bool :=
  Nat.eqb (Review.recipient r) userId.

(** The [isPublic] flag of the review is true. *)
Definition public (r : Review.t) : bool :=
  match Review.isPublic r with
  | Some true => true
  | _ => false
  end.

(** ** A marketplace used in the examples *)

Module Scenario.

Definition client : User.t := {| User._id := 1%nat; User.role := "client" |}.

Definition freelancer : User.t := {| User._id := 2%nat; User.role := "freelancer" |}.

Definition admin : User.t := {| User._id := 3%nat; User.role := "admin" |}.

Definition users (id : UserId) : option User.t :=
  match id with
  | 1%nat => Some client
  | 2%nat => Some freelancer
  | 3%nat => Some admin
  | _ => None
  end.

(** Jobs 1 to 5 are completed jobs of the client with the freelancer; job 6
    is still open. *)
Definition jobs (id : JobId) : option Job.t :=
  if ((1 <=? id) && (id <=? 5))%nat then
    Some {| Job._id := id; Job.status := "completed"; Job.client := Some 1%nat;
            Job.hiredFreelancer := Some 2%nat; Job.title := "Logo design" |}
  else if (id =? 6)%nat then
    Some {| Job._id := id; Job.status := "open"; Job.client := Some 1%nat;
            Job.hiredFreelancer := Some 2%nat; Job.title := "Landing page" |}
  else None.

Definition env : Env :=
  {| Job_findById := jobs;
     User_findById := users;
     User_find_admins := [admin];
     Notification_create := fun _ => None;
     Date_now := 1000 |}.

(** The same marketplace while the notification model refuses writes. *)
Definition envNotificationsDown : Env :=
  {| Job_findById := jobs;
     User_findById := users;
     User_find_admins := [admin];
     Notification_create := fun _ => Some "notifications unavailable";
     Date_now := 1000 |}.

(** A payload with a rating and a comment only. *)
Definition submit (user : User.t) (jobId : JobId) (recipient : UserId) (rating : Z)
    : CreateReviewReq.t :=
  {| CreateReviewReq.user := user;
     CreateReviewReq.jobId := jobId;
     CreateReviewReq.recipient := recipient;
     CreateReviewReq.rating := Js.num (Js.Int rating);
     CreateReviewReq.comment := Js.str "Great work, thanks!";
     CreateReviewReq.communication := Js.undefined;
     CreateReviewReq.qualityOfWork := Js.undefined;
     CreateReviewReq.valueForMoney := Js.undefined;
     CreateReviewReq.expertise := Js.undefined;
     CreateReviewReq.professionalism := Js.undefined;
     CreateReviewReq.isPublic := Js.undefined |}.

(** The review that the first submission stores. *)
Definition firstReview : Review.t :=
  {| Review._id := 0%nat; Review.job := 1%nat; Review.reviewer := 1%nat;
     Review.recipient := 2%nat; Review.rating := 5;
     Review.comment := "Great work, thanks!"; Review.isPublic := Some true;
     Review.type := Review.client_to_freelancer;
     Review.communication := Some 5; Review.qualityOfWork := Some 5;
     Review.valueForMoney := Some 5; Review.expertise := Some 5;
     Review.professionalism := Some 5; Review.helpfulVotes := [];
     Review.isReported := false; Review.reportReason := None;
     Review.reportedBy := None; Review.reportedAt := None;
     Review.isHidden := false; Review.moderationReason := None;
     Review.createdAt := 1000 |}.

Definition job1 : Job.t :=
  {| Job._id := 1%nat; Job.status := "completed"; Job.client := Some 1%nat;
     Job.hiredFreelancer := Some 2%nat; Job.title := "Logo design" |}.

(** The client has reviewed the freelancer for job 1 with five stars. *)
Definition oneReview : Store :=
  fst (createReview env emptyStore (submit client 1%nat 2%nat 5)).

(** The client has reviewed the freelancer for the jobs 1 to 5 with the
    ratings 5, 5, 4, 3, 5. *)
Definition fiveReviews : Store :=
  fold_left
    (fun st jr => fst (createReview env st (submit client (fst jr) 2%nat (snd jr))))
    [(1%nat, 5); (2%nat, 5); (3%nat, 4); (4%nat, 3); (5%nat, 5)] emptyStore.

(** The freelancer has reported the review of job 1. *)
Definition reportedReview : Store :=
  fst (reportReview env oneReview
         {| ReportReviewReq.user := freelancer; ReportReviewReq.id := 0%nat;
            ReportReviewReq.reason := Js.str "spam" |}).

Definition moderate (action : string) : Admin.req :=
  {| Admin.user := admin; Admin.reviewId := 0%nat;
     Admin.action := Js.str action; Admin.adminNotes := Js.undefined |}.

Definition byId (user : User.t) (id : ReviewId) : ByIdReq.t :=
  {| ByIdReq.user := user; ByIdReq.id := id |}.

(** The freelancer's review of the client for job 1, not public. *)
Definition privateFeedback : CreateReviewReq.t :=
  {| CreateReviewReq.user := freelancer;
     CreateReviewReq.jobId := 1%nat;
     CreateReviewReq.recipient := 1%nat;
     CreateReviewReq.rating := Js.str "2";
     CreateReviewReq.comment := Js.str "  Paid late, unclear brief.  ";
     CreateReviewReq.communication := Js.num (Js.Int 1);
     CreateReviewReq.qualityOfWork := Js.undefined;
     CreateReviewReq.valueForMoney := Js.undefined;
     CreateReviewReq.expertise := Js.undefined;
     CreateReviewReq.professionalism := Js.undefined;
     CreateReviewReq.isPublic := Js.boolean false |}.

(** What that submission stores. *)
Definition secondReview : Review.t :=
  {| Review._id := 1%nat; Review.job := 1%nat; Review.reviewer := 2%nat;
     Review.recipient := 1%nat; Review.rating := 2;
     Review.comment := "Paid late, unclear brief."; Review.isPublic := Some false;
     Review.type := Review.freelancer_to_client;
     Review.communication := Some 1; Review.qualityOfWork := Some 2;
     Review.valueForMoney := Some 2; Review.expertise := Some 2;
     Review.professionalism := Some 2; Review.helpfulVotes := [];
     Review.isReported := false; Review.reportReason := None;
     Review.reportedBy := None; Review.reportedAt := None;
     Review.isHidden := false; Review.moderationReason := None;
     Review.createdAt := 1000 |}.

(** Both parties have reviewed each other for job 1. *)
Definition bothReviews : Store :=
  fst (createReview env oneReview privateFeedback).

(** The author lowers the rating of review 0 to one star. *)
Definition lowerRating : UpdateReviewReq.t :=
  {| UpdateReviewReq.user := client;
     UpdateReviewReq.id := 0%nat;
     UpdateReviewReq.rating := Js.num (Js.Int 1);
     UpdateReviewReq.content := Js.undefined;
     UpdateReviewReq.communication := Js.undefined;
     UpdateReviewReq.quality := Js.undefined;
     UpdateReviewReq.expertise := Js.undefined;
     UpdateReviewReq.deadlineAdherence := Js.undefined;
     UpdateReviewReq.overallExperience := Js.undefined;
     UpdateReviewReq.isPublic := Js.undefined |}.

Definition listFor (user : option User.t) (userId : UserId) : GetUserReviewsReq.t :=
  {| GetUserReviewsReq.user := user; GetUserReviewsReq.userId := userId;
     GetUserReviewsReq.page := Js.undefined; GetUserReviewsReq.limit := Js.undefined |}.

End Scenario.

(** Four reviews that the freelancer has received, some of them without
    some of the category scores (documents older than the defaults of
    createReview): communication 4, 4, 4, 5; quality of work 4, none, 5,
    none; value for money none at all; expertise and professionalism 5
    throughout. *)
Module Scored.

Definition review (id : ReviewId) (jobId : JobId) (rating : Z)
    (communication qualityOfWork valueForMoney : option Z) : Review.t :=
  {| Review._id := id; Review.job := jobId; Review.reviewer := 1%nat;
     Review.recipient := 2%nat; Review.rating := rating;
     Review.comment := "Great work, thanks!"; Review.isPublic := Some true;
     Review.type := Review.client_to_freelancer;
     Review.communication := communication; Review.qualityOfWork := qualityOfWork;
     Review.valueForMoney := valueForMoney; Review.expertise := Some 5;
     Review.professionalism := Some 5; Review.helpfulVotes := [];
     Review.isReported := false; Review.reportReason := None;
     Review.reportedBy := None; Review.reportedAt := None;
     Review.isHidden := false; Review.moderationReason := None;
     Review.createdAt := 1000 |}.

Definition reviews : Review.collection :=
  {| Review.docs :=
       [review 0%nat 1%nat 5 (Some 4) (Some 4) None;
        review 1%nat 2%nat 4 (Some 4) None None;
        review 2%nat 3%nat 5 (Some 4) (Some 5) None;
        review 3%nat 4%nat 3 (Some 5) None None];
     Review.next_id := 4%nat |}.

End Scored.

(** The example of the specification on binary64 Numbers, as the runtime
    computes it: the [$avg] of 5, 5, 4, 3, 5, times 10, lies in
    [43.5, 44.5), so [Math.round] gives 44, and 44 / 10 is the Number
    written 4.4 (0x1.199999999999ap+2). *)
Definition binary64Example : bool :=
  let averageRating := ((5 + 5 + 4 + 3 + 5) / 5)%float in
  let scaled := (averageRating * 10)%float in
  (PrimFloat.leb 43.5 scaled && PrimFloat.ltb scaled 44.5
   && PrimFloat.eqb (44 / 10) 0x1.199999999999ap+2)%float.

(** ** Vocabulary of the further properties *)

(** The key of a review under the unique index. *)
Definition keyTriple (r : Review.t) : JobId * UserId * UserId :=
  (Review.job r, Review.reviewer r, Review.recipient r).

(** The storage invariant: ObjectIds are distinct and older than the next
    fresh one, and no two documents have the same key. *)
Definition storeInvariant (c : Review.collection) : Prop :=
  NoDup (map Review._id (Review.docs c))
  /\ Forall (fun r => (Review._id r < Review.next_id c)%nat) (Review.docs c)
  /\ NoDup (map keyTriple (Review.docs c)).

(** The writes that the controllers perform on the collection: none, an
    insert, the save of a loaded document (same id and key), a delete by
    id. *)
Inductive evolves (c : Review.collection) : Review.collection -> Prop :=
| evolves_same : evolves c c
| evolves_create (now : Z) (i : Review.input) (c' : Review.collection) (r : Review.t) :
    Review.create now i c = (c', inr r) -> evolves c c'
| evolves_save (r0 r r' : Review.t) (c' : Review.collection) :
    In r0 (Review.docs c) ->
    Review._id r = Review._id r0 ->
    keyTriple r = keyTriple r0 ->
    Review.save r c = (c', inr r') -> evolves c c'
| evolves_delete (id : ReviewId) : evolves c (Review.findByIdAndDelete id c).


(** All reviews that a user has received, public or not. *)
Definition received (userId : UserId) (st : Store) : list Review.t :=
  filter (receivedBy userId) (Review.docs (reviews st)).

(** * The issue tracker

    models/Issue.js and the handlers of the issue controller that work on
    one stored issue (getIssueById, addResponse, updateIssueStatus,
    assignIssue, updateIssuePriority, closeIssue), with the statistics of
    Issue.getStatistics and of the admin dashboard. *)

Definition IssueId := nat.

Module Account.

(** Modelled from the spec: models/User.js is not among the sources. Of a
    user the issue controller reads [_id], [name], [email] and [role]. *)
Record t : Type := {
  _id : UserId;
  name : string;
  email : string;
  role : string
}.

End Account.

(** ** models/Issue.js *)

Module Issue.

Module Response.

(** [responseSchema]. The attachments of a response are the files of the
    upload middleware and are left out. *)
Record t : Type := {
  message : string;
  author : UserId;
  timestamp : Z
}.

End Response.

Module Note.

(** An element of [internalNotes]. *)
Record t : Type := {
  note : string;
  author : UserId;
  timestamp : Z
}.

End Note.

Module Resolution.

Record t : Type := {
  summary : string;
  resolvedBy : UserId;
  resolvedAt : Z;
  resolution : string
}.

End Resolution.

(** [issueSchema]. The paths that no handler below reads or writes and
    that carry no validator (attachments, metadata, tags, relatedJob,
    relatedPayment, the escalation fields, updatedAt) are left out. *)
Record t : Type := {
  _id : IssueId;
  title : string;
  description : string;
  category : string;
  priority : string;
  status : string;
  submittedBy : UserId;
  assignedTo : option UserId;
  responses : list Response.t;
  internalNotes : list Note.t;
  resolution : option Resolution.t;
  lastActivityAt : Z;
  viewedByUser : bool;
  createdAt : Z
}.

Definition categories : list string :=
  ["technical"; "payment"; "account"; "job_posting"; "freelancer_issues";
   "client_issues"; "billing"; "verification"; "other"].

Definition priorities : list string := ["low"; "medium"; "high"; "urgent"].

Definition statuses : list string := ["open"; "in_progress"; "resolved"; "closed"].

(** The [enum] validator, and [Array.prototype.includes] on strings. *)
Definition inEnum (values : list string) (s : string) : bool :=
  existsb (String.eqb s) values.

(** The [required] validator of a String path. *)
Definition required (s : string) : bool := negb (String.eqb s "").

Definition invalidIf (b : bool) (path : string) : list string :=
  if b then [path] else [].

Definition responsePath (i : nat) : string :=
  "responses." ++ NilEmpty.string_of_uint (Nat.to_uint i) ++ ".message".

Fixpoint validateResponses (i : nat) (l : list Response.t) : list string :=
  match l with
  | [] => []
  | r :: rest =>
      (invalidIf (negb (required (Response.message r))) (responsePath i)
       ++ validateResponses (S i) rest)%list
  end.

(** Document validation: the paths that fail, in schema order. *)
Definition validate (d : t) : list string :=
  (invalidIf (negb (required (title d)) || (200 <? String.length (title d))%nat) "title"
   ++ invalidIf (negb (required (description d))
                 || (2000 <? String.length (description d))%nat) "description"
   ++ invalidIf (negb (required (category d)) || negb (inEnum categories (category d)))
        "category"
   ++ invalidIf (negb (inEnum priorities (priority d))) "priority"
   ++ invalidIf (negb (inEnum statuses (status d))) "status"
   ++ validateResponses 0 (responses d))%list.

Definition findById (id : IssueId) (c : list t) : option t :=
  List.find (fun d => Nat.eqb (_id d) id) c.

Definition replace (d : t) (c : list t) : list t :=
  map (fun x => if Nat.eqb (_id x) (_id d) then d else x) c.

Definition countDocuments (f : t -> bool) (c : list t) : nat :=
  List.length (filter f c).

Definition hasStatus (s : string) (d : t) : bool := String.eqb (status d) s.

(** Assignments to the paths the handlers write. *)
Definition set_priority (v : string) (d : t) : t :=
  {| _id := _id d; title := title d; description := description d;
     category := category d; priority := v; status := status d;
     submittedBy := submittedBy d; assignedTo := assignedTo d;
     responses := responses d; internalNotes := internalNotes d;
     resolution := resolution d; lastActivityAt := lastActivityAt d;
     viewedByUser := viewedByUser d; createdAt := createdAt d |}.

Definition set_status (v : string) (d : t) : t :=
  {| _id := _id d; title := title d; description := description d;
     category := category d; priority := priority d; status := v;
     submittedBy := submittedBy d; assignedTo := assignedTo d;
     responses := responses d; internalNotes := internalNotes d;
     resolution := resolution d; lastActivityAt := lastActivityAt d;
     viewedByUser := viewedByUser d; createdAt := createdAt d |}.

Definition set_assignedTo (v : option UserId) (d : t) : t :=
  {| _id := _id d; title := title d; description := description d;
     category := category d; priority := priority d; status := status d;
     submittedBy := submittedBy d; assignedTo := v;
     responses := responses d; internalNotes := internalNotes d;
     resolution := resolution d; lastActivityAt := lastActivityAt d;
     viewedByUser := viewedByUser d; createdAt := createdAt d |}.

Definition set_resolution (v : Resolution.t) (d : t) : t :=
  {| _id := _id d; title := title d; description := description d;
     category := category d; priority := priority d; status := status d;
     submittedBy := submittedBy d; assignedTo := assignedTo d;
     responses := responses d; internalNotes := internalNotes d;
     resolution := Some v; lastActivityAt := lastActivityAt d;
     viewedByUser := viewedByUser d; createdAt := createdAt d |}.

Definition set_lastActivityAt (v : Z) (d : t) : t :=
  {| _id := _id d; title := title d; description := description d;
     category := category d; priority := priority d; status := status d;
     submittedBy := submittedBy d; assignedTo := assignedTo d;
     responses := responses d; internalNotes := internalNotes d;
     resolution := resolution d; lastActivityAt := v;
     viewedByUser := viewedByUser d; createdAt := createdAt d |}.

Definition set_viewedByUser (v : bool) (d : t) : t :=
  {| _id := _id d; title := title d; description := description d;
     category := category d; priority := priority d; status := status d;
     submittedBy := submittedBy d; assignedTo := assignedTo d;
     responses := responses d; internalNotes := internalNotes d;
     resolution := resolution d; lastActivityAt := lastActivityAt d;
     viewedByUser := v; createdAt := createdAt d |}.

(** [issue.responses.push(r)] *)
Definition push_response (r : Response.t) (d : t) : t :=
  {| _id := _id d; title := title d; description := description d;
     category := category d; priority := priority d; status := status d;
     submittedBy := submittedBy d; assignedTo := assignedTo d;
     responses := responses d ++ [r]; internalNotes := internalNotes d;
     resolution := resolution d; lastActivityAt := lastActivityAt d;
     viewedByUser := viewedByUser d; createdAt := createdAt d |}.

(** [issue.internalNotes.push(n)] *)
Definition push_note (n : Note.t) (d : t) : t :=
  {| _id := _id d; title := title d; description := description d;
     category := category d; priority := priority d; status := status d;
     submittedBy := submittedBy d; assignedTo := assignedTo d;
     responses := responses d; internalNotes := internalNotes d ++ [n];
     resolution := resolution d; lastActivityAt := lastActivityAt d;
     viewedByUser := viewedByUser d; createdAt := createdAt d |}.

(** A loaded document: its value, and of the paths modified since it was
    loaded or last saved the two that the pre-save hook asks about. *)
Record doc : Type := {
  value : t;
  responsesModified : bool;
  statusModified : bool
}.

Definition load (d : t) : doc :=
  {| value := d; responsesModified := false; statusModified := false |}.

(** [issue.status = v]: the path is modified when the value changes. *)
Definition assignStatus (v : string) (d : doc) : doc :=
  {| value := set_status v (value d);
     responsesModified := responsesModified d;
     statusModified := statusModified d || negb (String.eqb (status (value d)) v) |}.

Definition pushResponse (r : Response.t) (d : doc) : doc :=
  {| value := push_response r (value d);
     responsesModified := true;
     statusModified := statusModified d |}.

(** An assignment to a path other than [responses] and [status]. *)
Definition assign (f : t -> t) (d : doc) : doc :=
  {| value := f (value d);
     responsesModified := responsesModified d;
     statusModified := statusModified d |}.

(** [issueSchema.pre('save')]: a modified conversation or status refreshes
    [lastActivityAt]. The hook touches no validated path, so its order
    with respect to validation does not show. *)
Definition preSave (now : Z) (d : doc) : t :=
  if responsesModified d || statusModified d
  then set_lastActivityAt now (value d)
  else value d.

(** [issue.save()] on a loaded document: the hook, validation of every
    path, then the stored document with the same [_id] is replaced. *)
Definition save (now : Z) (d : doc) (c : list t) : list t * (Thrown + doc) :=
  let v := preSave now d in
  match validate v with
  | [] => (replace v c, inr (load v))
  | ps => (c, inl (ValidationError ps))
  end.

(** One [$group] stage with [count: { $sum: 1 }]: the groups in the order
    in which their keys first occur. *)
Fixpoint bump (k : string) (g : list (string * nat)) : list (string * nat) :=
  match g with
  | [] => [(k, 1%nat)]
  | (k', n) :: rest =>
      if String.eqb k' k then (k', S n) :: rest else (k', n) :: bump k rest
  end.

Definition groupCount (key : t -> string) (c : list t) : list (string * nat) :=
  fold_left (fun g d => bump (key d) g) c [].

Record statistics : Type := {
  statusStats : list (string * nat);
  priorityStats : list (string * nat);
  categoryStats : list (string * nat)
}.

(** [issueSchema.statics.getStatistics] *)
Definition getStatistics (c : list t) : statistics :=
  {| statusStats := groupCount status c;
     priorityStats := groupCount priority c;
     categoryStats := groupCount category c |}.

(** [.sort({ createdAt: -1 })] *)
Fixpoint insertDesc (d : t) (l : list t) : list t :=
  match l with
  | [] => [d]
  | x :: rest =>
      if createdAt x <? createdAt d then d :: x :: rest else x :: insertDesc d rest
  end.

Definition sortDesc (l : list t) : list t := fold_right insertDesc [] l.

End Issue.

(** ** The issue controller *)

Module IssueController.

Module Notice.

(** The argument of [Notification.create] in the issue controller. *)
Record t : Type := {
  recipient : UserId;
  type : string;
  title : string;
  message : string;
  data_issue : IssueId;
  data_sender : UserId;
  data_oldStatus : option string;
  data_newStatus : option Js.value
}.

End Notice.

Module Email.

(** The argument of [sendEmail]; the html body is left out. *)
Record t : Type := {
  to : string;
  subject : string
}.

End Email.

(** The collaborators: user lookup, the active administrators
    ([User.find({ role: 'admin', isActive: true })]), the notification
    model and the mailer, each of which may fail with a message, and the
    clock. *)
Record Env : Type := {
  User_findById : UserId -> option Account.t;
  User_find_activeAdmins : list Account.t;
  Notification_create : Notice.t -> option string;
  sendEmail : Email.t -> option string;
  Date_now : Z
}.

Record Store : Type := {
  issues : list Issue.t;
  notifications : list Notice.t;
  outbox : list Email.t
}.

Definition withIssues (c : list Issue.t) (st : Store) : Store :=
  {| issues := c; notifications := notifications st; outbox := outbox st |}.

(** [await Notification.create(n)] *)
Definition notify (env : Env) (n : Notice.t) (st : Store) : Store * option Thrown :=
  match Notification_create env n with
  | Some message => (st, Some (CollaboratorError message))
  | None =>
      ({| issues := issues st; notifications := (notifications st ++ [n])%list;
          outbox := outbox st |}, None)
  end.

(** [await Promise.all(ns.map(n => Notification.create(n)))]: every call
    is made; the result is an error when one of them fails (of several
    failures, the first in the list is reported). *)
Fixpoint notifyEach (env : Env) (ns : list Notice.t) (st : Store) : Store * option Thrown :=
  match ns with
  | [] => (st, None)
  | n :: rest =>
      let (st1, e1) := notify env n st in
      let (st2, e2) := notifyEach env rest st1 in
      (st2, match e1 with Some e => Some e | None => e2 end)
  end.

(** [await sendEmail(e).catch(err => console.error(...))]: a failure is
    logged and nothing else. *)
Definition mail (env : Env) (e : Email.t) (st : Store) : Store :=
  match sendEmail env e with
  | Some _ => st
  | None =>
      {| issues := issues st; notifications := notifications st;
         outbox := (outbox st ++ [e])%list |}
  end.

Inductive Data : Type :=
| IssueData (issue : Issue.t)
| ResponseData (response : option Issue.Response.t).

(** The calls [successResponse(res, status, message, data)] and
    [errorResponse(res, status, message)], as for the review controller. *)
Inductive Response : Type :=
| successResponse (status : Z) (message : string) (data : Data)
| errorResponse (status : Z) (message : Message).

Definition status (r : Response) : Z :=
  match r with
  | successResponse s _ _ => s
  | errorResponse s _ => s
  end.

(** Reading [_id] of a reference that [populate] has set to null. *)
Definition nullId : Thrown :=
  TypeError "Cannot read properties of null (reading '_id')".

Definition isAdmin (user : Account.t) : bool := String.eqb (Account.role user) "admin".

(** [x === 'literal'] on a value of the request body. *)
Definition isString (literal : string) (v : Js.value) : bool :=
  match v with
  | Js.str s => String.eqb s literal
  | _ => false
  end.

Definition systemNotification (recipient : UserId) (title message : string)
    (issue : Issue.t) (sender : Account.t) : Notice.t :=
  {| Notice.recipient := recipient;
     Notice.type := "system-notification";
     Notice.title := title;
     Notice.message := message;
     Notice.data_issue := Issue._id issue;
     Notice.data_sender := Account._id sender;
     Notice.data_oldStatus := None;
     Notice.data_newStatus := None |}.

(** [getIssueById]: [submittedBy] and [assignedTo] are populated, so the
    comparisons read the [_id] of the populated users. *)
Definition getIssueById (env : Env) (st : Store) (user : Account.t) (id : IssueId)
    : Store * Response :=
  match Issue.findById id (issues st) with
  | None => (st, errorResponse 404 (Text "Issue not found"))
  | Some issue =>
      match User_findById env (Issue.submittedBy issue) with
      | None => (st, errorResponse 500 (ErrorMessage nullId))
      | Some submitter =>
          let isOwner := Nat.eqb (Account._id submitter) (Account._id user) in
          let isAssigned :=
            match Issue.assignedTo issue with
            | Some a =>
                match User_findById env a with
                | Some assignee => Nat.eqb (Account._id assignee) (Account._id user)
                | None => false
                end
            | None => false
            end in
          if negb isOwner && negb (isAdmin user) && negb isAssigned
          then (st, errorResponse 403 (Text "Not authorized to view this issue"))
          else if isOwner && negb (Issue.viewedByUser issue)
          then
            match Issue.save (Date_now env)
                    (Issue.assign (Issue.set_viewedByUser true) (Issue.load issue))
                    (issues st) with
            | (_, inl e) => (st, errorResponse 500 (ErrorMessage e))
            | (c, inr d) =>
                (withIssues c st,
                 successResponse 200 "Issue retrieved successfully"
                   (IssueData (Issue.value d)))
            end
          else (st, successResponse 200 "Issue retrieved successfully" (IssueData issue))
      end
  end.

Definition responseNotice (issue : Issue.t) (submitter user : Account.t) : Notice.t :=
  systemNotification (Account._id submitter) "Response to Your Issue"
    ("You have received a response to your issue: " ++ dquote ++ Issue.title issue ++ dquote)
    issue user.

Definition responseEmail (issue : Issue.t) (submitter : Account.t) : Email.t :=
  {| Email.to := Account.email submitter;
     Email.subject := "Response to Your Issue: " ++ Issue.title issue |}.

Definition newResponseNotice (issue : Issue.t) (submitter user : Account.t)
    (target : UserId) : Notice.t :=
  systemNotification target "New Response to Issue"
    (Account.name submitter ++ " has responded to issue: "
     ++ dquote ++ Issue.title issue ++ dquote)
    issue user.

(** The targets of a response of the submitter: the assignee, or every
    active administrator when nobody is assigned. *)
Definition notificationTargets (env : Env) (issue : Issue.t) : list UserId :=
  match Issue.assignedTo issue with
  | Some a => [a]
  | None => map Account._id (User_find_activeAdmins env)
  end.

(** [addResponse]: only [submittedBy] is populated; [assignedTo] is the
    stored reference. The uploaded files are left out. *)
Definition addResponse (env : Env) (st : Store) (user : Account.t) (id : IssueId)
    (message : Js.value) : Store * Response :=
  if negb (Js.truthy message)
  then (st, errorResponse 400 (Text "Response message is required"))
  else
    match message with
    | Js.str m =>
        if (String.length (Js.trim m) =? 0)%nat
        then (st, errorResponse 400 (Text "Response message is required"))
        else
          match Issue.findById id (issues st) with
          | None => (st, errorResponse 404 (Text "Issue not found"))
          | Some issue =>
              match User_findById env (Issue.submittedBy issue) with
              | None => (st, errorResponse 500 (ErrorMessage nullId))
              | Some submitter =>
                  let isOwner := Nat.eqb (Account._id submitter) (Account._id user) in
                  let isAssigned :=
                    match Issue.assignedTo issue with
                    | Some a => Nat.eqb a (Account._id user)
                    | None => false
                    end in
                  if negb isOwner && negb (isAdmin user) && negb isAssigned
                  then (st, errorResponse 403 (Text "Not authorized to respond to this issue"))
                  else
                    let responseData :=
                      {| Issue.Response.message := Js.trim (Js.trim m);
                         Issue.Response.author := Account._id user;
                         Issue.Response.timestamp := Date_now env |} in
                    let d := Issue.pushResponse responseData (Issue.load issue) in
                    let d := Issue.assign (Issue.set_lastActivityAt (Date_now env)) d in
                    let d := Issue.assign (Issue.set_viewedByUser isOwner) d in
                    let d :=
                      if isOwner && String.eqb (Issue.status (Issue.value d)) "closed"
                      then Issue.assignStatus "open" d else d in
                    match Issue.save (Date_now env) d (issues st) with
                    | (_, inl e) => (st, errorResponse 500 (ErrorMessage e))
                    | (c, inr d') =>
                        let saved := Issue.value d' in
                        let st1 := withIssues c st in
                        let answer :=
                          successResponse 200 "Response added successfully"
                            (ResponseData
                               (nth_error (Issue.responses saved)
                                  (List.length (Issue.responses saved) - 1))) in
                        if isAdmin user || isAssigned
                        then
                          match notify env (responseNotice saved submitter user) st1 with
                          | (st2, Some e) => (st2, errorResponse 500 (ErrorMessage e))
                          | (st2, None) =>
                              (mail env (responseEmail saved submitter) st2, answer)
                          end
                        else
                          match notifyEach env
                                  (map (newResponseNotice saved submitter user)
                                     (notificationTargets env saved)) st1 with
                          | (st2, Some e) => (st2, errorResponse 500 (ErrorMessage e))
                          | (st2, None) => (st2, answer)
                          end
                    end
              end
          end
    | _ => (st, errorResponse 500 (ErrorMessage (TypeError "message.trim is not a function")))
    end.

Definition statusNotice (issue : Issue.t) (submitter user : Account.t)
    (oldStatus : string) (status : Js.value) : Notice.t :=
  {| Notice.recipient := Account._id submitter;
     Notice.type := "system-notification";
     Notice.title := "Issue Status Updated";
     Notice.message :=
       "Your issue " ++ dquote ++ Issue.title issue ++ dquote
       ++ " status has been updated to " ++ Js.ToString status;
     Notice.data_issue := Issue._id issue;
     Notice.data_sender := Account._id user;
     Notice.data_oldStatus := Some oldStatus;
     Notice.data_newStatus := Some status |}.

Definition statusEmail (issue : Issue.t) (submitter : Account.t) (status : Js.value)
    : Email.t :=
  {| Email.to := Account.email submitter;
     Email.subject := "Issue " ++ Js.ToString status ++ ": " ++ Issue.title issue |}.

(** [updateIssueStatus]. A String path casts a value of the body that is
    neither null nor undefined to its ToString. *)
Definition updateIssueStatus (env : Env) (st : Store) (user : Account.t) (id : IssueId)
    (status resolution internalNote : Js.value) : Store * Response :=
  if negb (Js.truthy status)
  then (st, errorResponse 400 (Text "Status is required"))
  else
    match Issue.findById id (issues st) with
    | None => (st, errorResponse 404 (Text "Issue not found"))
    | Some issue =>
        let oldStatus := Issue.status issue in
        let d := Issue.assignStatus (Js.ToString status) (Issue.load issue) in
        let d := Issue.assign (Issue.set_lastActivityAt (Date_now env)) d in
        let d :=
          if isString "resolved" status && Js.truthy resolution
          then Issue.assign
                 (Issue.set_resolution
                    {| Issue.Resolution.summary := Js.ToString resolution;
                       Issue.Resolution.resolvedBy := Account._id user;
                       Issue.Resolution.resolvedAt := Date_now env;
                       Issue.Resolution.resolution := Js.ToString resolution |}) d
          else d in
        let d :=
          if Js.truthy internalNote
          then Issue.assign
                 (Issue.push_note
                    {| Issue.Note.note := Js.ToString internalNote;
                       Issue.Note.author := Account._id user;
                       Issue.Note.timestamp := Date_now env |}) d
          else d in
        match Issue.save (Date_now env) d (issues st) with
        | (_, inl e) => (st, errorResponse 500 (ErrorMessage e))
        | (c, inr d') =>
            let saved := Issue.value d' in
            let st1 := withIssues c st in
            match User_findById env (Issue.submittedBy issue) with
            | None => (st1, errorResponse 500 (ErrorMessage nullId))
            | Some submitter =>
                match notify env (statusNotice saved submitter user oldStatus status) st1 with
                | (st2, Some e) => (st2, errorResponse 500 (ErrorMessage e))
                | (st2, None) =>
                    let st3 :=
                      if isString "resolved" status || isString "closed" status
                      then mail env (statusEmail saved submitter status) st2
                      else st2 in
                    (st3, successResponse 200 "Issue status updated successfully"
                            (IssueData saved))
                end
            end
        end
    end.

(** [assignIssue]: [assignedTo] is [None] when the body's value is falsy,
    and a well-formed user id otherwise. *)
Definition assignIssue (env : Env) (st : Store) (user : Account.t) (id : IssueId)
    (assignedTo : option UserId) : Store * Response :=
  match Issue.findById id (issues st) with
  | None => (st, errorResponse 404 (Text "Issue not found"))
  | Some issue =>
      let rejected :=
        match assignedTo with
        | Some a =>
            match User_findById env a with
            | Some assignee => negb (String.eqb (Account.role assignee) "admin")
            | None => true
            end
        | None => false
        end in
      if rejected
      then (st, errorResponse 400 (Text "Assignee must be an admin user"))
      else
        let d := Issue.assign (Issue.set_assignedTo assignedTo) (Issue.load issue) in
        let d := Issue.assign (Issue.set_lastActivityAt (Date_now env)) d in
        match Issue.save (Date_now env) d (issues st) with
        | (_, inl e) => (st, errorResponse 500 (ErrorMessage e))
        | (c, inr d') =>
            let saved := Issue.value d' in
            let st1 := withIssues c st in
            match assignedTo with
            | Some a =>
                match notify env
                        (systemNotification a "Issue Assigned to You"
                           ("You have been assigned to handle issue: "
                            ++ dquote ++ Issue.title saved ++ dquote) saved user) st1 with
                | (st2, Some e) => (st2, errorResponse 500 (ErrorMessage e))
                | (st2, None) =>
                    (st2, successResponse 200 "Issue assigned successfully" (IssueData saved))
                end
            | None =>
                (st1, successResponse 200 "Issue unassigned successfully" (IssueData saved))
            end
        end
  end.

(** [updateIssuePriority]: two saves, the second one for the internal note
    about the change. *)
Definition updateIssuePriority (env : Env) (st : Store) (user : Account.t) (id : IssueId)
    (priority : Js.value) : Store * Response :=
  match priority with
  | Js.str p =>
      if negb (Js.truthy priority) || negb (Issue.inEnum Issue.priorities p)
      then (st, errorResponse 400 (Text "Valid priority is required"))
      else
        match Issue.findById id (issues st) with
        | None => (st, errorResponse 404 (Text "Issue not found"))
        | Some issue =>
            let oldPriority := Issue.priority issue in
            let d := Issue.assign (Issue.set_priority p) (Issue.load issue) in
            let d := Issue.assign (Issue.set_lastActivityAt (Date_now env)) d in
            match Issue.save (Date_now env) d (issues st) with
            | (_, inl e) => (st, errorResponse 500 (ErrorMessage e))
            | (c, inr d1) =>
                let d2 :=
                  Issue.assign
                    (Issue.push_note
                       {| Issue.Note.note :=
                            "Priority changed from " ++ oldPriority ++ " to " ++ p;
                          Issue.Note.author := Account._id user;
                          Issue.Note.timestamp := Date_now env |}) d1 in
                match Issue.save (Date_now env) d2 c with
                | (_, inl e) => (withIssues c st, errorResponse 500 (ErrorMessage e))
                | (c', inr d3) =>
                    (withIssues c' st,
                     successResponse 200 "Issue priority updated successfully"
                       (IssueData (Issue.value d3)))
                end
            end
        end
  | _ => (st, errorResponse 400 (Text "Valid priority is required"))
  end.

(** [closeIssue]: nothing is populated; [submittedBy] is the stored
    reference. *)
Definition closeIssue (env : Env) (st : Store) (user : Account.t) (id : IssueId)
    : Store * Response :=
  match Issue.findById id (issues st) with
  | None => (st, errorResponse 404 (Text "Issue not found"))
  | Some issue =>
      let isOwner := Nat.eqb (Issue.submittedBy issue) (Account._id user) in
      if negb isOwner && negb (isAdmin user)
      then (st, errorResponse 403 (Text "Not authorized to close this issue"))
      else
        let d := Issue.assignStatus "closed" (Issue.load issue) in
        let d := Issue.assign (Issue.set_lastActivityAt (Date_now env)) d in
        match Issue.save (Date_now env) d (issues st) with
        | (_, inl e) => (st, errorResponse 500 (ErrorMessage e))
        | (c, inr d') =>
            (withIssues c st,
             successResponse 200 "Issue closed successfully" (IssueData (Issue.value d')))
        end
  end.

(** The requests to the six handlers that work on one stored issue. The
    other handlers of the controller are not among them: createIssue,
    which adds an issue, and the listings getMyIssues, getAllIssues and
    getIssueStats. *)
Inductive StoredIssueRequest : Type :=
| GetIssueById (user : Account.t) (id : IssueId)
| AddResponse (user : Account.t) (id : IssueId) (message : Js.value)
| UpdateIssueStatus (user : Account.t) (id : IssueId)
    (status resolution internalNote : Js.value)
| AssignIssue (user : Account.t) (id : IssueId) (assignedTo : option UserId)
| UpdateIssuePriority (user : Account.t) (id : IssueId) (priority : Js.value)
| CloseIssue (user : Account.t) (id : IssueId).

Definition handle (env : Env) (st : Store) (rq : StoredIssueRequest) : Store * Response :=
  match rq with
  | GetIssueById user id => getIssueById env st user id
  | AddResponse user id message => addResponse env st user id message
  | UpdateIssueStatus user id status resolution internalNote =>
      updateIssueStatus env st user id status resolution internalNote
  | AssignIssue user id assignedTo => assignIssue env st user id assignedTo
  | UpdateIssuePriority user id priority => updateIssuePriority env st user id priority
  | CloseIssue user id => closeIssue env st user id
  end.


End IssueController.

(** ** adminController.js: the issue figures of the dashboard *)

Module Dashboard.

Record t : Type := {
  totalIssues : nat;
  openIssues : nat;
  inProgressIssues : nat;
  resolvedIssues : nat;
  closedIssues : nat;
  priorityBreakdown : list (string * nat);
  categoryBreakdown : list (string * nat);
  recentIssues : list Issue.t
}.

(** The data of [getIssueStatsForDashboard]; [recentIssues] are the
    stored documents, before [populate] and [select]. *)
Definition getIssueStatsForDashboard (c : list Issue.t) : t :=
  {| totalIssues := Issue.countDocuments (fun _ => true) c;
     openIssues := Issue.countDocuments (Issue.hasStatus "open") c;
     inProgressIssues := Issue.countDocuments (Issue.hasStatus "in_progress") c;
     resolvedIssues := Issue.countDocuments (Issue.hasStatus "resolved") c;
     closedIssues := Issue.countDocuments (Issue.hasStatus "closed") c;
     priorityBreakdown := Issue.groupCount Issue.priority c;
     categoryBreakdown := Issue.groupCount Issue.category c;
     recentIssues := firstn 5 (Issue.sortDesc c) |}.

End Dashboard.

(** ** Vocabulary of the issue tracker's properties *)

(** What a stored issue keeps through every request: its identity, its
    submitter and the submitted text; its conversation and its internal
    notes only grow at the end. *)
Definition continues (old new : Issue.t) : Prop :=
  Issue._id new = Issue._id old
  /\ Issue.title new = Issue.title old
  /\ Issue.description new = Issue.description old
  /\ Issue.category new = Issue.category old
  /\ Issue.submittedBy new = Issue.submittedBy old
  /\ Issue.createdAt new = Issue.createdAt old
  /\ (exists more, Issue.responses new = (Issue.responses old ++ more)%list)
  /\ (exists more, Issue.internalNotes new = (Issue.internalNotes old ++ more)%list).


Definition sumCounts (g : list (string * nat)) : nat :=
  fold_right (fun kn acc => (snd kn + acc)%nat) 0%nat g.

(** The issue as closeIssue stores it. *)
Definition closedIssue (now : Z) (issue : Issue.t) : Issue.t :=
  Issue.set_lastActivityAt now (Issue.set_status "closed" issue).

Definition newResponse (now : Z) (user : Account.t) (m : string) : Issue.Response.t :=
  {| Issue.Response.message := Js.trim m;
     Issue.Response.author := Account._id user;
     Issue.Response.timestamp := now |}.

(** The issue as addResponse stores it: the response at the end of the
    conversation; a closed issue is open again when its submitter
    responds. *)
Definition respondedIssue (now : Z) (user : Account.t) (byOwner : bool) (m : string)
    (issue : Issue.t) : Issue.t :=
  let d :=
    Issue.set_viewedByUser byOwner
      (Issue.set_lastActivityAt now (Issue.push_response (newResponse now user m) issue)) in
  if byOwner && String.eqb (Issue.status issue) "closed"
  then Issue.set_status "open" d else d.

(** The stored reference [assignedTo] is the user. *)
Definition assignedToUser (issue : Issue.t) (user : Account.t) : bool :=
  match Issue.assignedTo issue with
  | Some a => Nat.eqb a (Account._id user)
  | None => false
  end.

(** The issue as updateIssueStatus hands it to validation. *)
Definition statusChangedIssue (now : Z) (user : Account.t)
    (status resolution internalNote : Js.value) (issue : Issue.t) : Issue.t :=
  let d := Issue.set_lastActivityAt now (Issue.set_status (Js.ToString status) issue) in
  let d :=
    if IssueController.isString "resolved" status && Js.truthy resolution
    then Issue.set_resolution
           {| Issue.Resolution.summary := Js.ToString resolution;
              Issue.Resolution.resolvedBy := Account._id user;
              Issue.Resolution.resolvedAt := now;
              Issue.Resolution.resolution := Js.ToString resolution |} d
    else d in
  if Js.truthy internalNote
  then Issue.push_note
         {| Issue.Note.note := Js.ToString internalNote;
            Issue.Note.author := Account._id user;
            Issue.Note.timestamp := now |} d
  else d.


(** The count that a [$group] result lists for a key, 0 when the key has
    no group. *)
Definition countFor (k : string) (g : list (string * nat)) : nat :=
  match List.find (fun kn => String.eqb (fst kn) k) g with
  | Some kn => snd kn
  | None => 0%nat
  end.

Definition recentFirst (l : list Issue.t) : Prop :=
  StronglySorted (fun a b => Issue.createdAt b <= Issue.createdAt a) l.

(** A support desk with one submitter, two administrators and two issues. *)
Module Desk.

Definition submitter : Account.t :=
  {| Account._id := 10%nat; Account.name := "Sana"; Account.email := "sana@example.com";
     Account.role := "client" |}.

Definition admin : Account.t :=
  {| Account._id := 20%nat; Account.name := "Adil"; Account.email := "adil@example.com";
     Account.role := "admin" |}.

Definition admin2 : Account.t :=
  {| Account._id := 21%nat; Account.name := "Bina"; Account.email := "bina@example.com";
     Account.role := "admin" |}.

Definition stranger : Account.t :=
  {| Account._id := 30%nat; Account.name := "Zed"; Account.email := "zed@example.com";
     Account.role := "freelancer" |}.

Definition users (id : UserId) : option Account.t :=
  match id with
  | 10%nat => Some submitter
  | 20%nat => Some admin
  | 21%nat => Some admin2
  | 30%nat => Some stranger
  | _ => None
  end.

Definition env : IssueController.Env :=
  {| IssueController.User_findById := users;
     IssueController.User_find_activeAdmins := [admin; admin2];
     IssueController.Notification_create := fun _ => None;
     IssueController.sendEmail := fun _ => Some "smtp down";
     IssueController.Date_now := 5000 |}.

Definition envNotificationsDown : IssueController.Env :=
  {| IssueController.User_findById := users;
     IssueController.User_find_activeAdmins := [admin; admin2];
     IssueController.Notification_create := fun _ => Some "notifications unavailable";
     IssueController.sendEmail := fun _ => None;
     IssueController.Date_now := 5000 |}.

Definition issue1 : Issue.t :=
  {| Issue._id := 1%nat; Issue.title := "Payment missing";
     Issue.description := "The payment of my last job has not arrived.";
     Issue.category := "payment"; Issue.priority := "medium"; Issue.status := "open";
     Issue.submittedBy := 10%nat; Issue.assignedTo := None;
     Issue.responses := []; Issue.internalNotes := []; Issue.resolution := None;
     Issue.lastActivityAt := 100; Issue.viewedByUser := false; Issue.createdAt := 100 |}.

Definition issue2 : Issue.t :=
  {| Issue._id := 2%nat; Issue.title := "Cannot log in";
     Issue.description := "The login page rejects my password.";
     Issue.category := "account"; Issue.priority := "high"; Issue.status := "closed";
     Issue.submittedBy := 10%nat; Issue.assignedTo := Some 20%nat;
     Issue.responses :=
       [{| Issue.Response.message := "Please reset your password.";
           Issue.Response.author := 20%nat; Issue.Response.timestamp := 300 |}];
     Issue.internalNotes := []; Issue.resolution := None;
     Issue.lastActivityAt := 300; Issue.viewedByUser := true; Issue.createdAt := 200 |}.

Definition store : IssueController.Store :=
  {| IssueController.issues := [issue1; issue2];
     IssueController.notifications := [];
     IssueController.outbox := [] |}.

End Desk.

(** * Properties *)

(** ** The built-ins on some inputs *)

Example parseInt_examples :
  Js.parseInt (Js.str "5") = Js.Int 5
  /\ Js.parseInt (Js.str "4.7") = Js.Int 4
  /\ Js.parseInt (Js.str "  -12px") = Js.Int (-12)
  /\ Js.parseInt (Js.str "0x1F") = Js.Int 31
  /\ Js.parseInt (Js.str "five") = Js.NaN
  /\ Js.parseInt (Js.str "") = Js.NaN
  /\ Js.parseInt (Js.or Js.undefined (Js.num (Js.Int 4))) = Js.Int 4
  /\ Js.parseInt (Js.or (Js.num (Js.Int 0)) (Js.str "3")) = Js.Int 3.
Proof. repeat split; reflexivity. Qed.

Example numberToString_examples :
  Js.numberToString (Js.Int 0) = "0"
  /\ Js.numberToString (Js.Int (- 1234567890)) = "-1234567890"
  /\ Js.numberToString (Js.Int (2 ^ 53)) = "9007199254740992"
  /\ Js.numberToString (Js.Int (2 ^ 60)) = "1152921504606847000"
  /\ Js.numberToString (Js.Int (10 ^ 21)) = "1e+21"
  /\ Js.numberToString (Js.Int (2 ^ 70)) = "1.1805916207174113e+21"
  /\ Js.numberToString (Js.Int 99999999999999991611392) = "1e+23"
  /\ Js.numberToString (Js.Int (- (6 * 10 ^ 21))) = "-6e+21"
  /\ Js.parseInt (Js.num (Js.Int 4)) = Js.Int 4
  /\ Js.parseInt (Js.num (Js.Int (- 17))) = Js.Int (- 17)
  /\ Js.parseInt (Js.num (Js.Int (10 ^ 21))) = Js.Int 1
  /\ Js.parseInt (Js.num (Js.Int (2 ^ 70))) = Js.Int 1
  /\ Js.parseInt (Js.str "9007199254740993") = Js.Int 9007199254740992
  /\ Js.parseInt (Js.str "100000000000000000000000") = Js.Int 99999999999999991611392.
Proof. repeat split; vm_compute; reflexivity. Qed.

Example trim_examples :
  let nbsp := String (ascii_of_nat 160) EmptyString in
  Js.trim (nbsp ++ " spam " ++ nbsp) = "spam"
  /\ Js.trim (nbsp ++ nbsp) = ""
  /\ Js.trim ("a" ++ nbsp ++ "b") = "a" ++ nbsp ++ "b"
  /\ Js.parseInt (Js.str (nbsp ++ "42")) = Js.Int 42.
Proof. repeat split; vm_compute; reflexivity. Qed.

Example validateComment_examples :
  Review.validateComment (Js.str "  Great work, thanks!  ") = Some "Great work, thanks!"
  /\ Review.validateComment (Js.str "   too short    ") = None
  /\ Review.validateComment (Js.num (Js.Int 1234567890)) = Some "1234567890"
  /\ Review.validateComment Js.undefined = None.
Proof. repeat split; reflexivity. Qed.

(** ** Aggregate statistics *)


Lemma orZero_avg (l : list Z) : Review.orZero (Review.avg l) = mean l.
Proof. destruct l; reflexivity. Qed.


Example getReviewStats_binary64_example : binary64Example = true.
Proof. vm_compute; reflexivity. Qed.





(** ** The collection *)

Lemma create_failed now i c c' e :
  Review.create now i c = (c', inl e) ->
  c' = c /\ (e = Review.duplicateKey \/ e = ValidationError (Review.invalidPaths i)).
Proof.
  unfold Review.create. intros H.
  repeat match type of H with
         | context [match ?x with Some _ => _ | None => _ end] => destruct x
         | context [if ?b then _ else _] => destruct b
         end;
    inversion H; subst; auto.
Qed.

Lemma create_succeeded now i c c' r :
  Review.create now i c = (c', inr r) ->
  Review.findOne (Review.sameKey (Review.in_job i) (Review.in_reviewer i) (Review.in_recipient i)) c
    = None
  /\ Review.invalidPaths i = []
  /\ Review.docs c' = (Review.docs c ++ [r])%list
  /\ Review.next_id c' = S (Review.next_id c)
  /\ Review._id r = Review.next_id c
  /\ Review.job r = Review.in_job i
  /\ Review.reviewer r = Review.in_reviewer i
  /\ Review.recipient r = Review.in_recipient i
  /\ Review.validateNumber (Review.in_rating i) = Some (Review.rating r)
  /\ Review.validateComment (Review.in_comment i) = Some (Review.comment r)
  /\ Review.validateNumber (Review.in_communication i) = Review.communication r
  /\ Review.validateNumber (Review.in_qualityOfWork i) = Review.qualityOfWork r
  /\ Review.validateNumber (Review.in_valueForMoney i) = Review.valueForMoney r
  /\ Review.validateNumber (Review.in_expertise i) = Review.expertise r
  /\ Review.validateNumber (Review.in_professionalism i) = Review.professionalism r
  /\ Review.type r = Review.in_type i
  /\ Review.helpfulVotes r = []
  /\ Review.isReported r = false.
Proof.
  unfold Review.create, Review.invalidPaths. intros H.
  destruct (Review.validateNumber (Review.in_rating i)) as [rt|]; [|discriminate].
  destruct (Review.validateComment (Review.in_comment i)) as [cm|]; [|discriminate].
  destruct (Review.validateNumber (Review.in_communication i)) as [c1|]; [|discriminate].
  destruct (Review.validateNumber (Review.in_qualityOfWork i)) as [c2|]; [|discriminate].
  destruct (Review.validateNumber (Review.in_valueForMoney i)) as [c3|]; [|discriminate].
  destruct (Review.validateNumber (Review.in_expertise i)) as [c4|]; [|discriminate].
  destruct (Review.validateNumber (Review.in_professionalism i)) as [c5|]; [|discriminate].
  destruct (Review.findOne _ c) as [d|] eqn:Hf; [discriminate|].
  cbn in H. inversion H; subst; clear H. cbn.
  repeat split; reflexivity.
Qed.

(** The unique index refuses a valid document whose key is stored. *)
Lemma create_duplicate now i c d :
  Review.invalidPaths i = [] ->
  Review.findOne (Review.sameKey (Review.in_job i) (Review.in_reviewer i) (Review.in_recipient i)) c
    = Some d ->
  Review.create now i c = (c, inl Review.duplicateKey).
Proof.
  unfold Review.create, Review.invalidPaths. intros Hv Hf. rewrite Hf.
  destruct (Review.validateNumber (Review.in_rating i)); [|discriminate].
  destruct (Review.validateComment (Review.in_comment i)); [|discriminate].
  destruct (Review.validateNumber (Review.in_communication i)); [|discriminate].
  destruct (Review.validateNumber (Review.in_qualityOfWork i)); [|discriminate].
  destruct (Review.validateNumber (Review.in_valueForMoney i)); [|discriminate].
  destruct (Review.validateNumber (Review.in_expertise i)); [|discriminate].
  destruct (Review.validateNumber (Review.in_professionalism i)); [|discriminate].
  reflexivity.
Qed.

Lemma notify_reviews env n st st' o :
  notify env n st = (st', o) -> reviews st' = reviews st.
Proof.
  unfold notify. destruct (Notification_create env n); intros H; inversion H; reflexivity.
Qed.

Lemma notifyAll_reviews env ns : forall st st' o,
  notifyAll env ns st = (st', o) -> reviews st' = reviews st.
Proof.
  induction ns as [|n ns IH]; simpl; intros st st' o H.
  - inversion H; reflexivity.
  - destruct (notify env n st) as [st1 [e|]] eqn:Hn.
    + inversion H; subst. eapply notify_reviews; eauto.
    + rewrite (IH _ _ _ H). eapply notify_reviews; eauto.
Qed.

Lemma onCreateError_duplicateKey : onCreateError Review.duplicateKey = alreadySubmitted.
Proof. reflexivity. Qed.

(** ** createReview *)

Lemma createReview_at_rejected env seen st req kind message :
  firstFailure env req = Some (kind, message) ->
  createReview_at env seen st req = (st, errorResponse (statusOf kind) (Text message)).
Proof.
  unfold firstFailure, preconditions, createReview_at.
  destruct (Job_findById env (CreateReviewReq.jobId req)) as [job|]; cbn;
    [|intros H; inversion H; reflexivity].
  destruct (User_findById env (CreateReviewReq.recipient req)) as [u|]; cbn;
    [|intros H; inversion H; reflexivity].
  destruct (String.eqb (Job.status job) "completed"); cbn;
    [|intros H; inversion H; reflexivity].
  destruct (Review.isSome (populate env (Job.client job))); cbn;
    [|intros H; inversion H; reflexivity].
  destruct (Review.isSome (populate env (Job.hiredFreelancer job))); cbn;
    [|intros H; inversion H; reflexivity].
  destruct (String.eqb (User.role (CreateReviewReq.user req)) "client"); cbn;
    [discriminate|].
  destruct (String.eqb (User.role (CreateReviewReq.user req)) "freelancer"); cbn;
    [discriminate|].
  intros H; inversion H; reflexivity.
Qed.

Lemma createReview_at_checked env seen st req :
  firstFailure env req = None ->
  exists job,
    Job_findById env (CreateReviewReq.jobId req) = Some job
    /\ createReview_at env seen st req = submitChecked env seen st req job.
Proof.
  unfold firstFailure, preconditions, createReview_at, submitChecked, derivedType, keyOf.
  destruct (Job_findById env (CreateReviewReq.jobId req)) as [job|]; cbn; [|discriminate].
  destruct (User_findById env (CreateReviewReq.recipient req)) as [u|]; cbn; [|discriminate].
  destruct (String.eqb (Job.status job) "completed"); cbn; [|discriminate].
  destruct (Review.isSome (populate env (Job.client job))); cbn; [|discriminate].
  destruct (Review.isSome (populate env (Job.hiredFreelancer job))); cbn; [|discriminate].
  intros H. exists job. split; [reflexivity|].
  destruct (String.eqb (User.role (CreateReviewReq.user req)) "client"); cbn; [reflexivity|].
  destruct (String.eqb (User.role (CreateReviewReq.user req)) "freelancer"); cbn;
    [reflexivity|discriminate].
Qed.

(** A 201 answer: the preconditions held, the lookup found nothing and the
    insert stored the review that is returned. *)
Lemma createReview_at_success env seen st req st1 s m d :
  createReview_at env seen st req = (st1, successResponse s m d) ->
  firstFailure env req = None
  /\ Review.findOne (keyOf req) (reviews seen) = None
  /\ exists review,
       d = ReviewData review
       /\ Review.create (Date_now env) (newReview req (derivedType req)) (reviews st)
          = (reviews st1, inr review).
Proof.
  intros H.
  destruct (firstFailure env req) as [[kind message]|] eqn:Hff.
  - rewrite (createReview_at_rejected env seen st req kind message Hff) in H. discriminate.
  - split; [reflexivity|].
    destruct (createReview_at_checked env seen st req Hff) as (job & _ & Heq).
    rewrite Heq in H. unfold submitChecked in H.
    destruct (Review.findOne (keyOf req) (reviews seen)); [discriminate|].
    split; [reflexivity|].
    destruct (Review.create _ _ _) as [c [e|review]] eqn:Hc.
    + inversion H as [[Hst Hr]]. destruct e as [ps|code kp msg|msg|msg]; cbn in Hr;
        try discriminate.
      destruct (code =? 11000); [|discriminate].
      destruct (existsb _ kp); [discriminate|].
      destruct (_ || _); discriminate.
    + destruct (notify env _ _) as [st' [e|]] eqn:Hn; inversion H; subst.
      exists review. split; [reflexivity|].
      apply notify_reviews in Hn. cbn in Hn. rewrite Hn. reflexivity.
Qed.

(** C3. createReview checks the preconditions of the specification in
    their order and answers with the first that fails: job missing (404),
    recipient missing (404), job not completed (400, whatever the role),
    client or hired freelancer missing (400), role neither client nor
    freelancer (403); the store is left as it is. Only when all five hold
    does it look for an existing review and then validate and insert the
    payload. *)
Theorem createReview_validation_order (env : Env) (seen st : Store) (req : CreateReviewReq.t) :
  match firstFailure env req with
  | Some (kind, message) =>
      createReview_at env seen st req = (st, errorResponse (statusOf kind) (Text message))
  | None =>
      match Review.findOne (keyOf req) (reviews seen) with
      | Some _ => createReview_at env seen st req = (st, alreadySubmitted)
      | None =>
          match Review.create (Date_now env) (newReview req (derivedType req)) (reviews st) with
          | (_, inl error) => createReview_at env seen st req = (st, onCreateError error)
          | (c, inr review) =>
              reviews (fst (createReview_at env seen st req)) = c
              /\ (snd (createReview_at env seen st req)
                  = successResponse 201 "Review submitted successfully" (ReviewData review)
                  \/ exists error,
                       snd (createReview_at env seen st req)
                       = errorResponse 500 (ErrorMessage error))
          end
      end
  end.
Proof.
  destruct (firstFailure env req) as [[kind message]|] eqn:Hff.
  - apply createReview_at_rejected; assumption.
  - destruct (createReview_at_checked env seen st req Hff) as (job & _ & Heq).
    rewrite Heq. unfold submitChecked.
    destruct (Review.findOne (keyOf req) (reviews seen)); [reflexivity|].
    destruct (Review.create _ _ _) as [c [e|review]]; [reflexivity|].
    destruct (notify env _ _) as [st' [e|]] eqn:Hn;
      apply notify_reviews in Hn; cbn in *; (split; [assumption|]).
    + right. exists e. reflexivity.
    + left. reflexivity.
Qed.

Lemma find_none_filter {A : Type} (f : A -> bool) (l : list A) :
  List.find f l = None -> filter f l = [].
Proof.
  induction l as [|x l IH]; simpl; [reflexivity|].
  destruct (f x); [discriminate|assumption].
Qed.

Lemma find_app_some {A : Type} (f : A -> bool) (l : list A) (x : A) :
  f x = true -> exists y, List.find f (l ++ [x]) = Some y.
Proof.
  intros Hx. induction l as [|a l IH]; simpl.
  - rewrite Hx. eauto.
  - destruct (f a); eauto.
Qed.

Lemma matches_sameKey (r : Review.t) :
  Review.matches (Review.sameKey (Review.job r) (Review.reviewer r) (Review.recipient r)) r = true.
Proof.
  unfold Review.matches, Review.sameKey; cbn. rewrite !Nat.eqb_refl. reflexivity.
Qed.

(** After a review has been inserted for a key, the collection holds
    exactly one document with that key. *)
Lemma create_one_per_key now i c c' r :
  Review.create now i c = (c', inr r) ->
  let key := Review.sameKey (Review.in_job i) (Review.in_reviewer i) (Review.in_recipient i) in
  Review.countDocuments key c' = 1%nat /\ exists d, Review.findOne key c' = Some d.
Proof.
  intros H key. apply create_succeeded in H.
  destruct H as (Hnone & _ & Hdocs & _ & _ & Hj & Hrv & Hrc & _).
  assert (Hm : Review.matches key r = true).
  { subst key. rewrite <- Hj, <- Hrv, <- Hrc. apply matches_sameKey. }
  subst key.
  unfold Review.countDocuments, Review.find, Review.findOne in *. rewrite Hdocs. split.
  - rewrite filter_app, (find_none_filter _ _ Hnone). simpl. rewrite Hm. reflexivity.
  - apply find_app_some; assumption.
Qed.

Lemma keyOf_newReview req ty :
  Review.sameKey (Review.in_job (newReview req ty)) (Review.in_reviewer (newReview req ty))
    (Review.in_recipient (newReview req ty)) = keyOf req.
Proof. reflexivity. Qed.

Lemma invalidPaths_newReview req ty ty' :
  Review.invalidPaths (newReview req ty) = Review.invalidPaths (newReview req ty').
Proof. reflexivity. Qed.

(** C1. After a successful createReview for (job, reviewer, recipient) the
    store holds exactly one review for the triple, and a second submission
    for the triple that reaches the duplicate check is answered with the
    400 "You have already submitted a review for this job" conflict and
    leaves the store as it is. When the advisory lookup read an older
    snapshot [seen] and let the request through, the store is still left as
    it is, and the duplicate-key error of the unique index is turned into
    the same conflict answer. *)
Theorem createReview_second_submission_conflicts
    (env : Env) (st : Store) (req : CreateReviewReq.t) (st1 : Store) (review : Review.t) :
  createReview env st req
    = (st1, successResponse 201 "Review submitted successfully" (ReviewData review)) ->
  Review.countDocuments (keyOf req) (reviews st1) = 1%nat
  /\ forall (env2 : Env) (seen : Store) (req2 : CreateReviewReq.t),
       CreateReviewReq.jobId req2 = CreateReviewReq.jobId req ->
       User._id (CreateReviewReq.user req2) = User._id (CreateReviewReq.user req) ->
       CreateReviewReq.recipient req2 = CreateReviewReq.recipient req ->
       firstFailure env2 req2 = None ->
       createReview env2 st1 req2 = (st1, alreadySubmitted)
       /\ fst (createReview_at env2 seen st1 req2) = st1
       /\ (Review.invalidPaths (newReview req2 (derivedType req2)) = [] ->
           snd (createReview_at env2 seen st1 req2) = alreadySubmitted).
Proof.
  intros H. unfold createReview in H.
  apply createReview_at_success in H. destruct H as (_ & _ & r & Hd & Hc).
  pose proof (create_one_per_key _ _ _ _ _ Hc) as [Hcount [d Hfound]].
  rewrite keyOf_newReview in Hcount, Hfound. clear Hc Hd.
  split; [exact Hcount|].
  intros env2 seen req2 Hj Hu Hr Hff.
  assert (Hkey : keyOf req2 = keyOf req) by (unfold keyOf; rewrite Hj, Hu, Hr; reflexivity).
  assert (Hraced : forall seen',
            fst (createReview_at env2 seen' st1 req2) = st1
            /\ (Review.invalidPaths (newReview req2 (derivedType req2)) = [] ->
                snd (createReview_at env2 seen' st1 req2) = alreadySubmitted)).
  { intros seen'.
    destruct (createReview_at_checked env2 seen' st1 req2 Hff) as (job & _ & Heq).
    rewrite Heq. unfold submitChecked.
    destruct (Review.findOne (keyOf req2) (reviews seen')); [split; reflexivity|].
    destruct (Review.create _ _ _) as [c [e|r2]] eqn:Hc2.
    - split; [reflexivity|]. intros Hv. cbn.
      rewrite (create_duplicate _ _ _ d Hv) in Hc2
        by (rewrite keyOf_newReview, Hkey; exact Hfound).
      inversion Hc2; subst. reflexivity.
    - apply create_succeeded in Hc2. destruct Hc2 as (Hnone & _).
      rewrite keyOf_newReview, Hkey, Hfound in Hnone. discriminate. }
  split; [|apply Hraced].
  unfold createReview.
  destruct (createReview_at_checked env2 st1 st1 req2 Hff) as (job & _ & Heq).
  rewrite Heq. unfold submitChecked. rewrite Hkey, Hfound. reflexivity.
Qed.

Lemma createReview_at_defaults
    (env : Env) (seen st : Store) (req : CreateReviewReq.t) (st1 : Store) (review : Review.t) :
  createReview_at env seen st req
    = (st1, successResponse 201 "Review submitted successfully" (ReviewData review)) ->
  In review (Review.docs (reviews st1))
  /\ Js.parseInt (CreateReviewReq.rating req) = Js.Int (Review.rating review)
  /\ (CreateReviewReq.communication req = Js.undefined ->
      Review.communication review = Some (Review.rating review))
  /\ (CreateReviewReq.qualityOfWork req = Js.undefined ->
      Review.qualityOfWork review = Some (Review.rating review))
  /\ (CreateReviewReq.valueForMoney req = Js.undefined ->
      Review.valueForMoney review = Some (Review.rating review))
  /\ (CreateReviewReq.expertise req = Js.undefined ->
      Review.expertise review = Some (Review.rating review))
  /\ (CreateReviewReq.professionalism req = Js.undefined ->
      Review.professionalism review = Some (Review.rating review))
  /\ Review.isSome (Review.communication review)
     && Review.isSome (Review.qualityOfWork review)
     && Review.isSome (Review.valueForMoney review)
     && Review.isSome (Review.expertise review)
     && Review.isSome (Review.professionalism review) = true.
Proof.
  intros H. apply createReview_at_success in H.
  destruct H as (_ & _ & r & Hd & Hc). inversion Hd; subst r; clear Hd.
  pose proof (create_succeeded _ _ _ _ _ Hc)
    as (_ & Hv & Hdocs & _ & _ & _ & _ & _ & Hrt & _ & H1 & H2 & H3 & H4 & H5 & _).
  cbn in Hrt, H1, H2, H3, H4, H5.
  split; [rewrite Hdocs; apply in_or_app; right; left; reflexivity|].
  split.
  { destruct (Js.parseInt (CreateReviewReq.rating req)) as [|z]; cbn in Hrt; [discriminate|].
    destruct (Review.inRange z); inversion Hrt; reflexivity. }
  repeat split.
  - intros E. rewrite E in H1. cbn in H1. congruence.
  - intros E. rewrite E in H2. cbn in H2. congruence.
  - intros E. rewrite E in H3. cbn in H3. congruence.
  - intros E. rewrite E in H4. cbn in H4. congruence.
  - intros E. rewrite E in H5. cbn in H5. congruence.
  - unfold Review.invalidPaths in Hv. rewrite <- H1, <- H2, <- H3, <- H4, <- H5.
    cbn [Review.in_communication Review.in_qualityOfWork Review.in_valueForMoney
         Review.in_expertise Review.in_professionalism newReview] in *.
    repeat match goal with
           | |- context [Review.validateNumber ?x] => destruct (Review.validateNumber x)
           end; cbn in *; try reflexivity;
      repeat match type of Hv with
             | context [Review.invalidIf ?b _] => destruct b; cbn in Hv
             end; discriminate.
Qed.

Lemma parseInt_score (k : Z) :
  1 <= k <= 5 -> Js.parseInt (Js.num (Js.Int k)) = Js.Int k /\ Js.truthy (Js.num (Js.Int k)) = true.
Proof.
  intros Hk.
  assert (Hcases : k = 1 \/ k = 2 \/ k = 3 \/ k = 4 \/ k = 5) by lia.
  destruct Hcases as [-> | [-> | [-> | [-> | ->]]]]; split; reflexivity.
Qed.

Lemma category_defaultsTo (z : Z) (rating category : Js.value) :
  Js.parseInt rating = Js.Int z -> 1 <= z <= 5 ->
  category = Js.undefined \/ (exists k, category = Js.num (Js.Int k) /\ 1 <= k <= 5) ->
  exists score,
    Review.validateNumber (Js.parseInt (Js.or category rating)) = Some score
    /\ defaultsTo z category (Some score).
Proof.
  intros Hrating Hz [-> | (k & -> & Hk)].
  - exists z. unfold Js.or. cbn [Js.truthy]. rewrite Hrating. unfold Review.validateNumber.
    assert (Hr : Review.inRange z = true)
      by (unfold Review.inRange; apply andb_true_intro; lia).
    rewrite Hr. split; [reflexivity|]. left. split; reflexivity.
  - exists k. destruct (parseInt_score k Hk) as [Hparse Htruthy].
    unfold Js.or. rewrite Htruthy, Hparse. unfold Review.validateNumber.
    assert (Hr : Review.inRange k = true)
      by (unfold Review.inRange; apply andb_true_intro; lia).
    rewrite Hr. split; [reflexivity|]. right. exists k. repeat split; try reflexivity; lia.
Qed.

(** C4. In the review stored by a successful createReview, the rating is
    the submitted rating read by parseInt, every category score that the
    payload omits equals that rating, and all five category scores are
    present. Omitting categories does not stand in the way of success:
    when the preconditions hold, no review is stored for the key, the
    rating reads as an integer from 1 to 5, the comment has ten characters
    or more after trimming, every category is either omitted or a Number
    from 1 to 5, and the notification can be written, createReview answers
    201 and stores the rating for each omitted category and the given
    Number for each other one. *)
Theorem createReview_omitted_categories_default
    (env : Env) (seen st : Store) (req : CreateReviewReq.t) :
  (forall st1 review,
     createReview_at env seen st req
       = (st1, successResponse 201 "Review submitted successfully" (ReviewData review)) ->
     In review (Review.docs (reviews st1))
     /\ Js.parseInt (CreateReviewReq.rating req) = Js.Int (Review.rating review)
     /\ (CreateReviewReq.communication req = Js.undefined ->
         Review.communication review = Some (Review.rating review))
     /\ (CreateReviewReq.qualityOfWork req = Js.undefined ->
         Review.qualityOfWork review = Some (Review.rating review))
     /\ (CreateReviewReq.valueForMoney req = Js.undefined ->
         Review.valueForMoney review = Some (Review.rating review))
     /\ (CreateReviewReq.expertise req = Js.undefined ->
         Review.expertise review = Some (Review.rating review))
     /\ (CreateReviewReq.professionalism req = Js.undefined ->
         Review.professionalism review = Some (Review.rating review))
     /\ Review.isSome (Review.communication review)
        && Review.isSome (Review.qualityOfWork review)
        && Review.isSome (Review.valueForMoney review)
        && Review.isSome (Review.expertise review)
        && Review.isSome (Review.professionalism review) = true)
  /\ (forall z text,
        firstFailure env req = None ->
        Review.findOne (keyOf req) (reviews seen) = None ->
        Review.findOne (keyOf req) (reviews st) = None ->
        Js.parseInt (CreateReviewReq.rating req) = Js.Int z ->
        1 <= z <= 5 ->
        CreateReviewReq.comment req = Js.str text ->
        (10 <= String.length (Js.trim text))%nat ->
        Forall (fun category =>
                  category = Js.undefined
                  \/ (exists k, category = Js.num (Js.Int k) /\ 1 <= k <= 5))
          [CreateReviewReq.communication req; CreateReviewReq.qualityOfWork req;
           CreateReviewReq.valueForMoney req; CreateReviewReq.expertise req;
           CreateReviewReq.professionalism req] ->
        (forall n, Notification_create env n = None) ->
        exists st1 review,
          createReview_at env seen st req
          = (st1, successResponse 201 "Review submitted successfully" (ReviewData review))
          /\ Review.rating review = z
          /\ Forall2 (defaultsTo z)
               [CreateReviewReq.communication req; CreateReviewReq.qualityOfWork req;
                CreateReviewReq.valueForMoney req; CreateReviewReq.expertise req;
                CreateReviewReq.professionalism req]
               [Review.communication review; Review.qualityOfWork review;
                Review.valueForMoney review; Review.expertise review;
                Review.professionalism review]).
Proof.
  split; [intros st1 review; apply createReview_at_defaults|].
  intros z text Hff Hseen Hst Hrating Hz Hcomment Hlength Hcategories Hnotify.
  destruct (createReview_at_checked env seen st req Hff) as (job & _ & ->).
  unfold submitChecked. rewrite Hseen.
  inversion Hcategories as [|? ? H1 Hc1]; subst.
  inversion Hc1 as [|? ? H2 Hc2]; subst.
  inversion Hc2 as [|? ? H3 Hc3]; subst.
  inversion Hc3 as [|? ? H4 Hc4]; subst.
  inversion Hc4 as [|? ? H5 _]; subst.
  destruct (category_defaultsTo z _ _ Hrating Hz H1) as (s1 & E1 & D1).
  destruct (category_defaultsTo z _ _ Hrating Hz H2) as (s2 & E2 & D2).
  destruct (category_defaultsTo z _ _ Hrating Hz H3) as (s3 & E3 & D3).
  destruct (category_defaultsTo z _ _ Hrating Hz H4) as (s4 & E4 & D4).
  destruct (category_defaultsTo z _ _ Hrating Hz H5) as (s5 & E5 & D5).
  assert (Hr : Review.inRange z = true)
    by (unfold Review.inRange; apply andb_true_intro; lia).
  assert (Hvalid : Review.validComment (Js.trim text) = true).
  { unfold Review.validComment. apply andb_true_intro. split.
    - destruct (Js.trim text); [cbn in Hlength; lia|reflexivity].
    - apply Nat.leb_le. exact Hlength. }
  unfold Review.create.
  cbn [newReview Review.in_rating Review.in_comment Review.in_communication
       Review.in_qualityOfWork Review.in_valueForMoney Review.in_expertise
       Review.in_professionalism Review.in_job Review.in_reviewer Review.in_recipient
       Review.in_type Review.in_isPublic].
  rewrite Hrating, Hcomment, E1, E2, E3, E4, E5.
  cbn [Review.validateNumber Review.validateComment Js.ToString]. rewrite Hr, Hvalid.
  unfold keyOf in Hst. rewrite Hst. cbn [Review.isSome].
  unfold notify. rewrite Hnotify.
  eexists. eexists. split; [reflexivity|].
  cbn [Review.rating Review.communication Review.qualityOfWork Review.valueForMoney
       Review.expertise Review.professionalism].
  split; [reflexivity|].
  repeat (constructor; [assumption|]). constructor.
Qed.

(** The concrete scenario of the specification: the client's five-star
    review of the freelancer is stored with the derived type and with all
    five category scores equal to 5; the client's second submission for the
    same job and recipient is the conflict. *)
Example scenario_first_review :
  Review.docs (reviews Scenario.oneReview)
  = [Scenario.firstReview]
  /\ createReview Scenario.env Scenario.oneReview
       (Scenario.submit Scenario.client 1%nat 2%nat 5)
     = (Scenario.oneReview, alreadySubmitted).
Proof. split; vm_compute; reflexivity. Qed.

(** An open job is refused with 400 before the role is looked at. *)
Example scenario_open_job :
  firstFailure Scenario.env (Scenario.submit Scenario.admin 6%nat 2%nat 5)
  = Some (InvalidState, "You can only review completed jobs").
Proof. vm_compute; reflexivity. Qed.

(** C5, as the claim states it, fails: the notification model refuses the
    write, the review has been stored, and the caller receives a 500
    answer instead of the created review. *)
Lemma createReview_notification_failure_example :
  let req := Scenario.submit Scenario.client 1%nat 2%nat 5 in
  let out := createReview Scenario.envNotificationsDown emptyStore req in
  firstFailure Scenario.envNotificationsDown req = None
  /\ Review.countDocuments (keyOf req) (reviews (fst out)) = 1%nat
  /\ snd out = errorResponse 500 (ErrorMessage (CollaboratorError "notifications unavailable"))
  /\ isSuccess (snd out) = false.
Proof. vm_compute. repeat split; reflexivity. Qed.

(** C5, amended. When the preconditions hold, no review is found for the
    key and the insert has stored the review, a failure of the notification
    write is answered with status 500 and the message of the failure; the
    stored review stays in the store. *)
Theorem createReview_notification_failure_propagates
    (env : Env) (seen st : Store) (req : CreateReviewReq.t) (job : Job.t)
    (c : Review.collection) (review : Review.t) (message : string) :
  firstFailure env req = None ->
  Job_findById env (CreateReviewReq.jobId req) = Some job ->
  Review.findOne (keyOf req) (reviews seen) = None ->
  Review.create (Date_now env) (newReview req (derivedType req)) (reviews st) = (c, inr review) ->
  Notification_create env (newReviewNotification req job review) = Some message ->
  createReview_at env seen st req
    = (withReviews c st, errorResponse 500 (ErrorMessage (CollaboratorError message)))
  /\ In review (Review.docs (reviews (fst (createReview_at env seen st req)))).
Proof.
  intros Hff Hjob Hseen Hc Hn.
  destruct (createReview_at_checked env seen st req Hff) as (job' & Hjob' & Heq).
  rewrite Hjob in Hjob'. inversion Hjob'; subst job'.
  rewrite Heq. unfold submitChecked, notify. rewrite Hseen, Hc, Hn. cbn.
  split; [reflexivity|].
  apply create_succeeded in Hc. destruct Hc as (_ & _ & Hdocs & _).
  rewrite Hdocs. apply in_or_app. right. left. reflexivity.
Qed.

Lemma createReview_notification_failure_propagates_witness :
  createReview_at Scenario.envNotificationsDown emptyStore emptyStore
    (Scenario.submit Scenario.client 1%nat 2%nat 5)
  = (withReviews (reviews Scenario.oneReview) emptyStore,
     errorResponse 500 (ErrorMessage (CollaboratorError "notifications unavailable"))).
Proof.
  refine (proj1 (createReview_notification_failure_propagates
                   Scenario.envNotificationsDown emptyStore emptyStore
                   (Scenario.submit Scenario.client 1%nat 2%nat 5)
                   Scenario.job1 (reviews Scenario.oneReview) Scenario.firstReview
                   "notifications unavailable" _ _ _ _ _)).
  all: vm_compute; reflexivity.
Defined.

(** ** handleReportedReview *)

(** The report that reportReview records is kept in [isReported],
    [reportReason], [reportedBy] and [reportedAt]. *)
Example scenario_reported :
  option_map (fun r => (Review.isReported r, Review.reportReason r, Review.reportedBy r))
    (Review.findById 0%nat (reviews Scenario.reportedReview))
  = Some (true, Some "spam", Some 2%nat).
Proof. vm_compute; reflexivity. Qed.

Lemma recognized_iff (action : Js.value) :
  Admin.recognized action = true
  <-> In action [Js.str "approve"; Js.str "reject"; Js.str "delete"].
Proof.
  unfold Admin.recognized. split.
  - destruct action as [| |b|n|s]; try discriminate. cbn.
    destruct (String.eqb_spec s "approve") as [->|_]; [auto|].
    destruct (String.eqb_spec s "reject") as [->|_]; [auto|].
    destruct (String.eqb_spec s "delete") as [->|_]; [auto|].
    discriminate.
  - intros [<-|[<-|[<-|[]]]]; reflexivity.
Qed.

(** Whatever report a review carries, a recognized action is answered with
    "This review has not been reported": the controller looks for the
    report under [review.reported], which no review document has. *)
Lemma handleReportedReview_sees_no_report env st r review :
  Admin.recognized (Admin.action r) = true ->
  Review.findById (Admin.reviewId r) (reviews st) = Some review ->
  Admin.handleReportedReview env st r
  = (st, errorResponse 400 (Text "This review has not been reported")).
Proof.
  intros Ha Hf. unfold Admin.handleReportedReview. rewrite Ha, Hf. reflexivity.
Qed.

(** C6, the code at the failing input: the review of job 1 carries the
    report of the freelancer; the administrator's action [delete] is
    answered with 400 "This review has not been reported", the store is
    unchanged and the review is still found. *)
Theorem handleReportedReview_delete_keeps_reported_review :
  (exists review,
     Review.findById 0%nat (reviews Scenario.reportedReview) = Some review
     /\ Review.isReported review = true)
  /\ Admin.handleReportedReview Scenario.env Scenario.reportedReview (Scenario.moderate "delete")
     = (Scenario.reportedReview, errorResponse 400 (Text "This review has not been reported"))
  /\ Review.isSome
       (Review.findById 0%nat
          (reviews (fst (Admin.handleReportedReview Scenario.env Scenario.reportedReview
                           (Scenario.moderate "delete"))))) = true.
Proof.
  split; [eexists; split; vm_compute; reflexivity|].
  split; vm_compute; reflexivity.
Qed.

(** C7, as the claim states it, fails: for a stored review without a report
    the recognized action [approve] is answered with status 400, not with
    the 404 of a missing review. *)
Lemma handleReportedReview_not_reported_example :
  (exists review,
     Review.findById 0%nat (reviews Scenario.oneReview) = Some review
     /\ Review.isReported review = false)
  /\ status (snd (Admin.handleReportedReview Scenario.env Scenario.oneReview
                    (Scenario.moderate "approve"))) = statusOf InvalidArgument
  /\ status (snd (Admin.handleReportedReview Scenario.env Scenario.oneReview
                    (Scenario.moderate "approve"))) <> statusOf NotFound.
Proof.
  split; [eexists; split; vm_compute; reflexivity|].
  split; [vm_compute; reflexivity|vm_compute; discriminate].
Qed.

(** C7, amended. An action outside approve, reject, delete is answered with
    400 "Invalid action. Must be approve, reject, or delete."; a recognized
    action for a stored review that carries no report is answered with 400
    "This review has not been reported"; 404 is the answer only when no
    review has the id. In each case the store is left as it is. *)
Theorem handleReportedReview_rejections (env : Env) (st : Store) (r : Admin.req) :
  (~ In (Admin.action r) [Js.str "approve"; Js.str "reject"; Js.str "delete"] ->
   Admin.handleReportedReview env st r
   = (st, errorResponse (statusOf InvalidArgument)
            (Text "Invalid action. Must be approve, reject, or delete.")))
  /\ (In (Admin.action r) [Js.str "approve"; Js.str "reject"; Js.str "delete"] ->
      (forall review,
         Review.findById (Admin.reviewId r) (reviews st) = Some review ->
         Review.isReported review = false ->
         Admin.handleReportedReview env st r
         = (st, errorResponse 400 (Text "This review has not been reported")))
      /\ (Review.findById (Admin.reviewId r) (reviews st) = None ->
          Admin.handleReportedReview env st r
          = (st, errorResponse (statusOf NotFound) (Text "Review not found")))).
Proof.
  split.
  - intros Hout. unfold Admin.handleReportedReview.
    destruct (Admin.recognized (Admin.action r)) eqn:Ha; [|reflexivity].
    exfalso. apply Hout, recognized_iff, Ha.
  - intros Hin. apply recognized_iff in Hin. split.
    + intros review Hf _. eapply handleReportedReview_sees_no_report; eassumption.
    + intros Hf. unfold Admin.handleReportedReview. rewrite Hin, Hf. reflexivity.
Qed.

Lemma handleReportedReview_rejections_witness :
  Admin.handleReportedReview Scenario.env Scenario.oneReview (Scenario.moderate "hide")
  = (Scenario.oneReview,
     errorResponse 400 (Text "Invalid action. Must be approve, reject, or delete."))
  /\ Admin.handleReportedReview Scenario.env Scenario.oneReview (Scenario.moderate "approve")
     = (Scenario.oneReview, errorResponse 400 (Text "This review has not been reported"))
  /\ Admin.handleReportedReview Scenario.env emptyStore (Scenario.moderate "reject")
     = (emptyStore, errorResponse 404 (Text "Review not found")).
Proof.
  split; [|split].
  - apply (proj1 (handleReportedReview_rejections Scenario.env Scenario.oneReview
                    (Scenario.moderate "hide"))).
    cbn. intros [H|[H|[H|[]]]]; discriminate H.
  - apply (proj1 (proj2 (handleReportedReview_rejections Scenario.env Scenario.oneReview
                           (Scenario.moderate "approve"))
                    (or_introl eq_refl))
             Scenario.firstReview); vm_compute; reflexivity.
  - apply (proj2 (proj2 (handleReportedReview_rejections Scenario.env emptyStore
                           (Scenario.moderate "reject"))
                    (or_intror (or_introl eq_refl)))).
    reflexivity.
Defined.

(** ** The invariant of the reachable stores *)

Lemma validateNumber_inRange n z : Review.validateNumber n = Some z -> Review.inRange z = true.
Proof.
  destruct n as [|z']; cbn; [discriminate|].
  destruct (Review.inRange z') eqn:E; intros H; inversion H; subst; assumption.
Qed.

Lemma validateNumber_validOptional n : Review.validOptional (Review.validateNumber n) = true.
Proof.
  destruct (Review.validateNumber n) eqn:E; cbn; [|reflexivity].
  eapply validateNumber_inRange; eassumption.
Qed.

Lemma validateComment_valid v s : Review.validateComment v = Some s -> Review.validComment s = true.
Proof.
  unfold Review.validateComment.
  destruct v; try discriminate;
    match goal with
    | |- context [Review.validComment ?x] => destruct (Review.validComment x) eqn:E
    end; intros H; inversion H; subst; assumption.
Qed.

Lemma create_wellFormed now i c c' r :
  Review.create now i c = (c', inr r) -> wellFormedReview r.
Proof.
  intros H. apply create_succeeded in H.
  destruct H as (_ & _ & _ & _ & _ & _ & _ & _ & Hrt & Hcm & H1 & H2 & H3 & H4 & H5 & _ & Hv & _).
  split; [|rewrite Hv; constructor].
  unfold Review.validate.
  rewrite (validateNumber_inRange _ _ Hrt), (validateComment_valid _ _ Hcm).
  rewrite <- H1, <- H2, <- H3, <- H4, <- H5, !validateNumber_validOptional. reflexivity.
Qed.

Lemma save_succeeded r c c' r' :
  Review.save r c = (c', inr r') ->
  r' = r /\ Review.validate r = []
  /\ Review.docs c' = map (fun d => if Nat.eqb (Review._id d) (Review._id r) then r else d)
                        (Review.docs c).
Proof.
  unfold Review.save. destruct (Review.validate r); intros H; inversion H; auto.
Qed.

Lemma save_valid r c :
  Review.validate r = [] ->
  Review.save r c
  = ({| Review.docs := map (fun d => if Nat.eqb (Review._id d) (Review._id r) then r else d)
                         (Review.docs c);
        Review.next_id := Review.next_id c |}, inr r).
Proof. unfold Review.save. intros ->. reflexivity. Qed.

Lemma save_Forall (P : Review.t -> Prop) r c c' r' :
  Review.save r c = (c', inr r') -> P r -> Forall P (Review.docs c) -> Forall P (Review.docs c').
Proof.
  intros H Hr Hc. apply save_succeeded in H. destruct H as (_ & _ & ->).
  induction Hc as [|d l Hd _ IH]; cbn; constructor; [|exact IH].
  destruct (Nat.eqb (Review._id d) (Review._id r)); assumption.
Qed.

Lemma findById_In id c r : Review.findById id c = Some r -> In r (Review.docs c) /\ Review._id r = id.
Proof.
  unfold Review.findById. intros H. apply find_some in H. destruct H as [Hin He].
  split; [assumption|]. apply Nat.eqb_eq; assumption.
Qed.

Lemma wellFormed_findById st id r :
  wellFormed st -> Review.findById id (reviews st) = Some r -> wellFormedReview r.
Proof.
  intros Hwf Hf. apply findById_In in Hf. destruct Hf as [Hin _].
  unfold wellFormed in Hwf. rewrite Forall_forall in Hwf. auto.
Qed.

Lemma assignRating_votes v r :
  Review.helpfulVotes (fst (assignRating v r)) = Review.helpfulVotes r.
Proof.
  unfold assignRating. destruct (Js.truthy v); [|reflexivity].
  destruct (Js.parseInt v); reflexivity.
Qed.

Lemma assignIsPublic_votes v r :
  Review.helpfulVotes (fst (assignIsPublic v r)) = Review.helpfulVotes r.
Proof.
  unfold assignIsPublic. destruct v; try reflexivity; destruct (castBoolean _); reflexivity.
Qed.

Lemma NoDup_push (l : list nat) (u : nat) :
  NoDup l -> existsb (fun item => Nat.eqb item u) l = false -> NoDup (l ++ [u]).
Proof.
  intros Hnd Hex. induction Hnd as [|x l Hx Hnd IH]; cbn in *.
  - constructor; [intros []|constructor].
  - apply orb_false_iff in Hex. destruct Hex as [Hxu Hex].
    constructor; [|auto].
    intros Hin. apply in_app_or in Hin. destruct Hin as [Hin|[<-|[]]]; [auto|].
    rewrite Nat.eqb_refl in Hxu. discriminate.
Qed.

Lemma handleReportedReview_store env st r : fst (Admin.handleReportedReview env st r) = st.
Proof.
  unfold Admin.handleReportedReview.
  destruct (Admin.recognized (Admin.action r)); [|reflexivity].
  destruct (Review.findById _ _); reflexivity.
Qed.

Lemma createReview_at_wellFormed env seen st req :
  wellFormed st -> wellFormed (fst (createReview_at env seen st req)).
Proof.
  intros Hwf.
  destruct (firstFailure env req) as [[kind message]|] eqn:Hff.
  - rewrite (createReview_at_rejected _ _ _ _ _ _ Hff). exact Hwf.
  - destruct (createReview_at_checked env seen st req Hff) as (job & _ & ->).
    unfold submitChecked.
    destruct (Review.findOne _ (reviews seen)); [exact Hwf|].
    destruct (Review.create _ _ _) as [c [e|r]] eqn:Hc; [exact Hwf|].
    assert (Hc' : wellFormed (withReviews c st)).
    { unfold wellFormed; cbn.
      pose proof (create_wellFormed _ _ _ _ _ Hc) as Hr.
      apply create_succeeded in Hc. destruct Hc as (_ & _ & -> & _).
      apply Forall_app; split; [exact Hwf|constructor; [exact Hr|constructor]]. }
    destruct (notify env _ _) as [st' [e|]] eqn:Hn; apply notify_reviews in Hn;
      unfold wellFormed in *; cbn in *; rewrite Hn; exact Hc'.
Qed.

Lemma updateReview_wellFormed env st req :
  wellFormed st -> wellFormed (fst (updateReview env st req)).
Proof.
  intros Hwf. unfold updateReview.
  destruct (Review.findById _ _) as [review|] eqn:Hf; [|exact Hwf].
  destruct (negb _); [exact Hwf|].
  destruct (_ <? _); [exact Hwf|].
  pose proof (assignRating_votes (UpdateReviewReq.rating req) review) as Hv1.
  destruct (assignRating _ review) as [review1 e1].
  destruct (categoriesAssignment req); [exact Hwf|].
  pose proof (assignIsPublic_votes (UpdateReviewReq.isPublic req) review1) as Hv2.
  destruct (assignIsPublic _ review1) as [review2 e2]. cbn in Hv1, Hv2.
  destruct (e1 ++ e2)%list; [|exact Hwf].
  destruct (Review.save review2 (reviews st)) as [c [e|saved]] eqn:Hs; [exact Hwf|].
  assert (Hc : Forall wellFormedReview (Review.docs c)).
  { eapply save_Forall; [exact Hs| |exact Hwf].
    split; [apply save_succeeded in Hs; tauto|].
    rewrite Hv2, Hv1. eapply wellFormed_findById; eassumption. }
  destruct (notify env _ _) as [st' [e|]] eqn:Hn; apply notify_reviews in Hn;
    unfold wellFormed; cbn in *; rewrite Hn; exact Hc.
Qed.

Lemma deleteReview_wellFormed env st req :
  wellFormed st -> wellFormed (fst (deleteReview env st req)).
Proof.
  intros Hwf. unfold deleteReview.
  destruct (Review.findById _ _); [|exact Hwf].
  destruct (_ && _); [exact Hwf|].
  unfold wellFormed in *; cbn. rewrite Forall_forall in *.
  intros r Hin. apply filter_In in Hin. apply Hwf, Hin.
Qed.

Lemma reportReview_wellFormed env st req :
  wellFormed st -> wellFormed (fst (reportReview env st req)).
Proof.
  intros Hwf. unfold reportReview.
  destruct (negb (Js.truthy _)); [exact Hwf|].
  destruct (Review.findById _ _) as [review|] eqn:Hf; [|exact Hwf].
  destruct (negb _); [exact Hwf|].
  destruct (Review.save _ (reviews st)) as [c [e|saved]] eqn:Hs; [exact Hwf|].
  assert (Hc : Forall wellFormedReview (Review.docs c)).
  { eapply save_Forall; [exact Hs| |exact Hwf].
    split; [apply save_succeeded in Hs; tauto|].
    cbn. eapply wellFormed_findById; eassumption. }
  destruct (notifyAll env _ _) as [st' [e|]] eqn:Hn; apply notifyAll_reviews in Hn;
    unfold wellFormed; cbn in *; rewrite Hn; exact Hc.
Qed.

Lemma markReviewAsHelpful_wellFormed env st req :
  wellFormed st -> wellFormed (fst (markReviewAsHelpful env st req)).
Proof.
  intros Hwf. unfold markReviewAsHelpful.
  destruct (Review.findById _ _) as [review|] eqn:Hf; [|exact Hwf].
  destruct (wellFormed_findById _ _ _ Hwf Hf) as [Hval Hnd].
  destruct (existsb _ _) eqn:Hex.
  - destruct (Review.save _ (reviews st)) as [c [e|saved]] eqn:Hs; [exact Hwf|].
    unfold wellFormed; cbn. eapply save_Forall; [exact Hs| |exact Hwf].
    split; [exact Hval|]. cbn. apply NoDup_filter, Hnd.
  - destruct (Review.save _ (reviews st)) as [c [e|saved]] eqn:Hs; [exact Hwf|].
    unfold wellFormed; cbn. eapply save_Forall; [exact Hs| |exact Hwf].
    split; [exact Hval|]. cbn. apply NoDup_push; assumption.
Qed.

Lemma handle_wellFormed env st rq :
  wellFormed st -> wellFormed (fst (handle env st rq)).
Proof.
  intros Hwf. destruct rq as [req|req|jobId|req|req|req|req|req|user|req]; cbn [handle].
  - apply createReview_at_wellFormed, Hwf.
  - unfold getUserReviews. destruct (User_findById _ _); [|exact Hwf].
    destruct (Review.page _ _ _); exact Hwf.
  - unfold getJobReviews. destruct (Job_findById _ _); exact Hwf.
  - apply updateReview_wellFormed, Hwf.
  - apply deleteReview_wellFormed, Hwf.
  - apply reportReview_wellFormed, Hwf.
  - apply markReviewAsHelpful_wellFormed, Hwf.
  - unfold getReportedReviews. destruct (negb _); [exact Hwf|].
    destruct (Review.page _ _ _); exact Hwf.
  - unfold getReviewStats. destruct (negb _); exact Hwf.
  - rewrite handleReportedReview_store. exact Hwf.
Qed.

Lemma reachable_wellFormed st : reachable st -> wellFormed st.
Proof.
  induction 1 as [|env st rq _ IH]; [constructor|].
  apply handle_wellFormed, IH.
Qed.

(** ** markReviewAsHelpful *)

Lemma findById_save id c r0 r :
  Review.findById id c = Some r0 -> Review._id r = id ->
  Review.findById id
    {| Review.docs := map (fun d => if Nat.eqb (Review._id d) (Review._id r) then r else d)
                        (Review.docs c);
       Review.next_id := Review.next_id c |} = Some r.
Proof.
  unfold Review.findById; cbn. intros Hf Hid. subst id.
  induction (Review.docs c) as [|d l IH]; cbn in *; [discriminate|].
  destruct (Nat.eqb (Review._id d) (Review._id r)) eqn:E.
  - rewrite Nat.eqb_refl. reflexivity.
  - rewrite E. apply IH, Hf.
Qed.

Lemma voted_iff (u : UserId) (l : list UserId) :
  existsb (fun item => Nat.eqb item u) l = true <-> In u l.
Proof.
  rewrite existsb_exists. split.
  - intros (x & Hin & He). apply Nat.eqb_eq in He. subst. assumption.
  - intros Hin. exists u. split; [assumption|apply Nat.eqb_refl].
Qed.

Lemma not_voted_iff (u : UserId) (l : list UserId) :
  existsb (fun item => Nat.eqb item u) l = false <-> ~ In u l.
Proof.
  split.
  - intros E Hin. apply voted_iff in Hin. congruence.
  - intros Hn. destruct (existsb (fun item => Nat.eqb item u) l) eqn:E; [|reflexivity].
    apply voted_iff in E. contradiction.
Qed.

Lemma others_kept (u : UserId) (l : list UserId) :
  ~ In u l -> filter (fun item => negb (Nat.eqb item u)) l = l.
Proof.
  induction l as [|x l IH]; cbn; intros Hn; [reflexivity|].
  destruct (Nat.eqb_spec x u) as [->|_]; cbn.
  - exfalso; apply Hn; left; reflexivity.
  - rewrite IH; [reflexivity|]. intros Hin; apply Hn; right; assumption.
Qed.

Lemma removed_one (u : UserId) (l : list UserId) :
  NoDup l -> In u l ->
  S (List.length (filter (fun item => negb (Nat.eqb item u)) l)) = List.length l.
Proof.
  induction 1 as [|x l Hx Hnd IH]; cbn; intros Hin; [destruct Hin|].
  destruct (Nat.eqb_spec x u) as [->|Hne]; cbn.
  - rewrite others_kept by assumption. reflexivity.
  - destruct Hin as [->|Hin]; [congruence|]. rewrite IH by assumption. reflexivity.
Qed.

Lemma toggle_In (u v : UserId) (l : list UserId) :
  In v (toggle u l) <-> (v = u /\ ~ In u l) \/ (v <> u /\ In v l).
Proof.
  unfold toggle. destruct (existsb _ _) eqn:E.
  - apply voted_iff in E. rewrite filter_In, negb_true_iff, Nat.eqb_neq. tauto.
  - apply not_voted_iff in E. rewrite in_app_iff. cbn.
    destruct (Nat.eq_dec v u) as [->|Hne]; [tauto|].
    split; [intros [H|[H|[]]]; [auto|congruence]|tauto].
Qed.

Lemma toggle_toggle_In (u v : UserId) (l : list UserId) :
  In v (toggle u (toggle u l)) <-> In v l.
Proof.
  rewrite toggle_In, (toggle_In u u l), (toggle_In u v l).
  destruct (Nat.eq_dec v u) as [->|Hne]; [|tauto].
  destruct (in_dec Nat.eq_dec u l); tauto.
Qed.

Lemma toggle_toggle_length (u : UserId) (l : list UserId) :
  NoDup l -> List.length (toggle u (toggle u l)) = List.length l.
Proof.
  intros Hnd. unfold toggle at 2. destruct (existsb _ _) eqn:E.
  - unfold toggle.
    replace (existsb _ (filter _ l)) with false.
    + rewrite length_app. cbn. apply voted_iff in E.
      rewrite <- (removed_one u l Hnd E). rewrite Nat.add_1_r. reflexivity.
    + symmetry. apply not_voted_iff. rewrite filter_In, negb_true_iff, Nat.eqb_neq. tauto.
  - unfold toggle.
    replace (existsb _ (l ++ [u])%list) with true.
    + rewrite filter_app. cbn. rewrite Nat.eqb_refl. cbn.
      rewrite app_nil_r, others_kept; [reflexivity|]. apply not_voted_iff, E.
    + symmetry. apply voted_iff, in_or_app. right. left. reflexivity.
Qed.

(** One call on a well-formed document: the stored votes become the
    toggled votes and their number is returned. *)
Lemma markReviewAsHelpful_toggles env st req review :
  wellFormedReview review ->
  Review.findById (ByIdReq.id req) (reviews st) = Some review ->
  let votes' := toggle (User._id (ByIdReq.user req)) (Review.helpfulVotes review) in
  Review.findById (ByIdReq.id req) (reviews (fst (markReviewAsHelpful env st req)))
  = Some (Review.set_helpfulVotes votes' review)
  /\ exists message,
       snd (markReviewAsHelpful env st req)
       = successResponse 200 message (HelpfulData (List.length votes')).
Proof.
  intros [Hval _] Hf votes'. subst votes'.
  destruct (findById_In _ _ _ Hf) as [_ Hid].
  unfold markReviewAsHelpful, toggle. rewrite Hf.
  destruct (existsb _ _).
  - rewrite save_valid by exact Hval. cbn [fst snd withReviews reviews]. split.
    + apply (findById_save _ _ review); [exact Hf|exact Hid].
    + eexists. reflexivity.
  - rewrite save_valid by exact Hval. cbn [fst snd withReviews reviews]. split.
    + apply (findById_save _ _ review); [exact Hf|exact Hid].
    + eexists. reflexivity.
Qed.

(** C9. On a store that the operations have produced, two calls of
    markReviewAsHelpful by one user for one review, with nothing in
    between: the first call adds the user to the helpful votes when absent
    and removes the user when present, leaving the other voters as they
    are; after the second call the votes have their original members, the
    rest of the review is as before, and the returned count is the original
    count. *)
Theorem markReviewAsHelpful_twice_restores
    (env1 env2 : Env) (st : Store) (req : ByIdReq.t) (review : Review.t) :
  reachable st ->
  Review.findById (ByIdReq.id req) (reviews st) = Some review ->
  let userId := User._id (ByIdReq.user req) in
  let votes := Review.helpfulVotes review in
  let once := markReviewAsHelpful env1 st req in
  let twice := markReviewAsHelpful env2 (fst once) req in
  exists votes1 votes2 message1 message2,
    Review.findById (ByIdReq.id req) (reviews (fst once))
    = Some (Review.set_helpfulVotes votes1 review)
    /\ snd once = successResponse 200 message1 (HelpfulData (List.length votes1))
    /\ (In userId votes1 <-> ~ In userId votes)
    /\ (forall u, u <> userId -> (In u votes1 <-> In u votes))
    /\ Review.findById (ByIdReq.id req) (reviews (fst twice))
       = Some (Review.set_helpfulVotes votes2 review)
    /\ (forall u, In u votes2 <-> In u votes)
    /\ List.length votes2 = List.length votes
    /\ snd twice = successResponse 200 message2 (HelpfulData (List.length votes)).
Proof.
  intros Hreach Hf userId votes once twice.
  pose proof (reachable_wellFormed _ Hreach) as Hwf.
  pose proof (wellFormed_findById _ _ _ Hwf Hf) as Hr.
  destruct (markReviewAsHelpful_toggles env1 st req review Hr Hf) as [Hf1 [m1 Hresp1]].
  fold userId votes once in Hf1, Hresp1.
  assert (Hr1 : wellFormedReview (Review.set_helpfulVotes (toggle userId votes) review)).
  { eapply wellFormed_findById; [|exact Hf1].
    apply reachable_wellFormed.
    exact (reachable_step env1 st (MarkReviewAsHelpful req) Hreach). }
  destruct (markReviewAsHelpful_toggles env2 (fst once) req _ Hr1 Hf1) as [Hf2 [m2 Hresp2]].
  cbn [Review.helpfulVotes Review.set_helpfulVotes] in Hf2, Hresp2.
  fold userId twice in Hf2, Hresp2.
  exists (toggle userId votes), (toggle userId (toggle userId votes)), m1, m2.
  split; [exact Hf1|]. split; [exact Hresp1|].
  split; [rewrite toggle_In; tauto|].
  split; [intros u Hu; rewrite toggle_In; tauto|].
  split; [exact Hf2|].
  split; [intros u; apply toggle_toggle_In|].
  destruct Hr as [_ Hnd].
  split; [apply toggle_toggle_length, Hnd|].
  rewrite Hresp2, (toggle_toggle_length userId votes Hnd). reflexivity.
Qed.

(** ** getUserReviews *)

Lemma insertDesc_In leb r l x :
  In x (Review.insertDesc leb r l) <-> x = r \/ In x l.
Proof.
  induction l as [|y l IH]; cbn.
  - split; [intros [<-|[]]; auto|intros [->|[]]; auto].
  - destruct (leb y r); cbn; [split; intros [H|H]; auto|].
    rewrite IH. tauto.
Qed.

Lemma sortDesc_In leb l x : In x (Review.sortDesc leb l) <-> In x l.
Proof.
  unfold Review.sortDesc. induction l as [|y l IH]; cbn; [tauto|].
  rewrite insertDesc_In, IH. split; intros [H|H]; auto.
Qed.

Lemma insertDesc_length leb r l :
  List.length (Review.insertDesc leb r l) = S (List.length l).
Proof.
  induction l as [|y l IH]; cbn; [reflexivity|].
  destruct (leb y r); cbn; [reflexivity|]. rewrite IH. reflexivity.
Qed.

Lemma sortDesc_length leb l : List.length (Review.sortDesc leb l) = List.length l.
Proof.
  unfold Review.sortDesc. induction l as [|y l IH]; cbn; [reflexivity|].
  rewrite insertDesc_length, IH. reflexivity.
Qed.

Lemma page_In skip limit l p x :
  Review.page skip limit l = inr p -> In x p -> In x l.
Proof.
  unfold Review.page. destruct (skip <? 0); [discriminate|].
  intros H Hin. inversion H; subst; clear H.
  rewrite <- (firstn_skipn (Z.to_nat skip) l). apply in_or_app. right.
  rewrite <- (firstn_skipn (Z.abs_nat limit) (skipn (Z.to_nat skip) l)).
  apply in_or_app. left. exact Hin.
Qed.

Lemma page_whole limit l :
  (List.length l <= Z.abs_nat limit)%nat -> Review.page 0 limit l = inr l.
Proof.
  intros Hl. unfold Review.page. cbn. rewrite firstn_all2 by exact Hl. reflexivity.
Qed.

Lemma matches_userReviewsQuery req r :
  Review.matches (userReviewsQuery req) r
  = receivedBy (GetUserReviewsReq.userId req) r && (ownReviews req || public r).
Proof.
  unfold Review.matches, userReviewsQuery, ownReviews, receivedBy, public; cbn.
  destruct (Nat.eqb (Review.recipient r) _); cbn; [|reflexivity].
  rewrite andb_true_r.
  destruct (GetUserReviewsReq.user req) as [u|]; cbn.
  - destruct (Nat.eqb (User._id u) _); cbn; [reflexivity|].
    destruct (Review.isPublic r) as [[|]|]; reflexivity.
  - destruct (Review.isPublic r) as [[|]|]; reflexivity.
Qed.

Lemma find_userReviewsQuery req c :
  Review.find (userReviewsQuery req) c
  = filter (fun r => receivedBy (GetUserReviewsReq.userId req) r && (ownReviews req || public r))
      (Review.docs c).
Proof.
  unfold Review.find. apply filter_ext. intros r. apply matches_userReviewsQuery.
Qed.

(** C10. In a successful answer of getUserReviews: for a caller who is not
    authenticated or is not the recipient queried, every returned review is
    a stored review of that recipient whose [isPublic] is true, and the
    total counts exactly those; for the recipient, the total counts all
    stored reviews of the recipient, and when the page covers them all,
    every one of them is returned, public or not. *)
Theorem getUserReviews_visibility
    (env : Env) (st : Store) (req : GetUserReviewsReq.t)
    (reviews_ : list Review.t) (stats : Review.Stats.t) (page limit : Z)
    (total : nat) (pages : Z) :
  snd (getUserReviews env st req)
    = successResponse 200 "Reviews retrieved successfully"
        (UserReviewsData reviews_ stats page limit total pages) ->
  let userId := GetUserReviewsReq.userId req in
  let stored := Review.docs (reviews st) in
  (ownReviews req = false ->
     (forall r, In r reviews_ ->
        In r stored /\ Review.recipient r = userId /\ Review.isPublic r = Some true)
     /\ total = List.length (filter (fun r => receivedBy userId r && public r) stored))
  /\ (ownReviews req = true ->
      (forall r, In r reviews_ -> In r stored /\ Review.recipient r = userId)
      /\ total = List.length (filter (receivedBy userId) stored)
      /\ ((page - 1) * limit = 0 -> (total <= Z.abs_nat limit)%nat ->
          forall r, In r stored -> Review.recipient r = userId -> In r reviews_)).
Proof.
  intros H userId stored. unfold getUserReviews in H.
  destruct (User_findById env _); [|discriminate].
  destruct (Review.page _ _ _) as [e|p] eqn:Hp; [discriminate|].
  cbn in H. inversion H; subst; clear H.
  unfold Review.countDocuments in *. rewrite find_userReviewsQuery in *.
  fold userId stored in Hp |- *.
  split; intros Hown; rewrite Hown in *; cbn [orb] in *.
  - split; [|reflexivity].
    intros r Hin. eapply page_In in Hin; [|exact Hp].
    apply sortDesc_In, filter_In in Hin. destruct Hin as [Hin Hm].
    apply andb_prop in Hm. destruct Hm as [Hrc Hpub].
    split; [exact Hin|]. split; [apply Nat.eqb_eq, Hrc|].
    unfold public in Hpub. destruct (Review.isPublic r) as [[|]|]; congruence.
  - assert (Hext : filter (fun r => receivedBy userId r && true) stored
                   = filter (receivedBy userId) stored).
    { apply filter_ext. intros r. apply andb_true_r. }
    rewrite Hext in *.
    split; [|split; [reflexivity|]].
    + intros r Hin. eapply page_In in Hin; [|exact Hp].
      apply sortDesc_In, filter_In in Hin. destruct Hin as [Hin Hrc].
      split; [exact Hin|apply Nat.eqb_eq, Hrc].
    + intros Hskip Hall r Hin Hrc.
      rewrite Hskip, page_whole in Hp by (rewrite sortDesc_length; exact Hall).
      inversion Hp; subst.
      apply sortDesc_In, filter_In. split; [exact Hin|apply Nat.eqb_eq, Hrc].
Qed.

(** ** What the operations change in a stored review *)

Lemma findById_app id c c' l r :
  Review.docs c' = (Review.docs c ++ l)%list ->
  Review.findById id c = Some r -> Review.findById id c' = Some r.
Proof.
  unfold Review.findById. intros -> Hf.
  induction (Review.docs c) as [|d ds IH]; cbn in *; [discriminate|].
  destruct (Nat.eqb (Review._id d) id); [exact Hf|auto].
Qed.

Lemma findById_saved id c c' x r :
  Review.docs c' = map (fun d => if Nat.eqb (Review._id d) (Review._id x) then x else d)
                     (Review.docs c) ->
  Review.findById id c = Some r ->
  Review.findById id c' = Some (if Nat.eqb id (Review._id x) then x else r).
Proof.
  unfold Review.findById. intros -> Hf.
  induction (Review.docs c) as [|d ds IH]; cbn in *; [discriminate|].
  destruct (Nat.eqb_spec (Review._id d) (Review._id x)) as [Hdx|Hdx].
  - destruct (Nat.eqb_spec (Review._id x) id) as [Hx|Hx].
    + rewrite <- Hx, Nat.eqb_refl. reflexivity.
    + destruct (Nat.eqb_spec (Review._id d) id) as [Hd|Hd]; [congruence|auto].
  - destruct (Nat.eqb_spec (Review._id d) id) as [Hd|Hd]; [|auto].
    inversion Hf; subst. destruct (Nat.eqb_spec (Review._id r) (Review._id x)); congruence.
Qed.

Lemma findById_deleted id id0 c :
  Review.findById id (Review.findByIdAndDelete id0 c)
  = if Nat.eqb id id0 then None else Review.findById id c.
Proof.
  unfold Review.findById, Review.findByIdAndDelete; cbn.
  induction (Review.docs c) as [|d ds IH]; cbn; [destruct (Nat.eqb id id0); reflexivity|].
  destruct (Nat.eqb_spec (Review._id d) id0) as [Hd|Hd]; cbn.
  - rewrite IH. destruct (Nat.eqb_spec id id0) as [Hi|Hi]; [reflexivity|].
    destruct (Nat.eqb_spec (Review._id d) id); [congruence|reflexivity].
  - destruct (Nat.eqb_spec (Review._id d) id) as [He|He]; [|exact IH].
    destruct (Nat.eqb_spec id id0); [congruence|reflexivity].
Qed.

Lemma createReview_at_keeps env seen st req id r :
  Review.findById id (reviews st) = Some r ->
  Review.findById id (reviews (fst (createReview_at env seen st req))) = Some r.
Proof.
  intros Hf.
  destruct (firstFailure env req) as [[kind message]|] eqn:Hff.
  - rewrite (createReview_at_rejected _ _ _ _ _ _ Hff). exact Hf.
  - destruct (createReview_at_checked env seen st req Hff) as (job & _ & ->).
    unfold submitChecked.
    destruct (Review.findOne _ (reviews seen)); [exact Hf|].
    destruct (Review.create _ _ _) as [c [e|r0]] eqn:Hc; [exact Hf|].
    apply create_succeeded in Hc. destruct Hc as (_ & _ & Hdocs & _).
    destruct (notify env _ _) as [st' [e|]] eqn:Hn; apply notify_reviews in Hn;
      cbn in *; rewrite Hn; eapply findById_app; eassumption.
Qed.

Lemma set_nothing (r : Review.t) :
  Review.set_isPublic (Review.isPublic r) (Review.set_rating (Review.rating r) r) = r.
Proof. destruct r; reflexivity. Qed.

Lemma assignRating_shape v review :
  exists rating, fst (assignRating v review) = Review.set_rating rating review.
Proof.
  unfold assignRating.
  destruct (Js.truthy v); [destruct (Js.parseInt v) as [|z]|]; cbn;
    try (exists z; reflexivity);
    exists (Review.rating review); destruct review; reflexivity.
Qed.

Lemma assignIsPublic_shape v review :
  exists isPublic, fst (assignIsPublic v review) = Review.set_isPublic isPublic review.
Proof.
  unfold assignIsPublic.
  destruct (castBoolean v) as [b|] eqn:E; destruct v; cbn; rewrite ?E; cbn;
    try (exists b; reflexivity);
    exists (Review.isPublic review); destruct review; reflexivity.
Qed.

Lemma assignments_shape vr vp review :
  exists rating isPublic,
    fst (assignIsPublic vp (fst (assignRating vr review)))
    = Review.set_isPublic isPublic (Review.set_rating rating review).
Proof.
  destruct (assignRating_shape vr review) as [rt ->].
  destruct (assignIsPublic_shape vp (Review.set_rating rt review)) as [ip ->].
  exists rt, ip. reflexivity.
Qed.

Lemma updateReview_changes env st req id r :
  Review.findById id (reviews st) = Some r ->
  exists r',
    Review.findById id (reviews (fst (updateReview env st req))) = Some r'
    /\ (r' = r
        \/ (id = UpdateReviewReq.id req
            /\ Review.reviewer r = User._id (UpdateReviewReq.user req)
            /\ Date_now env - thirtyDays <= Review.createdAt r
            /\ exists rating isPublic,
                 r' = Review.set_isPublic isPublic (Review.set_rating rating r))).
Proof.
  intros Hf. unfold updateReview.
  destruct (Review.findById (UpdateReviewReq.id req) _) as [review|] eqn:Hf0; [|eauto].
  destruct (Nat.eqb_spec (Review.reviewer review) (User._id (UpdateReviewReq.user req)))
    as [Hauthor|_]; cbn [negb]; [|eauto].
  destruct (Z.ltb_spec (Review.createdAt review) (Date_now env - thirtyDays)) as [_|Hage];
    [eauto|].
  pose proof (assignments_shape (UpdateReviewReq.rating req) (UpdateReviewReq.isPublic req)
                review) as (rt & ip & Hshape).
  destruct (assignRating _ review) as [review1 e1]. cbn [fst] in Hshape.
  destruct (categoriesAssignment req); [eauto|].
  destruct (assignIsPublic _ review1) as [review2 e2]. cbn [fst] in Hshape.
  destruct (e1 ++ e2)%list; [|eauto].
  destruct (Review.save review2 (reviews st)) as [c [e|saved]] eqn:Hs; [eauto|].
  apply save_succeeded in Hs. destruct Hs as (-> & _ & Hdocs).
  assert (Hid2 : Review._id review2 = UpdateReviewReq.id req).
  { rewrite Hshape. cbn. apply (findById_In _ _ _ Hf0). }
  assert (Hc : Review.findById id c
               = Some (if Nat.eqb id (UpdateReviewReq.id req) then review2 else r)).
  { rewrite <- Hid2. eapply findById_saved; eassumption. }
  assert (Hout : exists r',
            Review.findById id c = Some r'
            /\ (r' = r
                \/ (id = UpdateReviewReq.id req
                    /\ Review.reviewer r = User._id (UpdateReviewReq.user req)
                    /\ Date_now env - thirtyDays <= Review.createdAt r
                    /\ exists rating isPublic,
                         r' = Review.set_isPublic isPublic (Review.set_rating rating r)))).
  { rewrite Hc. destruct (Nat.eqb_spec id (UpdateReviewReq.id req)) as [->|_]; [|eauto].
    rewrite Hf in Hf0. inversion Hf0; subst review.
    exists review2. split; [reflexivity|]. right. repeat split; eauto. }
  destruct (notify env _ _) as [st' [e|]] eqn:Hn; apply notify_reviews in Hn;
    cbn in *; rewrite Hn; exact Hout.
Qed.

Lemma reportReview_changes env st req id r :
  Review.findById id (reviews st) = Some r ->
  exists r',
    Review.findById id (reviews (fst (reportReview env st req))) = Some r'
    /\ (r' = r
        \/ (id = ReportReviewReq.id req
            /\ Review.recipient r = User._id (ReportReviewReq.user req)
            /\ exists reason at_,
                 r' = Review.set_report true reason
                        (Some (User._id (ReportReviewReq.user req))) at_ r)).
Proof.
  intros Hf. unfold reportReview.
  destruct (negb (Js.truthy _)); [eauto|].
  destruct (Review.findById (ReportReviewReq.id req) _) as [review|] eqn:Hf0; [|eauto].
  destruct (Nat.eqb_spec (Review.recipient review) (User._id (ReportReviewReq.user req)))
    as [Hrc|_]; cbn [negb]; [|eauto].
  destruct (Review.save _ (reviews st)) as [c [e|saved]] eqn:Hs; [eauto|].
  apply save_succeeded in Hs. destruct Hs as (-> & _ & Hdocs).
  pose proof (findById_saved id _ _ _ _ Hdocs Hf) as Hc. cbn in Hc.
  rewrite (proj2 (findById_In _ _ _ Hf0)) in Hc.
  assert (Hout : exists r',
            Review.findById id c = Some r'
            /\ (r' = r
                \/ (id = ReportReviewReq.id req
                    /\ Review.recipient r = User._id (ReportReviewReq.user req)
                    /\ exists reason at_,
                         r' = Review.set_report true reason
                                (Some (User._id (ReportReviewReq.user req))) at_ r))).
  { rewrite Hc. destruct (Nat.eqb_spec id (ReportReviewReq.id req)) as [->|_]; [|eauto].
    rewrite Hf in Hf0. inversion Hf0; subst review.
    eexists. split; [reflexivity|]. right. repeat split; eauto. }
  destruct (notifyAll env _ _) as [st' [e|]] eqn:Hn; apply notifyAll_reviews in Hn;
    cbn in *; rewrite Hn; exact Hout.
Qed.

Lemma markReviewAsHelpful_changes env st req id r :
  Review.findById id (reviews st) = Some r ->
  exists r',
    Review.findById id (reviews (fst (markReviewAsHelpful env st req))) = Some r'
    /\ (r' = r
        \/ (id = ByIdReq.id req
            /\ r' = Review.set_helpfulVotes
                      (toggle (User._id (ByIdReq.user req)) (Review.helpfulVotes r)) r)).
Proof.
  intros Hf. unfold markReviewAsHelpful, toggle.
  destruct (Review.findById (ByIdReq.id req) _) as [review|] eqn:Hf0; [|eauto].
  pose proof (proj2 (findById_In _ _ _ Hf0)) as Hid.
  destruct (existsb _ _) eqn:Hex;
    (destruct (Review.save _ (reviews st)) as [c [e|saved]] eqn:Hs; [eauto|]);
    apply save_succeeded in Hs; destruct Hs as (-> & _ & Hdocs);
    pose proof (findById_saved id _ _ _ _ Hdocs Hf) as Hc; cbn in Hc; rewrite Hid in Hc;
    cbn [fst withReviews reviews]; rewrite Hc;
    (destruct (Nat.eqb_spec id (ByIdReq.id req)) as [->|_]; [|eauto]);
    rewrite Hf in Hf0; inversion Hf0; subst review;
    eexists; (split; [reflexivity|]); right; rewrite Hex; split; reflexivity.
Qed.

Lemma deleteReview_changes env st req id r :
  Review.findById id (reviews st) = Some r ->
  match Review.findById id (reviews (fst (deleteReview env st req))) with
  | Some r' => r' = r
  | None =>
      id = ByIdReq.id req
      /\ (Review.reviewer r = User._id (ByIdReq.user req)
          \/ User.role (ByIdReq.user req) = "admin")
  end.
Proof.
  intros Hf. unfold deleteReview.
  destruct (Review.findById (ByIdReq.id req) _) as [review|] eqn:Hf0;
    [|cbn; rewrite Hf; reflexivity].
  destruct (Nat.eqb_spec (Review.reviewer review) (User._id (ByIdReq.user req))) as [Hauthor|_];
    cbn [negb andb].
  - cbn [fst withReviews reviews]. rewrite findById_deleted.
    destruct (Nat.eqb_spec id (ByIdReq.id req)) as [->|_]; [|rewrite Hf; reflexivity].
    rewrite Hf in Hf0. inversion Hf0; subst. auto.
  - destruct (String.eqb_spec (User.role (ByIdReq.user req)) "admin") as [Hadmin|_];
      cbn [negb]; [|cbn; rewrite Hf; reflexivity].
    cbn [fst withReviews reviews]. rewrite findById_deleted.
    destruct (Nat.eqb_spec id (ByIdReq.id req)) as [->|_]; [|rewrite Hf; reflexivity].
    auto.
Qed.

(** C8, as the claim states it, fails: updateReview is no report or
    moderation flow, and the author's call replaces the stored rating of
    the review. *)
Lemma updateReview_changes_rating_example :
  option_map Review.rating (Review.findById 0%nat (reviews Scenario.oneReview)) = Some 5
  /\ isSuccess (snd (handle Scenario.env Scenario.oneReview (UpdateReview Scenario.lowerRating)))
     = true
  /\ option_map Review.rating
       (Review.findById 0%nat
          (reviews (fst (handle Scenario.env Scenario.oneReview
                           (UpdateReview Scenario.lowerRating))))) = Some 1.
Proof. repeat split; vm_compute; reflexivity. Qed.

(** C8, amended. For a stored review and any exposed operation: if the
    review is still stored afterwards, its job, reviewer and recipient are
    the same, and it is unchanged except that updateReview by its author
    within thirty days of creation may change it apart from the helpful
    votes and the moderation fields, markReviewAsHelpful toggles the
    caller in the helpful votes, and reportReview by its recipient writes
    the report fields (what handleReportedReview changes beyond the three
    references is left open); if it is no longer stored, the operation was
    deleteReview by its author or by an administrator, or the
    administrators' handleReportedReview. *)
Theorem handle_changes_of_a_stored_review
    (env : Env) (st : Store) (rq : Request) (id : ReviewId) (r : Review.t) :
  Review.findById id (reviews st) = Some r ->
  match Review.findById id (reviews (fst (handle env st rq))) with
  | Some r' =>
      (Review.job r', Review.reviewer r', Review.recipient r')
      = (Review.job r, Review.reviewer r, Review.recipient r)
      /\ match rq with
         | HandleReportedReview _ => True
         | UpdateReview req =>
             r' = r
             \/ (id = UpdateReviewReq.id req
                 /\ Review.reviewer r = User._id (UpdateReviewReq.user req)
                 /\ Date_now env - thirtyDays <= Review.createdAt r
                 /\ Review.helpfulVotes r' = Review.helpfulVotes r
                 /\ moderationFields r' = moderationFields r)
         | MarkReviewAsHelpful req =>
             r' = r
             \/ (id = ByIdReq.id req
                 /\ r' = Review.set_helpfulVotes
                           (toggle (User._id (ByIdReq.user req)) (Review.helpfulVotes r)) r)
         | ReportReview req =>
             r' = r
             \/ (id = ReportReviewReq.id req
                 /\ Review.recipient r = User._id (ReportReviewReq.user req)
                 /\ exists reason at_,
                      r' = Review.set_report true reason
                             (Some (User._id (ReportReviewReq.user req))) at_ r)
         | _ => r' = r
         end
  | None =>
      match rq with
      | DeleteReview req =>
          id = ByIdReq.id req
          /\ (Review.reviewer r = User._id (ByIdReq.user req)
              \/ User.role (ByIdReq.user req) = "admin")
      | HandleReportedReview _ => True
      | _ => False
      end
  end.
Proof.
  intros Hf. destruct rq as [req|req|jobId|req|req|req|req|req|user|req]; cbn [handle].
  - unfold createReview. rewrite (createReview_at_keeps _ _ _ _ _ _ Hf). auto.
  - unfold getUserReviews. destruct (User_findById _ _); [|cbn; rewrite Hf; auto].
    destruct (Review.page _ _ _); cbn; rewrite Hf; auto.
  - unfold getJobReviews. destruct (Job_findById _ _); cbn; rewrite Hf; auto.
  - destruct (updateReview_changes env st req id r Hf) as (r' & -> & Hr').
    destruct Hr' as [->|(Hid & Hauthor & Hage & rt & ip & ->)]; [auto|].
    split; [reflexivity|]. right. repeat split; assumption.
  - pose proof (deleteReview_changes env st req id r Hf) as Hd.
    destruct (Review.findById id (reviews (fst (deleteReview env st req))));
      [subst; auto|exact Hd].
  - destruct (reportReview_changes env st req id r Hf) as (r' & -> & Hr').
    split; [|exact Hr'].
    destruct Hr' as [->|(_ & _ & reason & at_ & ->)]; reflexivity.
  - destruct (markReviewAsHelpful_changes env st req id r Hf) as (r' & -> & Hr').
    split; [|exact Hr'].
    destruct Hr' as [->|(_ & ->)]; reflexivity.
  - unfold getReportedReviews. destruct (negb _); [cbn; rewrite Hf; auto|].
    destruct (Review.page _ _ _); cbn; rewrite Hf; auto.
  - unfold getReviewStats. destruct (negb _); cbn; rewrite Hf; auto.
  - rewrite handleReportedReview_store, Hf. auto.
Qed.

(** ** The theorems at the marketplace of the examples *)

Example scenario_second_review :
  createReview Scenario.env Scenario.oneReview Scenario.privateFeedback
  = (Scenario.bothReviews,
     successResponse 201 "Review submitted successfully" (ReviewData Scenario.secondReview))
  /\ Review.docs (reviews Scenario.bothReviews) = [Scenario.firstReview; Scenario.secondReview].
Proof. split; vm_compute; reflexivity. Qed.

Lemma createReview_second_submission_conflicts_witness :
  let again := Scenario.submit Scenario.client 1%nat 2%nat 3 in
  createReview Scenario.env emptyStore (Scenario.submit Scenario.client 1%nat 2%nat 5)
  = (Scenario.oneReview,
     successResponse 201 "Review submitted successfully" (ReviewData Scenario.firstReview))
  /\ Review.countDocuments (keyOf again) (reviews Scenario.oneReview) = 1%nat
  /\ createReview Scenario.env Scenario.oneReview again = (Scenario.oneReview, alreadySubmitted)
  /\ createReview_at Scenario.env emptyStore Scenario.oneReview again
     = (Scenario.oneReview, alreadySubmitted).
Proof.
  intros again.
  assert (H : createReview Scenario.env emptyStore
                (Scenario.submit Scenario.client 1%nat 2%nat 5)
              = (Scenario.oneReview,
                 successResponse 201 "Review submitted successfully"
                   (ReviewData Scenario.firstReview)))
    by (vm_compute; reflexivity).
  destruct (createReview_second_submission_conflicts _ _ _ _ _ H) as [Hcount Hsecond].
  destruct (Hsecond Scenario.env emptyStore again eq_refl eq_refl eq_refl eq_refl)
    as (Hseq & Hstore & Hresp).
  split; [exact H|]. split; [exact Hcount|]. split; [exact Hseq|].
  rewrite (surjective_pairing (createReview_at _ _ _ _)), Hstore, Hresp; reflexivity.
Defined.


Lemma createReview_omitted_categories_default_witness :
  exists st1 review,
    createReview_at Scenario.env Scenario.oneReview Scenario.oneReview Scenario.privateFeedback
    = (st1, successResponse 201 "Review submitted successfully" (ReviewData review))
    /\ CreateReviewReq.communication Scenario.privateFeedback = Js.num (Js.Int 1)
    /\ CreateReviewReq.qualityOfWork Scenario.privateFeedback = Js.undefined
    /\ CreateReviewReq.professionalism Scenario.privateFeedback = Js.undefined
    /\ Review.rating review = 2
    /\ Review.communication review = Some 1
    /\ Review.qualityOfWork review = Some 2
    /\ Review.professionalism review = Some 2.
Proof.
  assert (Hcategories :
            Forall (fun category =>
                      category = Js.undefined
                      \/ (exists k, category = Js.num (Js.Int k) /\ 1 <= k <= 5))
              [CreateReviewReq.communication Scenario.privateFeedback;
               CreateReviewReq.qualityOfWork Scenario.privateFeedback;
               CreateReviewReq.valueForMoney Scenario.privateFeedback;
               CreateReviewReq.expertise Scenario.privateFeedback;
               CreateReviewReq.professionalism Scenario.privateFeedback]).
  { constructor; [right; exists 1; split; [reflexivity|lia]|].
    repeat (constructor; [left; reflexivity|]). constructor. }
  assert (Hrange : 1 <= 2 <= 5) by lia.
  assert (Hlength : (10 <= String.length (Js.trim "  Paid late, unclear brief.  "))%nat)
    by (vm_compute; repeat constructor).
  destruct (proj2 (createReview_omitted_categories_default Scenario.env Scenario.oneReview
                     Scenario.oneReview Scenario.privateFeedback)
              2 "  Paid late, unclear brief.  " eq_refl eq_refl eq_refl eq_refl Hrange
              eq_refl Hlength Hcategories (fun _ => eq_refl))
    as (st1 & review & Hrun & Hrating & Hscores).
  exists st1, review. split; [exact Hrun|].
  split; [reflexivity|]. split; [reflexivity|]. split; [reflexivity|].
  split; [exact Hrating|].
  inversion Hscores as [|? ? ? ? D1 Hs1]; subst.
  inversion Hs1 as [|? ? ? ? D2 Hs2]; subst.
  inversion Hs2 as [|? ? ? ? D3 Hs3]; subst.
  inversion Hs3 as [|? ? ? ? D4 Hs4]; subst.
  inversion Hs4 as [|? ? ? ? D5 _]; subst.
  split; [|split].
  - destruct D1 as [[E _] | (k & E & _ & ->)]; [discriminate E|]. inversion E. reflexivity.
  - destruct D2 as [[_ ->] | (k & E & _)]; [reflexivity|discriminate E].
  - destruct D5 as [[_ ->] | (k & E & _)]; [reflexivity|discriminate E].
Defined.

Lemma handle_changes_of_a_stored_review_witness :
  let byAdmin := Scenario.byId Scenario.admin 0%nat in
  Review.findById 0%nat (reviews Scenario.oneReview) = Some Scenario.firstReview
  /\ match Review.findById 0%nat
             (reviews (fst (handle Scenario.env Scenario.oneReview (DeleteReview byAdmin)))) with
     | Some r' =>
         (Review.job r', Review.reviewer r', Review.recipient r') = (1%nat, 1%nat, 2%nat)
         /\ r' = Scenario.firstReview
     | None =>
         0%nat = ByIdReq.id byAdmin
         /\ (Review.reviewer Scenario.firstReview = User._id (ByIdReq.user byAdmin)
             \/ User.role (ByIdReq.user byAdmin) = "admin")
     end.
Proof.
  intros byAdmin.
  assert (H : Review.findById 0%nat (reviews Scenario.oneReview) = Some Scenario.firstReview)
    by (vm_compute; reflexivity).
  split; [exact H|].
  exact (handle_changes_of_a_stored_review Scenario.env Scenario.oneReview
           (DeleteReview byAdmin) 0%nat Scenario.firstReview H).
Defined.

Lemma markReviewAsHelpful_twice_restores_witness :
  let req := Scenario.byId Scenario.freelancer 0%nat in
  let once := markReviewAsHelpful Scenario.env Scenario.oneReview req in
  let twice := markReviewAsHelpful Scenario.env (fst once) req in
  exists votes1 votes2 message1 message2,
    Review.findById 0%nat (reviews (fst once))
    = Some (Review.set_helpfulVotes votes1 Scenario.firstReview)
    /\ snd once = successResponse 200 message1 (HelpfulData (List.length votes1))
    /\ (In 2%nat votes1 <-> ~ In 2%nat [])
    /\ (forall u, u <> 2%nat -> (In u votes1 <-> In u []))
    /\ Review.findById 0%nat (reviews (fst twice))
       = Some (Review.set_helpfulVotes votes2 Scenario.firstReview)
    /\ (forall u, In u votes2 <-> In u [])
    /\ List.length votes2 = 0%nat
    /\ snd twice = successResponse 200 message2 (HelpfulData 0).
Proof.
  refine (markReviewAsHelpful_twice_restores Scenario.env Scenario.env Scenario.oneReview
            (Scenario.byId Scenario.freelancer 0%nat) Scenario.firstReview _ _).
  - exact (reachable_step Scenario.env emptyStore
             (CreateReview (Scenario.submit Scenario.client 1%nat 2%nat 5)) reachable_empty).
  - vm_compute; reflexivity.
Defined.

Lemma getUserReviews_visibility_witness :
  (* a visitor sees none of the client's reviews: the only one is not public *)
  snd (getUserReviews Scenario.env Scenario.bothReviews (Scenario.listFor None 1%nat))
  = successResponse 200 "Reviews retrieved successfully"
      (UserReviewsData [] (Review.getReviewStats 1%nat (reviews Scenario.bothReviews))
         1 10 0 0)
  /\ 0%nat = List.length (filter (fun r => receivedBy 1%nat r && public r)
                            (Review.docs (reviews Scenario.bothReviews)))
  (* the client sees it *)
  /\ snd (getUserReviews Scenario.env Scenario.bothReviews
            (Scenario.listFor (Some Scenario.client) 1%nat))
     = successResponse 200 "Reviews retrieved successfully"
         (UserReviewsData [Scenario.secondReview]
            (Review.getReviewStats 1%nat (reviews Scenario.bothReviews)) 1 10 1 1)
  /\ In Scenario.secondReview [Scenario.secondReview].
Proof.
  assert (Hvisitor :
            snd (getUserReviews Scenario.env Scenario.bothReviews (Scenario.listFor None 1%nat))
            = successResponse 200 "Reviews retrieved successfully"
                (UserReviewsData [] (Review.getReviewStats 1%nat (reviews Scenario.bothReviews))
                   1 10 0 0)) by (vm_compute; reflexivity).
  assert (Hclient :
            snd (getUserReviews Scenario.env Scenario.bothReviews
                   (Scenario.listFor (Some Scenario.client) 1%nat))
            = successResponse 200 "Reviews retrieved successfully"
                (UserReviewsData [Scenario.secondReview]
                   (Review.getReviewStats 1%nat (reviews Scenario.bothReviews)) 1 10 1 1))
    by (vm_compute; reflexivity).
  destruct (getUserReviews_visibility _ _ _ _ _ _ _ _ _ Hvisitor) as [Hother _].
  destruct (Hother eq_refl) as [_ Htotal].
  destruct (getUserReviews_visibility _ _ _ _ _ _ _ _ _ Hclient) as [_ Hown].
  destruct (Hown eq_refl) as (_ & _ & Hall).
  split; [exact Hvisitor|]. split; [exact Htotal|]. split; [exact Hclient|].
  apply Hall; [reflexivity|vm_compute; lia| |reflexivity].
  vm_compute. right. left. reflexivity.
Defined.

(** * Further properties of the review ledger *)

(** ** The unique index in the reachable stores *)

Lemma matches_sameKey_iff j rv rc r :
  Review.matches (Review.sameKey j rv rc) r = true <-> keyTriple r = (j, rv, rc).
Proof.
  unfold Review.matches, Review.sameKey, keyTriple; cbn.
  rewrite !andb_true_r, !andb_true_iff, !Nat.eqb_eq.
  split; [intros [[-> ->] ->]; reflexivity|intros H; inversion H; auto].
Qed.

Lemma findOne_sameKey_none j rv rc c :
  Review.findOne (Review.sameKey j rv rc) c = None ->
  ~ In (j, rv, rc) (map keyTriple (Review.docs c)).
Proof.
  unfold Review.findOne. intros Hnone Hin.
  apply in_map_iff in Hin. destruct Hin as (r & Hk & Hin).
  pose proof (find_none _ _ Hnone r Hin) as Hm.
  apply matches_sameKey_iff in Hk. congruence.
Qed.

Lemma NoDup_map_same {A B : Type} (f : A -> B) (l : list A) (a b : A) :
  NoDup (map f l) -> In a l -> In b l -> f a = f b -> a = b.
Proof.
  induction l as [|x l IH]; cbn; intros Hnd Ha Hb Hf; [destruct Ha|].
  inversion Hnd as [|? ? Hx Hnd']; subst.
  destruct Ha as [->|Ha], Hb as [->|Hb]; auto.
  - exfalso. apply Hx. rewrite Hf. apply in_map, Hb.
  - exfalso. apply Hx. rewrite <- Hf. apply in_map, Ha.
Qed.

Lemma filter_keeps_distinct {K : Type} (key : Review.t -> K) (keep : Review.t -> bool)
    (docs : list Review.t) (Hdistinct : NoDup (map key docs)) :
  NoDup (map key (filter keep docs)).
Proof.
  induction docs as [|r docs IH]; cbn in *; [constructor|].
  inversion Hdistinct as [|? ? Hfresh Hrest]; subst.
  destruct (keep r); cbn; [constructor|]; auto.
  intros Hin. apply Hfresh. apply in_map_iff in Hin. destruct Hin as (y & Hy & Hin).
  apply filter_In in Hin. rewrite <- Hy. apply in_map, Hin.
Qed.

Lemma count_at_most_one {A B : Type} (f : A -> B) (p : A -> bool) (k : B) (l : list A) :
  (forall x, p x = true -> f x = k) ->
  NoDup (map f l) -> (List.length (filter p l) <= 1)%nat.
Proof.
  intros Hp. induction l as [|x l IH]; cbn; intros Hnd; [lia|].
  inversion Hnd as [|? ? Hx Hnd']; subst.
  destruct (p x) eqn:Hpx; [|auto].
  cbn. destruct (filter p l) as [|y ys] eqn:Hfl; [cbn; lia|].
  exfalso. apply Hx.
  assert (Hy : In y (filter p l)) by (rewrite Hfl; left; reflexivity).
  apply filter_In in Hy. destruct Hy as [Hin Hpy].
  rewrite (Hp x Hpx), <- (Hp y Hpy). apply in_map, Hin.
Qed.

Lemma saved_ids (r : Review.t) (l : list Review.t) :
  map Review._id (map (fun d => if Nat.eqb (Review._id d) (Review._id r) then r else d) l)
  = map Review._id l.
Proof.
  induction l as [|d l IH]; cbn; [reflexivity|]. rewrite IH. f_equal.
  destruct (Nat.eqb_spec (Review._id d) (Review._id r)); congruence.
Qed.

Lemma saved_keys (r0 r : Review.t) (l : list Review.t) :
  NoDup (map Review._id l) -> In r0 l ->
  Review._id r = Review._id r0 -> keyTriple r = keyTriple r0 ->
  map keyTriple (map (fun d => if Nat.eqb (Review._id d) (Review._id r) then r else d) l)
  = map keyTriple l.
Proof.
  intros Hnd Hin Hid Hkey. rewrite map_map. apply map_ext_in. intros d Hd.
  destruct (Nat.eqb_spec (Review._id d) (Review._id r)) as [He|_]; [|reflexivity].
  rewrite Hkey. f_equal. symmetry.
  eapply NoDup_map_same; [exact Hnd|exact Hd|exact Hin|congruence].
Qed.

Lemma NoDup_snoc {A : Type} (l : list A) (x : A) :
  NoDup l -> ~ In x l -> NoDup (l ++ [x]).
Proof.
  induction 1 as [|y l Hy Hnd IH]; cbn; intros Hx.
  - constructor; [intros []|constructor].
  - constructor.
    + intros Hi. apply in_app_or in Hi. destruct Hi as [Hi|[Hi|[]]]; [auto|].
      apply Hx. left. congruence.
    + apply IH. intros Hi. apply Hx. right. exact Hi.
Qed.

Lemma save_next_id r c c' r' :
  Review.save r c = (c', inr r') -> Review.next_id c' = Review.next_id c.
Proof.
  unfold Review.save. destruct (Review.validate r); intros H; inversion H; reflexivity.
Qed.

Lemma evolves_storeInvariant c c' :
  storeInvariant c -> evolves c c' -> storeInvariant c'.
Proof.
  intros (Hids & Hfresh & Hkeys) Hev.
  destruct Hev as [|now i c' r Hc|r0 r r' c' Hin Hid Hkey Hs|id].
  - repeat split; assumption.
  - pose proof (create_succeeded _ _ _ _ _ Hc)
      as (Hnone & _ & Hdocs & Hnext & Hrid & Hj & Hrv & Hrc & _).
    unfold storeInvariant. rewrite Hdocs, Hnext, !map_app. cbn.
    split; [|split].
    + apply NoDup_snoc; [exact Hids|].
      intros Hi. apply in_map_iff in Hi. destruct Hi as (d & Hd & Hdin).
      rewrite Forall_forall in Hfresh. specialize (Hfresh d Hdin). lia.
    + apply Forall_app. split.
      * eapply Forall_impl; [|exact Hfresh]. cbn. intros; lia.
      * constructor; [lia|constructor].
    + apply NoDup_snoc; [exact Hkeys|].
      apply findOne_sameKey_none in Hnone.
      unfold keyTriple at 1. rewrite Hj, Hrv, Hrc. exact Hnone.
  - pose proof (save_next_id _ _ _ _ Hs) as Hnext.
    apply save_succeeded in Hs. destruct Hs as (_ & _ & Hdocs).
    unfold storeInvariant. rewrite Hdocs, Hnext, saved_ids.
    rewrite (saved_keys r0 r _ Hids Hin Hid Hkey).
    split; [exact Hids|]. split; [|exact Hkeys].
    rewrite Forall_forall in *. intros d Hd. apply in_map_iff in Hd.
    destruct Hd as (d0 & Hd0 & Hin0).
    destruct (Nat.eqb_spec (Review._id d0) (Review._id r)) as [He|_]; subst d.
    + rewrite <- He. apply Hfresh, Hin0.
    + apply Hfresh, Hin0.
  - unfold storeInvariant, Review.findByIdAndDelete; cbn. split; [|split].
    + apply filter_keeps_distinct, Hids.
    + rewrite Forall_forall in *. intros r Hr. apply filter_In in Hr. apply Hfresh, Hr.
    + apply filter_keeps_distinct, Hkeys.
Qed.

Lemma createReview_at_evolves env seen st req :
  evolves (reviews st) (reviews (fst (createReview_at env seen st req))).
Proof.
  destruct (firstFailure env req) as [[kind message]|] eqn:Hff.
  - rewrite (createReview_at_rejected _ _ _ _ _ _ Hff). constructor.
  - destruct (createReview_at_checked env seen st req Hff) as (job & _ & ->).
    unfold submitChecked.
    destruct (Review.findOne _ (reviews seen)); [constructor|].
    destruct (Review.create _ _ _) as [c [e|r]] eqn:Hc; [constructor|].
    destruct (notify env _ _) as [st' [e|]] eqn:Hn; apply notify_reviews in Hn;
      cbn in *; rewrite Hn; eapply evolves_create; exact Hc.
Qed.

Lemma updateReview_evolves env st req :
  evolves (reviews st) (reviews (fst (updateReview env st req))).
Proof.
  unfold updateReview.
  destruct (Review.findById _ _) as [review|] eqn:Hf; [|constructor].
  destruct (negb _); [constructor|].
  destruct (_ <? _); [constructor|].
  pose proof (assignments_shape (UpdateReviewReq.rating req) (UpdateReviewReq.isPublic req)
                review) as (rt & ip & Hshape).
  destruct (assignRating _ review) as [review1 e1]. cbn [fst] in Hshape.
  destruct (categoriesAssignment req); [constructor|].
  destruct (assignIsPublic _ review1) as [review2 e2]. cbn [fst] in Hshape.
  destruct (e1 ++ e2)%list; [|constructor].
  destruct (Review.save review2 (reviews st)) as [c [e|saved]] eqn:Hs; [constructor|].
  assert (Hev : evolves (reviews st) c).
  { eapply (evolves_save _ review review2); [|subst review2; reflexivity..|exact Hs].
    apply (findById_In _ _ _ Hf). }
  destruct (notify env _ _) as [st' [e|]] eqn:Hn; apply notify_reviews in Hn;
    cbn in *; rewrite Hn; exact Hev.
Qed.

Lemma reportReview_evolves env st req :
  evolves (reviews st) (reviews (fst (reportReview env st req))).
Proof.
  unfold reportReview.
  destruct (negb (Js.truthy _)); [constructor|].
  destruct (Review.findById _ _) as [review|] eqn:Hf; [|constructor].
  destruct (negb _); [constructor|].
  destruct (Review.save _ (reviews st)) as [c [e|saved]] eqn:Hs; [constructor|].
  assert (Hev : evolves (reviews st) c).
  { eapply evolves_save; [| | |exact Hs];
      [apply (findById_In _ _ _ Hf)|reflexivity|reflexivity]. }
  destruct (notifyAll env _ _) as [st' [e|]] eqn:Hn; apply notifyAll_reviews in Hn;
    cbn in *; rewrite Hn; exact Hev.
Qed.

Lemma markReviewAsHelpful_evolves env st req :
  evolves (reviews st) (reviews (fst (markReviewAsHelpful env st req))).
Proof.
  unfold markReviewAsHelpful.
  destruct (Review.findById _ _) as [review|] eqn:Hf; [|constructor].
  destruct (existsb _ _);
    (destruct (Review.save _ (reviews st)) as [c [e|saved]] eqn:Hs;
     [cbn; apply evolves_same|]);
    cbn;
    (eapply evolves_save; [| | |exact Hs];
     [apply (findById_In _ _ _ Hf)|reflexivity|reflexivity]).
Qed.

Lemma handle_evolves env st rq :
  evolves (reviews st) (reviews (fst (handle env st rq))).
Proof.
  destruct rq as [req|req|jobId|req|req|req|req|req|user|req]; cbn [handle].
  - apply createReview_at_evolves.
  - unfold getUserReviews. destruct (User_findById _ _); [|constructor].
    destruct (Review.page _ _ _); constructor.
  - unfold getJobReviews. destruct (Job_findById _ _); constructor.
  - apply updateReview_evolves.
  - unfold deleteReview. destruct (Review.findById _ _); [|constructor].
    destruct (_ && _); [constructor|]. cbn. apply evolves_delete.
  - apply reportReview_evolves.
  - apply markReviewAsHelpful_evolves.
  - unfold getReportedReviews. destruct (negb _); [constructor|].
    destruct (Review.page _ _ _); constructor.
  - unfold getReviewStats. destruct (negb _); constructor.
  - rewrite handleReportedReview_store. constructor.
Qed.

Lemma reachable_storeInvariant st : reachable st -> storeInvariant (reviews st).
Proof.
  induction 1 as [|env st rq _ IH].
  - repeat split; constructor.
  - eapply evolves_storeInvariant; [exact IH|apply handle_evolves].
Qed.

(** X1. In every store that the operations produce, the key
    (job, reviewer, recipient) of the unique index belongs to at most one
    stored review. *)
Theorem reachable_one_review_per_key (st : Store) (j : JobId) (rv rc : UserId) :
  reachable st ->
  (Review.countDocuments (Review.sameKey j rv rc) (reviews st) <= 1)%nat.
Proof.
  intros Hreach. destruct (reachable_storeInvariant st Hreach) as (_ & _ & Hkeys).
  unfold Review.countDocuments, Review.find.
  apply (count_at_most_one keyTriple _ (j, rv, rc)); [|exact Hkeys].
  intros r. apply matches_sameKey_iff.
Qed.

Lemma reachable_bothReviews : reachable Scenario.bothReviews.
Proof.
  exact (reachable_step Scenario.env Scenario.oneReview (CreateReview Scenario.privateFeedback)
           (reachable_step Scenario.env emptyStore
              (CreateReview (Scenario.submit Scenario.client 1%nat 2%nat 5)) reachable_empty)).
Qed.

Lemma reachable_one_review_per_key_witness :
  (Review.countDocuments (Review.sameKey 1%nat 1%nat 2%nat) (reviews Scenario.bothReviews) <= 1)%nat.
Proof.
  exact (reachable_one_review_per_key Scenario.bothReviews 1%nat 1%nat 2%nat
           reachable_bothReviews).
Defined.

(** ** What createReview stores and answers *)

Lemma create_defaults now i c c' r :
  Review.create now i c = (c', inr r) ->
  Review.isPublic r = Some (Review.in_isPublic i)
  /\ Review.createdAt r = now
  /\ Review.reportReason r = None /\ Review.reportedBy r = None /\ Review.reportedAt r = None
  /\ Review.isHidden r = false /\ Review.moderationReason r = None.
Proof.
  unfold Review.create. intros H.
  destruct (Review.validateNumber (Review.in_rating i)); [|discriminate].
  destruct (Review.validateComment (Review.in_comment i)); [|discriminate].
  destruct (Review.validateNumber (Review.in_communication i)); [|discriminate].
  destruct (Review.validateNumber (Review.in_qualityOfWork i)); [|discriminate].
  destruct (Review.validateNumber (Review.in_valueForMoney i)); [|discriminate].
  destruct (Review.validateNumber (Review.in_expertise i)); [|discriminate].
  destruct (Review.validateNumber (Review.in_professionalism i)); [|discriminate].
  destruct (Review.isSome _); [discriminate|].
  inversion H; subst. cbn. repeat split; reflexivity.
Qed.

Lemma firstFailure_none_role env req :
  firstFailure env req = None ->
  User.role (CreateReviewReq.user req) = "client"
  \/ User.role (CreateReviewReq.user req) = "freelancer".
Proof.
  unfold firstFailure, preconditions.
  destruct (Job_findById env (CreateReviewReq.jobId req)) as [job|]; cbn; [|discriminate].
  destruct (User_findById env (CreateReviewReq.recipient req)); cbn; [|discriminate].
  destruct (String.eqb (Job.status job) "completed"); cbn; [|discriminate].
  destruct (Review.isSome (populate env (Job.client job))); cbn; [|discriminate].
  destruct (Review.isSome (populate env (Job.hiredFreelancer job))); cbn; [|discriminate].
  destruct (String.eqb_spec (User.role (CreateReviewReq.user req)) "client"); cbn; [auto|].
  destruct (String.eqb_spec (User.role (CreateReviewReq.user req)) "freelancer"); cbn;
    [auto|discriminate].
Qed.

(** X2. The review that a successful createReview stores is attributed to
    the acting user and to the job and recipient of the request; its type
    follows from the caller's role (client: client-to-freelancer,
    freelancer: freelancer-to-client); it is public unless the payload
    says [isPublic: false]; it carries no report and no helpful vote, and
    its creation date is the time of the request. *)
Theorem createReview_stores_derived_fields
    (env : Env) (seen st : Store) (req : CreateReviewReq.t) (st1 : Store) (review : Review.t) :
  createReview_at env seen st req
    = (st1, successResponse 201 "Review submitted successfully" (ReviewData review)) ->
  keyTriple review
  = (CreateReviewReq.jobId req, User._id (CreateReviewReq.user req), CreateReviewReq.recipient req)
  /\ (User.role (CreateReviewReq.user req) = "client"
      /\ Review.type review = Review.client_to_freelancer
      \/ User.role (CreateReviewReq.user req) = "freelancer"
         /\ Review.type review = Review.freelancer_to_client)
  /\ Review.isPublic review
     = Some (match CreateReviewReq.isPublic req with Js.boolean false => false | _ => true end)
  /\ Review.helpfulVotes review = []
  /\ moderationFields review = (false, None, None, None, false, None)
  /\ Review.createdAt review = Date_now env.
Proof.
  intros H. apply createReview_at_success in H.
  destruct H as (Hff & _ & r & Hd & Hc). inversion Hd; subst r; clear Hd.
  pose proof (create_succeeded _ _ _ _ _ Hc)
    as (_ & _ & _ & _ & _ & Hj & Hrv & Hrc & _ & _ & _ & _ & _ & _ & _ & Hty & Hvotes & Hrep).
  pose proof (create_defaults _ _ _ _ _ Hc) as (Hpub & Hat & H1 & H2 & H3 & H4 & H5).
  split; [unfold keyTriple; rewrite Hj, Hrv, Hrc; reflexivity|].
  split.
  { rewrite Hty. cbn. unfold derivedType.
    destruct (firstFailure_none_role env req Hff) as [Hrole|Hrole]; rewrite Hrole; cbn; auto. }
  split; [rewrite Hpub; reflexivity|].
  split; [exact Hvotes|].
  split; [unfold moderationFields; rewrite Hrep, H1, H2, H3, H4, H5; reflexivity|exact Hat].
Qed.

Lemma createReview_stores_derived_fields_witness :
  keyTriple Scenario.secondReview = (1%nat, 2%nat, 1%nat)
  /\ (User.role Scenario.freelancer = "client"
      /\ Review.type Scenario.secondReview = Review.client_to_freelancer
      \/ User.role Scenario.freelancer = "freelancer"
         /\ Review.type Scenario.secondReview = Review.freelancer_to_client)
  /\ Review.isPublic Scenario.secondReview = Some false
  /\ Review.helpfulVotes Scenario.secondReview = []
  /\ moderationFields Scenario.secondReview = (false, None, None, None, false, None)
  /\ Review.createdAt Scenario.secondReview = 1000.
Proof.
  refine (createReview_stores_derived_fields Scenario.env Scenario.oneReview Scenario.oneReview
            Scenario.privateFeedback Scenario.bothReviews Scenario.secondReview _).
  vm_compute; reflexivity.
Defined.

Lemma validateComment_trimmed v s :
  Review.validateComment v = Some s ->
  s = Js.trim (Js.ToString v) /\ (10 <= String.length s)%nat.
Proof.
  unfold Review.validateComment.
  destruct v; try discriminate;
    match goal with
    | |- context [Review.validComment ?x] => destruct (Review.validComment x) eqn:E
    end; intros H; inversion H; subst; clear H;
    (split; [reflexivity|]);
    unfold Review.validComment in E; apply andb_prop in E; destruct E as [_ E];
    apply Nat.leb_le in E; exact E.
Qed.

Lemma create_scores now i c c' r :
  Review.create now i c = (c', inr r) ->
  Forall (fun score => exists z, score = Some z /\ Review.inRange z = true)
    [Review.communication r; Review.qualityOfWork r; Review.valueForMoney r;
     Review.expertise r; Review.professionalism r].
Proof.
  unfold Review.create. intros H.
  destruct (Review.validateNumber (Review.in_rating i)); [|discriminate].
  destruct (Review.validateComment (Review.in_comment i)); [|discriminate].
  destruct (Review.validateNumber (Review.in_communication i)) as [c1|] eqn:E1; [|discriminate].
  destruct (Review.validateNumber (Review.in_qualityOfWork i)) as [c2|] eqn:E2; [|discriminate].
  destruct (Review.validateNumber (Review.in_valueForMoney i)) as [c3|] eqn:E3; [|discriminate].
  destruct (Review.validateNumber (Review.in_expertise i)) as [c4|] eqn:E4; [|discriminate].
  destruct (Review.validateNumber (Review.in_professionalism i)) as [c5|] eqn:E5; [|discriminate].
  destruct (Review.isSome _); [discriminate|].
  inversion H; subst. cbn.
  repeat constructor; eexists; (split; [reflexivity|]);
    eapply validateNumber_inRange; eassumption.
Qed.

(** X3. The content that a successful createReview stores has passed the
    schema: the rating and each of the five category scores are integers
    from 1 to 5, and the comment is the submitted comment, converted to a
    string, with the surrounding white space (NBSP included) removed, at
    least ten characters long. *)
Theorem createReview_stores_validated_content
    (env : Env) (seen st : Store) (req : CreateReviewReq.t) (st1 : Store) (review : Review.t) :
  createReview_at env seen st req
    = (st1, successResponse 201 "Review submitted successfully" (ReviewData review)) ->
  1 <= Review.rating review <= 5
  /\ Forall (fun score => exists z, score = Some z /\ 1 <= z <= 5)
       [Review.communication review; Review.qualityOfWork review;
        Review.valueForMoney review; Review.expertise review; Review.professionalism review]
  /\ Review.comment review = Js.trim (Js.ToString (CreateReviewReq.comment req))
  /\ (10 <= String.length (Review.comment review))%nat.
Proof.
  intros H. apply createReview_at_success in H.
  destruct H as (_ & _ & r & Hd & Hc). inversion Hd; subst r; clear Hd.
  pose proof (create_succeeded _ _ _ _ _ Hc)
    as (_ & _ & _ & _ & _ & _ & _ & _ & Hrt & Hcm & _).
  assert (Hrange : forall z, Review.inRange z = true -> 1 <= z <= 5).
  { intros z Hz. unfold Review.inRange in Hz. apply andb_prop in Hz. lia. }
  split; [apply Hrange; eapply validateNumber_inRange; exact Hrt|].
  split.
  { eapply Forall_impl; [|exact (create_scores _ _ _ _ _ Hc)].
    intros score (z & Hs & Hz). exists z. auto. }
  exact (validateComment_trimmed _ _ Hcm).
Qed.

Lemma createReview_stores_validated_content_witness :
  let nbsp := String (ascii_of_nat 160) EmptyString in
  let req :=
    {| CreateReviewReq.user := Scenario.client;
       CreateReviewReq.jobId := 1%nat;
       CreateReviewReq.recipient := 2%nat;
       CreateReviewReq.rating := Js.str "4.7";
       CreateReviewReq.comment := Js.str (nbsp ++ " Great work, thanks! " ++ nbsp);
       CreateReviewReq.communication := Js.undefined;
       CreateReviewReq.qualityOfWork := Js.undefined;
       CreateReviewReq.valueForMoney := Js.undefined;
       CreateReviewReq.expertise := Js.undefined;
       CreateReviewReq.professionalism := Js.undefined;
       CreateReviewReq.isPublic := Js.undefined |} in
  exists st1 review,
    createReview_at Scenario.env emptyStore emptyStore req
    = (st1, successResponse 201 "Review submitted successfully" (ReviewData review))
    /\ Review.rating review = 4
    /\ 1 <= Review.rating review <= 5
    /\ Review.comment review = "Great work, thanks!".
Proof.
  intros nbsp req.
  assert (Hrun : { out : Store * Review.t |
                   createReview_at Scenario.env emptyStore emptyStore req
                   = (fst out, successResponse 201 "Review submitted successfully"
                                 (ReviewData (snd out)))
                   /\ Review.rating (snd out) = 4 }).
  { eexists (_, _). cbn [fst snd]. split; [lazy; reflexivity|reflexivity]. }
  destruct Hrun as [[st1 review] [Hrun Hfour]]. cbn [fst snd] in Hrun, Hfour.
  destruct (createReview_stores_validated_content Scenario.env emptyStore emptyStore req
              st1 review Hrun) as (Hrating & _ & Hcomment & _).
  exists st1, review. split; [exact Hrun|]. split; [exact Hfour|].
  split; [exact Hrating|]. rewrite Hcomment. vm_compute; reflexivity.
Defined.

Lemma create_invalid now i c :
  Review.invalidPaths i <> [] ->
  Review.create now i c = (c, inl (ValidationError (Review.invalidPaths i))).
Proof.
  unfold Review.create. intros Hne.
  destruct (Review.validateNumber (Review.in_rating i)) eqn:E0; [|reflexivity].
  destruct (Review.validateComment (Review.in_comment i)) eqn:E1; [|reflexivity].
  destruct (Review.validateNumber (Review.in_communication i)) eqn:E2; [|reflexivity].
  destruct (Review.validateNumber (Review.in_qualityOfWork i)) eqn:E3; [|reflexivity].
  destruct (Review.validateNumber (Review.in_valueForMoney i)) eqn:E4; [|reflexivity].
  destruct (Review.validateNumber (Review.in_expertise i)) eqn:E5; [|reflexivity].
  destruct (Review.validateNumber (Review.in_professionalism i)) eqn:E6; [|reflexivity].
  exfalso. apply Hne. unfold Review.invalidPaths.
  rewrite E0, E1, E2, E3, E4, E5, E6. reflexivity.
Qed.

(** X4. A payload that fails the schema is no 400: when the preconditions
    hold and no review exists for the key, a rating that parseInt reads as
    no number or as an integer outside 1 to 5, or a comment that is
    missing or that, converted to a string and trimmed, has fewer than ten
    characters, is answered with status 500 and the validation error, and
    nothing is stored. *)
Theorem createReview_invalid_payload
    (env : Env) (seen st : Store) (req : CreateReviewReq.t) :
  firstFailure env req = None ->
  Review.findOne (keyOf req) (reviews seen) = None ->
  Js.parseInt (CreateReviewReq.rating req) = Js.NaN
  \/ (exists z, Js.parseInt (CreateReviewReq.rating req) = Js.Int z /\ ~ 1 <= z <= 5)
  \/ CreateReviewReq.comment req = Js.undefined
  \/ CreateReviewReq.comment req = Js.null
  \/ (String.length (Js.trim (Js.ToString (CreateReviewReq.comment req))) < 10)%nat ->
  exists paths,
    paths <> []
    /\ createReview_at env seen st req
       = (st, errorResponse 500 (ErrorMessage (ValidationError paths))).
Proof.
  intros Hff Hseen Hdata.
  assert (Hbad : Review.validateNumber (Js.parseInt (CreateReviewReq.rating req)) = None
                 \/ Review.validateComment (CreateReviewReq.comment req) = None).
  { destruct Hdata as [-> | [(z & -> & Hz) | [-> | [-> | Hshort]]]].
    - left. reflexivity.
    - left. unfold Review.validateNumber, Review.inRange.
      destruct ((1 <=? z) && (z <=? 5)) eqn:E; [|reflexivity].
      apply andb_prop in E. exfalso. apply Hz. lia.
    - right. reflexivity.
    - right. reflexivity.
    - right. unfold Review.validateComment.
      assert (Hno : Review.validComment
                      (Js.trim (Js.ToString (CreateReviewReq.comment req))) = false).
      { unfold Review.validComment. apply andb_false_iff. right.
        apply Nat.leb_gt. exact Hshort. }
      rewrite Hno. destruct (CreateReviewReq.comment req); reflexivity. }
  set (i := newReview req (derivedType req)).
  assert (Hne : Review.invalidPaths i <> []).
  { unfold Review.invalidPaths. subst i. cbn [newReview Review.in_rating Review.in_comment].
    destruct Hbad as [-> | ->]; cbn; [discriminate|].
    destruct (Review.isSome _); cbn; discriminate. }
  exists (Review.invalidPaths i). split; [exact Hne|].
  destruct (createReview_at_checked env seen st req Hff) as (job & _ & ->).
  unfold submitChecked. rewrite Hseen. fold i.
  rewrite (create_invalid _ _ _ Hne). reflexivity.
Qed.

Lemma createReview_invalid_payload_witness :
  exists paths,
    paths <> []
    /\ createReview_at Scenario.env emptyStore emptyStore
         (Scenario.submit Scenario.client 1%nat 2%nat (6 * 10 ^ 21))
       = (emptyStore, errorResponse 500 (ErrorMessage (ValidationError paths))).
Proof.
  refine (createReview_invalid_payload Scenario.env emptyStore emptyStore
            (Scenario.submit Scenario.client 1%nat 2%nat (6 * 10 ^ 21)) _ _ _).
  - vm_compute; reflexivity.
  - reflexivity.
  - right. left. exists 6. split; [vm_compute; reflexivity|lia].
Defined.

(** X5. createReview and the notification log: a 201 answer has appended
    exactly one notification, addressed to the recipient of the review, of
    type "new-review" and naming the stored review; an error answer has
    appended none. *)
Theorem createReview_notifies_recipient_once
    (env : Env) (seen st : Store) (req : CreateReviewReq.t) :
  let out := createReview_at env seen st req in
  match snd out with
  | successResponse _ _ (ReviewData review) =>
      exists n,
        notifications (fst out) = (notifications st ++ [n])%list
        /\ Notification.recipient n = Some (CreateReviewReq.recipient req)
        /\ Notification.type n = "new-review"
        /\ Notification.data_review n = Some (Review._id review)
  | successResponse _ _ _ => False
  | errorResponse _ _ => notifications (fst out) = notifications st
  end.
Proof.
  intros out. subst out.
  destruct (firstFailure env req) as [[kind message]|] eqn:Hff.
  - rewrite (createReview_at_rejected _ _ _ _ _ _ Hff). reflexivity.
  - destruct (createReview_at_checked env seen st req Hff) as (job & _ & ->).
    unfold submitChecked.
    destruct (Review.findOne _ (reviews seen)); [reflexivity|].
    destruct (Review.create _ _ _) as [c [e|r]] eqn:Hc.
    + cbn. destruct (onCreateError e) eqn:He; [|reflexivity].
      exfalso. destruct e as [ps|code kp msg|msg|msg]; cbn in He; try discriminate.
      destruct (code =? 11000); [|discriminate].
      destruct (existsb _ kp); [discriminate|].
      destruct (_ || _); discriminate.
    + unfold notify. destruct (Notification_create env _); cbn; [reflexivity|].
      eexists. split; [reflexivity|]. cbn. auto.
Qed.

(** ** deleteReview, reportReview and getReportedReviews *)

(** X6. deleteReview on a stored review: called by its author or by an
    administrator it answers 200, the review is no longer found, every
    other id resolves as before and no notification is written; called by
    anyone else it answers 403 and leaves the store as it is. *)
Theorem deleteReview_by_author_or_admin
    (env : Env) (st : Store) (req : ByIdReq.t) (review : Review.t) :
  Review.findById (ByIdReq.id req) (reviews st) = Some review ->
  let out := deleteReview env st req in
  (Review.reviewer review = User._id (ByIdReq.user req)
   \/ User.role (ByIdReq.user req) = "admin" ->
   snd out = successResponse 200 "Review deleted successfully" NoData
   /\ Review.findById (ByIdReq.id req) (reviews (fst out)) = None
   /\ (forall id, id <> ByIdReq.id req ->
         Review.findById id (reviews (fst out)) = Review.findById id (reviews st))
   /\ notifications (fst out) = notifications st)
  /\ (Review.reviewer review <> User._id (ByIdReq.user req) ->
      User.role (ByIdReq.user req) <> "admin" ->
      out = (st, errorResponse 403 (Text "You can only delete your own reviews"))).
Proof.
  intros Hf out. subst out. unfold deleteReview. rewrite Hf. split.
  - intros Hauth.
    assert (Hgo : negb (Nat.eqb (Review.reviewer review) (User._id (ByIdReq.user req)))
                  && negb (String.eqb (User.role (ByIdReq.user req)) "admin") = false).
    { destruct Hauth as [-> | ->]; [rewrite Nat.eqb_refl; reflexivity|].
      cbn. apply andb_false_r. }
    rewrite Hgo. cbn [fst snd withReviews reviews notifications].
    split; [reflexivity|]. split; [|split; [|reflexivity]].
    + rewrite findById_deleted, Nat.eqb_refl. reflexivity.
    + intros id Hid. rewrite findById_deleted.
      destruct (Nat.eqb_spec id (ByIdReq.id req)); [contradiction|reflexivity].
  - intros Hna Hnr.
    apply Nat.eqb_neq in Hna. apply String.eqb_neq in Hnr. rewrite Hna, Hnr. reflexivity.
Qed.

Lemma deleteReview_by_author_or_admin_witness :
  let byAdmin := deleteReview Scenario.env Scenario.bothReviews
                   (Scenario.byId Scenario.admin 0%nat) in
  snd byAdmin = successResponse 200 "Review deleted successfully" NoData
  /\ Review.findById 0%nat (reviews (fst byAdmin)) = None
  /\ Review.findById 1%nat (reviews (fst byAdmin)) = Some Scenario.secondReview
  /\ deleteReview Scenario.env Scenario.bothReviews (Scenario.byId Scenario.freelancer 0%nat)
     = (Scenario.bothReviews, errorResponse 403 (Text "You can only delete your own reviews")).
Proof.
  intros byAdmin.
  assert (H : Review.findById 0%nat (reviews Scenario.bothReviews) = Some Scenario.firstReview)
    by (vm_compute; reflexivity).
  destruct (deleteReview_by_author_or_admin Scenario.env Scenario.bothReviews
              (Scenario.byId Scenario.admin 0%nat) Scenario.firstReview H) as [Hyes _].
  destruct (Hyes (or_intror eq_refl)) as (Hresp & Hgone & Hkept & _).
  destruct (deleteReview_by_author_or_admin Scenario.env Scenario.bothReviews
              (Scenario.byId Scenario.freelancer 0%nat) Scenario.firstReview H) as [_ Hno].
  split; [exact Hresp|]. split; [exact Hgone|]. split.
  - subst byAdmin. rewrite (Hkept 1%nat) by discriminate. vm_compute; reflexivity.
  - apply Hno; cbn; discriminate.
Defined.

(** X7. reportReview answers 400 to a request without a reason, whether or
    not the review exists and whoever asks. With a reason, on a stored,
    valid review: called by the recipient it stores the report (flag,
    reason converted to a string and trimmed, reporter, time) whether or
    not the administrators could be notified, so that the review is among
    the reported ones afterwards; called by anyone else, the author
    included, it answers 403 and stores nothing. *)
Theorem reportReview_by_recipient (env : Env) (st : Store) (req : ReportReviewReq.t) :
  let out := reportReview env st req in
  let userId := User._id (ReportReviewReq.user req) in
  let reason := ReportReviewReq.reason req in
  (Js.truthy reason = false ->
   out = (st, errorResponse 400 (Text "Report reason is required")))
  /\ (forall review,
        Review.findById (ReportReviewReq.id req) (reviews st) = Some review ->
        Review.validate review = [] ->
        Js.truthy reason = true ->
        (Review.recipient review <> userId ->
         out = (st, errorResponse 403 (Text "You can only report reviews about yourself")))
        /\ (Review.recipient review = userId ->
            let reported :=
              Review.set_report true (Some (Js.trim (Js.ToString reason))) (Some userId)
                (Some (Date_now env)) review in
            Review.findById (ReportReviewReq.id req) (reviews (fst out)) = Some reported
            /\ In reported (Review.find reportedQuery (reviews (fst out)))
            /\ (isSuccess (snd out) = true
                \/ exists message,
                     snd out = errorResponse 500 (ErrorMessage (CollaboratorError message))))).
Proof.
  intros out userId reason.
  split; [intros Ht; subst out reason; unfold reportReview; rewrite Ht; reflexivity|].
  intros review Hf Hval Ht. split.
  - intros Hrc. subst out reason userId. unfold reportReview.
    rewrite Ht. cbn [negb]. rewrite Hf. apply Nat.eqb_neq in Hrc. rewrite Hrc. reflexivity.
  - intros Hrc reported. subst out. unfold reportReview.
    fold reason userId. rewrite Ht. cbn [negb]. rewrite Hf.
    replace (Nat.eqb (Review.recipient review) userId) with true
      by (symmetry; apply Nat.eqb_eq; exact Hrc).
    cbn [negb]. fold reported.
    rewrite (save_valid reported (reviews st)) by exact Hval.
    set (c := {| Review.docs := _; Review.next_id := _ |}).
    assert (Hfound : Review.findById (ReportReviewReq.id req) c = Some reported).
    { apply (findById_save _ _ review); [exact Hf|]. apply (findById_In _ _ _ Hf). }
    assert (Hin : In reported (Review.find reportedQuery c)).
    { unfold Review.find. apply filter_In. split; [apply (findById_In _ _ _ Hfound)|].
      reflexivity. }
    destruct (notifyAll env _ _) as [st' [e|]] eqn:Hn;
      pose proof (notifyAll_reviews _ _ _ _ _ Hn) as Hr; cbn in Hr;
      cbn [fst snd]; rewrite Hr; (split; [exact Hfound|]); (split; [exact Hin|]).
    + right.
      assert (He : exists message, e = CollaboratorError message).
      { clear - Hn. revert Hn. generalize (withReviews c st).
        induction (map _ (User_find_admins env)) as [|n ns IH]; cbn; intros s Hn;
          [discriminate|].
        unfold notify in Hn at 1. destruct (Notification_create env n).
        - inversion Hn; eauto.
        - eapply IH; exact Hn. }
      destruct He as [message ->]. eauto.
    + left. reflexivity.
Qed.

Lemma reportReview_by_recipient_witness :
  let nbsp := String (ascii_of_nat 160) EmptyString in
  let report user :=
    reportReview Scenario.env Scenario.oneReview
      {| ReportReviewReq.user := user; ReportReviewReq.id := 0%nat;
         ReportReviewReq.reason := Js.str (nbsp ++ " spam " ++ nbsp) |} in
  option_map Review.reportReason (Review.findById 0%nat (reviews (fst (report Scenario.freelancer))))
  = Some (Some "spam")
  /\ report Scenario.client
     = (Scenario.oneReview,
        errorResponse 403 (Text "You can only report reviews about yourself"))
  /\ reportReview Scenario.env Scenario.oneReview
       {| ReportReviewReq.user := Scenario.freelancer; ReportReviewReq.id := 7%nat;
          ReportReviewReq.reason := Js.str "" |}
     = (Scenario.oneReview, errorResponse 400 (Text "Report reason is required")).
Proof.
  intros nbsp report.
  assert (H : Review.findById 0%nat (reviews Scenario.oneReview) = Some Scenario.firstReview)
    by (vm_compute; reflexivity).
  assert (Hv : Review.validate Scenario.firstReview = []) by (vm_compute; reflexivity).
  split; [|split].
  - destruct (proj2 (reportReview_by_recipient Scenario.env Scenario.oneReview
                       {| ReportReviewReq.user := Scenario.freelancer;
                          ReportReviewReq.id := 0%nat;
                          ReportReviewReq.reason := Js.str (nbsp ++ " spam " ++ nbsp) |})
                Scenario.firstReview H Hv eq_refl) as [_ Hyes].
    destruct (Hyes eq_refl) as (Hfound & _).
    subst report. cbn beta.
    etransitivity; [exact (f_equal (option_map Review.reportReason) Hfound)|].
    vm_compute; reflexivity.
  - apply (proj1 (proj2 (reportReview_by_recipient Scenario.env Scenario.oneReview
                           {| ReportReviewReq.user := Scenario.client;
                              ReportReviewReq.id := 0%nat;
                              ReportReviewReq.reason := Js.str (nbsp ++ " spam " ++ nbsp) |})
                    Scenario.firstReview H Hv eq_refl)).
    cbn; discriminate.
  - apply (proj1 (reportReview_by_recipient Scenario.env Scenario.oneReview
                    {| ReportReviewReq.user := Scenario.freelancer;
                       ReportReviewReq.id := 7%nat;
                       ReportReviewReq.reason := Js.str "" |})).
    reflexivity.
Defined.

Lemma matches_reportedQuery r : Review.matches reportedQuery r = Review.isReported r.
Proof.
  unfold Review.matches, reportedQuery; cbn. destruct (Review.isReported r); reflexivity.
Qed.

Lemma page_length skip limit l p :
  Review.page skip limit l = inr p ->
  (List.length p <= Z.abs_nat limit)%nat /\ (List.length p <= List.length l)%nat /\ 0 <= skip.
Proof.
  unfold Review.page. destruct (Z.ltb_spec skip 0) as [|Hskip]; [discriminate|].
  intros Hp. inversion Hp; subst; clear Hp.
  rewrite length_firstn, length_skipn. lia.
Qed.

(** X8. getReportedReviews answers 403 to every caller whose role is not
    admin. Its successful answer lists only stored reviews whose
    [isReported] flag is set, at most |limit| of them, and the total it
    reports is the number of all stored reviews with that flag; the store
    is not changed. *)
Theorem getReportedReviews_lists_reported (env : Env) (st : Store) (req : PageReq.t) :
  (User.role (PageReq.user req) <> "admin" ->
   getReportedReviews env st req
   = (st, errorResponse 403 (Text "Not authorized to access reported reviews")))
  /\ (forall m l page limit total pages,
        snd (getReportedReviews env st req)
        = successResponse 200 m (ReportedReviewsData l page limit total pages) ->
        User.role (PageReq.user req) = "admin"
        /\ (forall r, In r l -> In r (Review.docs (reviews st)) /\ Review.isReported r = true)
        /\ total = List.length (filter Review.isReported (Review.docs (reviews st)))
        /\ (List.length l <= Z.abs_nat limit)%nat
        /\ (List.length l <= total)%nat
        /\ fst (getReportedReviews env st req) = st).
Proof.
  unfold getReportedReviews. split.
  - intros Hrole. apply String.eqb_neq in Hrole. rewrite Hrole. reflexivity.
  - intros m l page limit total pages.
    destruct (String.eqb_spec (User.role (PageReq.user req)) "admin") as [Hrole|_];
      cbn [negb]; [|discriminate].
    destruct (Review.page _ _ _) as [e|p] eqn:Hp; [discriminate|].
    cbn. intros H. inversion H; subst; clear H.
    assert (Hfind : Review.find reportedQuery (reviews st)
                    = filter Review.isReported (Review.docs (reviews st))).
    { unfold Review.find. apply filter_ext. exact matches_reportedQuery. }
    unfold Review.countDocuments. rewrite Hfind in *.
    pose proof (page_length _ _ _ _ Hp) as (Hlim & Hlen & _).
    rewrite sortDesc_length in Hlen.
    split; [exact Hrole|]. split; [|auto].
    intros r Hin. eapply page_In in Hin; [|exact Hp].
    apply sortDesc_In, filter_In in Hin. exact Hin.
Qed.

Lemma getReportedReviews_lists_reported_witness :
  getReportedReviews Scenario.env Scenario.reportedReview
    {| PageReq.user := Scenario.client; PageReq.page := Js.undefined;
       PageReq.limit := Js.undefined |}
  = (Scenario.reportedReview,
     errorResponse 403 (Text "Not authorized to access reported reviews"))
  /\ 1%nat = List.length (filter Review.isReported (Review.docs (reviews Scenario.reportedReview))).
Proof.
  split.
  - apply (proj1 (getReportedReviews_lists_reported Scenario.env Scenario.reportedReview
                    {| PageReq.user := Scenario.client; PageReq.page := Js.undefined;
                       PageReq.limit := Js.undefined |})).
    cbn. discriminate.
  - assert (H : exists r,
               snd (getReportedReviews Scenario.env Scenario.reportedReview
                      {| PageReq.user := Scenario.admin; PageReq.page := Js.str "1";
                         PageReq.limit := Js.str "5" |})
               = successResponse 200 "Reported reviews retrieved successfully"
                   (ReportedReviewsData [r] 1 5 1 1))
      by (eexists; vm_compute; reflexivity).
    destruct H as [r H].
    apply (proj2 (getReportedReviews_lists_reported Scenario.env Scenario.reportedReview
                    {| PageReq.user := Scenario.admin; PageReq.page := Js.str "1";
                       PageReq.limit := Js.str "5" |}) _ _ _ _ _ _ H).
Defined.

(** ** updateReview *)

(** X9. updateReview cannot change a category score: when the author
    calls it within thirty days with any of [communication], [quality],
    [expertise], [deadlineAdherence] or [overallExperience] set, the
    assignment to [review.categories] throws, the answer is a 500 with the
    TypeError, and the store is left as it is, whatever else the payload
    holds. *)
Theorem updateReview_category_fields_fail
    (env : Env) (st : Store) (req : UpdateReviewReq.t) (review : Review.t) :
  Review.findById (UpdateReviewReq.id req) (reviews st) = Some review ->
  Review.reviewer review = User._id (UpdateReviewReq.user req) ->
  Date_now env - thirtyDays <= Review.createdAt review ->
  Js.truthy (UpdateReviewReq.communication req)
  || Js.truthy (UpdateReviewReq.quality req)
  || Js.truthy (UpdateReviewReq.expertise req)
  || Js.truthy (UpdateReviewReq.deadlineAdherence req)
  || Js.truthy (UpdateReviewReq.overallExperience req) = true ->
  exists message,
    updateReview env st req = (st, errorResponse 500 (ErrorMessage (TypeError message))).
Proof.
  intros Hf Hauthor Hage Hcat. unfold updateReview.
  rewrite Hf, Hauthor, Nat.eqb_refl. cbn [negb].
  destruct (Z.ltb_spec (Review.createdAt review) (Date_now env - thirtyDays)); [lia|].
  destruct (assignRating _ review) as [review1 e1].
  unfold categoriesAssignment.
  destruct (Js.truthy (UpdateReviewReq.communication req)); [eauto|].
  destruct (Js.truthy (UpdateReviewReq.quality req)); [eauto|].
  destruct (Js.truthy (UpdateReviewReq.expertise req)); [eauto|].
  destruct (Js.truthy (UpdateReviewReq.deadlineAdherence req)); [eauto|].
  destruct (Js.truthy (UpdateReviewReq.overallExperience req)); [eauto|].
  discriminate.
Qed.

Lemma updateReview_category_fields_fail_witness :
  exists message,
    updateReview Scenario.env Scenario.oneReview
      {| UpdateReviewReq.user := Scenario.client;
         UpdateReviewReq.id := 0%nat;
         UpdateReviewReq.rating := Js.num (Js.Int 4);
         UpdateReviewReq.content := Js.undefined;
         UpdateReviewReq.communication := Js.num (Js.Int 3);
         UpdateReviewReq.quality := Js.undefined;
         UpdateReviewReq.expertise := Js.undefined;
         UpdateReviewReq.deadlineAdherence := Js.undefined;
         UpdateReviewReq.overallExperience := Js.undefined;
         UpdateReviewReq.isPublic := Js.undefined |}
    = (Scenario.oneReview, errorResponse 500 (ErrorMessage (TypeError message))).
Proof.
  eapply (updateReview_category_fields_fail Scenario.env Scenario.oneReview _
            Scenario.firstReview).
  - vm_compute; reflexivity.
  - reflexivity.
  - vm_compute; discriminate.
  - reflexivity.
Defined.

(** X10. updateReview is for the author only and for thirty days: for a
    stored review, a caller other than its author, an administrator
    included, is answered 403, and the author is answered 400 once the
    review is older than thirty days; in both cases nothing is stored and
    nobody is notified. *)
Theorem updateReview_author_and_window
    (env : Env) (st : Store) (req : UpdateReviewReq.t) (review : Review.t) :
  Review.findById (UpdateReviewReq.id req) (reviews st) = Some review ->
  (Review.reviewer review <> User._id (UpdateReviewReq.user req) ->
   updateReview env st req
   = (st, errorResponse 403 (Text "You can only update your own reviews")))
  /\ (Review.reviewer review = User._id (UpdateReviewReq.user req) ->
      Review.createdAt review < Date_now env - thirtyDays ->
      updateReview env st req
      = (st, errorResponse 400 (Text "Reviews can only be updated within 30 days of creation"))).
Proof.
  intros Hf. unfold updateReview. rewrite Hf. split.
  - intros Hna. apply Nat.eqb_neq in Hna. rewrite Hna. reflexivity.
  - intros -> Hold. rewrite Nat.eqb_refl. cbn [negb].
    destruct (Z.ltb_spec (Review.createdAt review) (Date_now env - thirtyDays)); [|lia].
    reflexivity.
Qed.

Lemma updateReview_author_and_window_witness :
  let late : Env :=
    {| Job_findById := Scenario.jobs; User_findById := Scenario.users;
       User_find_admins := [Scenario.admin]; Notification_create := fun _ => None;
       Date_now := 1000 + thirtyDays + 1 |} in
  let byAdmin : UpdateReviewReq.t :=
    {| UpdateReviewReq.user := Scenario.admin;
       UpdateReviewReq.id := 0%nat;
       UpdateReviewReq.rating := Js.num (Js.Int 1);
       UpdateReviewReq.content := Js.undefined;
       UpdateReviewReq.communication := Js.undefined;
       UpdateReviewReq.quality := Js.undefined;
       UpdateReviewReq.expertise := Js.undefined;
       UpdateReviewReq.deadlineAdherence := Js.undefined;
       UpdateReviewReq.overallExperience := Js.undefined;
       UpdateReviewReq.isPublic := Js.undefined |} in
  updateReview Scenario.env Scenario.oneReview byAdmin
  = (Scenario.oneReview, errorResponse 403 (Text "You can only update your own reviews"))
  /\ updateReview late Scenario.oneReview Scenario.lowerRating
     = (Scenario.oneReview,
        errorResponse 400 (Text "Reviews can only be updated within 30 days of creation")).
Proof.
  intros late byAdmin.
  assert (H : Review.findById 0%nat (reviews Scenario.oneReview) = Some Scenario.firstReview)
    by (vm_compute; reflexivity).
  split.
  - refine (proj1 (updateReview_author_and_window Scenario.env Scenario.oneReview byAdmin
                     Scenario.firstReview H) _).
    cbn. discriminate.
  - refine (proj2 (updateReview_author_and_window late Scenario.oneReview
                     Scenario.lowerRating Scenario.firstReview H) _ _).
    + reflexivity.
    + vm_compute. reflexivity.
Defined.

Lemma validate_set_rating z r :
  Review.validate r = [] ->
  Review.validate (Review.set_rating z r) = Review.invalidIf (Review.inRange z) "rating".
Proof.
  unfold Review.validate. cbn. intros H.
  apply app_eq_nil in H. destruct H as [_ H]. rewrite H. apply app_nil_r.
Qed.

(** X11. updateReview with a new rating only, called by the author within
    thirty days on a valid stored review, for a truthy rating that
    parseInt reads as the integer z (the Number 1e21 reads as 1, the
    string 4.7 as 4): when z is from 1 to 5 it replaces the stored rating
    and nothing else in the review, even when the notification of the
    recipient fails afterwards (then the answer is a 500); when z is any
    other integer the request is refused with a 500 validation error and
    the stored review keeps its rating. *)
Theorem updateReview_replaces_rating
    (env : Env) (st : Store) (req : UpdateReviewReq.t) (review : Review.t) (z : Z) :
  Review.findById (UpdateReviewReq.id req) (reviews st) = Some review ->
  Review.validate review = [] ->
  Review.reviewer review = User._id (UpdateReviewReq.user req) ->
  Date_now env - thirtyDays <= Review.createdAt review ->
  categoriesAssignment req = None ->
  UpdateReviewReq.isPublic req = Js.undefined ->
  Js.truthy (UpdateReviewReq.rating req) = true ->
  Js.parseInt (UpdateReviewReq.rating req) = Js.Int z ->
  let out := updateReview env st req in
  (1 <= z <= 5 ->
   Review.findById (UpdateReviewReq.id req) (reviews (fst out))
   = Some (Review.set_rating z review)
   /\ (snd out = successResponse 200 "Review updated successfully"
                   (ReviewData (Review.set_rating z review))
       \/ exists message,
            snd out = errorResponse 500 (ErrorMessage (CollaboratorError message))))
  /\ (~ 1 <= z <= 5 ->
      out = (st, errorResponse 500 (ErrorMessage (ValidationError ["rating"])))).
Proof.
  intros Hf Hval Hauthor Hage Hcat Hpub Htruthy Hparse out. subst out.
  unfold updateReview. rewrite Hf, Hauthor, Nat.eqb_refl. cbn [negb].
  destruct (Z.ltb_spec (Review.createdAt review) (Date_now env - thirtyDays)); [lia|].
  unfold assignRating. rewrite Htruthy, Hparse, Hcat, Hpub. cbn [assignIsPublic app].
  unfold Review.save. rewrite (validate_set_rating z review Hval).
  split.
  - intros Hz.
    assert (Hr : Review.inRange z = true)
      by (unfold Review.inRange; apply andb_true_intro; lia).
    rewrite Hr. cbn [Review.invalidIf].
    set (c := {| Review.docs := _; Review.next_id := _ |}).
    assert (Hfound : Review.findById (UpdateReviewReq.id req) c
                     = Some (Review.set_rating z review)).
    { apply (findById_save _ _ review); [exact Hf|]. apply (findById_In _ _ _ Hf). }
    unfold notify. destruct (Notification_create env _); cbn; (split; [exact Hfound|]); eauto.
  - intros Hz.
    assert (Hr : Review.inRange z = false).
    { unfold Review.inRange. apply andb_false_iff. lia. }
    rewrite Hr. reflexivity.
Qed.

Lemma updateReview_replaces_rating_witness :
  let withRating (rating : Js.value) : UpdateReviewReq.t :=
    {| UpdateReviewReq.user := Scenario.client;
       UpdateReviewReq.id := 0%nat;
       UpdateReviewReq.rating := rating;
       UpdateReviewReq.content := Js.undefined;
       UpdateReviewReq.communication := Js.undefined;
       UpdateReviewReq.quality := Js.undefined;
       UpdateReviewReq.expertise := Js.undefined;
       UpdateReviewReq.deadlineAdherence := Js.undefined;
       UpdateReviewReq.overallExperience := Js.undefined;
       UpdateReviewReq.isPublic := Js.undefined |} in
  Review.findById 0%nat
    (reviews (fst (updateReview Scenario.envNotificationsDown Scenario.oneReview
                     Scenario.lowerRating)))
  = Some (Review.set_rating 1 Scenario.firstReview)
  /\ Review.findById 0%nat
       (reviews (fst (updateReview Scenario.env Scenario.oneReview
                        (withRating (Js.num (Js.Int (10 ^ 21)))))))
     = Some (Review.set_rating 1 Scenario.firstReview)
  /\ updateReview Scenario.env Scenario.oneReview (withRating (Js.str "9"))
     = (Scenario.oneReview, errorResponse 500 (ErrorMessage (ValidationError ["rating"]))).
Proof.
  intros withRating.
  assert (H : Review.findById 0%nat (reviews Scenario.oneReview) = Some Scenario.firstReview)
    by (vm_compute; reflexivity).
  assert (Hv : Review.validate Scenario.firstReview = []) by (vm_compute; reflexivity).
  split; [|split].
  - refine (proj1 (proj1 (updateReview_replaces_rating Scenario.envNotificationsDown
                            Scenario.oneReview Scenario.lowerRating Scenario.firstReview 1
                            H Hv eq_refl _ eq_refl eq_refl eq_refl eq_refl) _)).
    + vm_compute; discriminate.
    + lia.
  - refine (proj1 (proj1 (updateReview_replaces_rating Scenario.env Scenario.oneReview
                            (withRating (Js.num (Js.Int (10 ^ 21)))) Scenario.firstReview 1
                            H Hv eq_refl _ eq_refl eq_refl eq_refl _) _)).
    + vm_compute; discriminate.
    + vm_compute; reflexivity.
    + lia.
  - refine (proj2 (updateReview_replaces_rating Scenario.env Scenario.oneReview
                     (withRating (Js.str "9"))
                     Scenario.firstReview 9 H Hv eq_refl _ eq_refl eq_refl eq_refl eq_refl) _).
    + vm_compute; discriminate.
    + lia.
Defined.

(** ** getUserReviews: order, page size and statistics *)




Lemma StronglySorted_firstn {A : Type} (R : A -> A -> Prop) (n : nat) (l : list A) :
  StronglySorted R l -> StronglySorted R (firstn n l).
Proof.
  revert l. induction n as [|n IH]; intros l Hs; [constructor|].
  destruct Hs as [|x l Hs Hx]; cbn; [constructor|].
  constructor; [auto|].
  rewrite Forall_forall in *. intros y Hy. apply Hx.
  rewrite <- (firstn_skipn n l). apply in_or_app. left. exact Hy.
Qed.




Lemma find_byRecipient userId c :
  Review.find (Review.byRecipient userId) c = filter (receivedBy userId) (Review.docs c).
Proof.
  unfold Review.find. apply filter_ext. intros r.
  unfold Review.matches, Review.byRecipient, receivedBy; cbn.
  rewrite !andb_true_r. reflexivity.
Qed.

Lemma getReviewStats_totalReviews userId c :
  Review.Stats.totalReviews (Review.getReviewStats userId c)
  = List.length (filter (receivedBy userId) (Review.docs c)).
Proof.
  unfold Review.getReviewStats. rewrite find_byRecipient.
  destruct (filter _ _); reflexivity.
Qed.

Lemma filter_and_length {A : Type} (p q : A -> bool) (l : list A) :
  (List.length (filter (fun x => p x && q x) l) <= List.length (filter p l))%nat.
Proof.
  induction l as [|x l IH]; cbn; [lia|].
  destruct (p x), (q x); cbn; lia.
Qed.

(** X13. The statistics in the answer of getUserReviews are not filtered
    by visibility: for every caller they are the statistics over all
    reviews that the user has received, so their count is the number of
    those reviews, public or not, and is never smaller than the total of
    the listing. *)
Theorem getUserReviews_stats_count_all_reviews
    (env : Env) (st : Store) (req : GetUserReviewsReq.t)
    (m : string) (l : list Review.t) (stats : Review.Stats.t) (page limit : Z)
    (total : nat) (pages : Z) :
  snd (getUserReviews env st req)
    = successResponse 200 m (UserReviewsData l stats page limit total pages) ->
  stats = Review.getReviewStats (GetUserReviewsReq.userId req) (reviews st)
  /\ Review.Stats.totalReviews stats
     = List.length (received (GetUserReviewsReq.userId req) st)
  /\ (total <= Review.Stats.totalReviews stats)%nat.
Proof.
  unfold getUserReviews.
  destruct (User_findById env _); [|discriminate].
  destruct (Review.page _ _ _) as [e|p] eqn:Hp; [discriminate|].
  cbn. intros H. inversion H; subst; clear H.
  split; [reflexivity|].
  rewrite getReviewStats_totalReviews. split; [reflexivity|].
  unfold Review.countDocuments. rewrite find_userReviewsQuery.
  apply filter_and_length.
Qed.

Lemma getUserReviews_stats_count_all_reviews_witness :
  Review.Stats.totalReviews (Review.getReviewStats 1%nat (reviews Scenario.bothReviews))
  = List.length (received 1%nat Scenario.bothReviews)
  /\ (0 <= Review.Stats.totalReviews
             (Review.getReviewStats 1%nat (reviews Scenario.bothReviews)))%nat
  /\ List.length (received 1%nat Scenario.bothReviews) = 1%nat.
Proof.
  assert (H : snd (getUserReviews Scenario.env Scenario.bothReviews (Scenario.listFor None 1%nat))
              = successResponse 200 "Reviews retrieved successfully"
                  (UserReviewsData [] (Review.getReviewStats 1%nat (reviews Scenario.bothReviews))
                     1 10 0 0)) by (vm_compute; reflexivity).
  destruct (getUserReviews_stats_count_all_reviews _ _ _ _ _ _ _ _ _ _ H) as (_ & Hcount & Hle).
  split; [exact Hcount|]. split; [exact Hle|]. vm_compute; reflexivity.
Defined.

(** ** The statistics of a recipient *)

Lemma validate_inRange r : Review.validate r = [] -> 1 <= Review.rating r <= 5.
Proof.
  unfold Review.validate. intros H. apply app_eq_nil in H. destruct H as [H _].
  unfold Review.invalidIf, Review.inRange in H.
  destruct ((1 <=? Review.rating r) && (Review.rating r <=? 5)) eqn:E; [|discriminate].
  apply andb_prop in E. lia.
Qed.

Lemma starCounts_sum (g : list Review.t) :
  Forall (fun r => 1 <= Review.rating r <= 5) g ->
  (Review.starCount 5 g + Review.starCount 4 g + Review.starCount 3 g
   + Review.starCount 2 g + Review.starCount 1 g)%nat = List.length g.
Proof.
  unfold Review.starCount. induction 1 as [|r g Hr _ IH]; cbn; [reflexivity|].
  assert (Hcase : Review.rating r = 1 \/ Review.rating r = 2 \/ Review.rating r = 3
                  \/ Review.rating r = 4 \/ Review.rating r = 5) by lia.
  destruct Hcase as [-> | [-> | [-> | [-> | ->]]]]; cbn; lia.
Qed.

Lemma sumZ_bounds (l : list Z) :
  Forall (fun z => 1 <= z <= 5) l ->
  Z.of_nat (List.length l) <= Review.sumZ l <= 5 * Z.of_nat (List.length l).
Proof.
  induction 1 as [|z l Hz _ IH]; cbn [Review.sumZ fold_right List.length]; [lia|].
  fold (Review.sumZ l). lia.
Qed.

Lemma mean_bounds (l : list Z) :
  l <> [] -> Forall (fun z => 1 <= z <= 5) l -> (1 <= mean l <= 5)%Q.
Proof.
  intros Hne Hall. pose proof (sumZ_bounds l Hall) as [Hlo Hhi].
  destruct l as [|z l]; [contradiction|]. unfold mean.
  set (n := Z.of_nat (List.length (z :: l))) in *.
  assert (Hn : 0 < n) by (subst n; cbn [List.length]; lia).
  assert (Hq : (0 < inject_Z n)%Q) by (unfold Qlt; cbn; lia).
  split.
  - apply Qle_shift_div_l; [exact Hq|]. rewrite Qmult_1_l.
    rewrite <- Zle_Qle. exact Hlo.
  - apply Qle_shift_div_r; [exact Hq|].
    change 5%Q with (inject_Z 5). rewrite <- inject_Z_mult, <- Zle_Qle. exact Hhi.
Qed.

Lemma round1_bounds (x : Q) : (1 <= x <= 5)%Q -> (1 <= Review.round1 x <= 5)%Q.
Proof.
  intros [Hlo Hhi]. unfold Review.round1, Js.Math_round.
  assert (H10 : 10 <= Qfloor (x * 10 + (1 # 2))).
  { change 10 with (Qfloor (inject_Z 10)) at 1. apply Qfloor_resp_le.
    apply Qle_trans with (x * 10)%Q.
    - apply Qle_trans with (1 * 10)%Q; [apply Qle_refl|].
      apply Qmult_le_compat_r; [exact Hlo|discriminate].
    - rewrite <- (Qplus_0_r (x * 10)) at 1. apply Qplus_le_r. discriminate. }
  assert (H50 : Qfloor (x * 10 + (1 # 2)) <= 50).
  { change 50 with (Qfloor (101 # 2)). apply Qfloor_resp_le.
    apply Qle_trans with (5 * 10 + (1 # 2))%Q; [|apply Qle_refl].
    apply Qplus_le_l. apply Qmult_le_compat_r; [exact Hhi|discriminate]. }
  generalize dependent (Qfloor (x * 10 + (1 # 2))). intros n H10 H50.
  unfold Qle, Qdiv, Qmult, Qinv, inject_Z; cbn. lia.
Qed.

Lemma wellFormed_received_ratings st userId :
  wellFormed st ->
  Forall (fun r => 1 <= Review.rating r <= 5) (received userId st).
Proof.
  unfold wellFormed, received. intros Hwf. rewrite Forall_forall in *.
  intros r Hr. apply filter_In in Hr. destruct Hr as [Hin _].
  apply validate_inRange. apply (Hwf r Hin).
Qed.

(** X14. In every store that the operations produce, the rating
    distribution of getReviewStats accounts for every review of the
    recipient: its five buckets add up to [totalReviews], which is the
    number of reviews the recipient has received. *)
Theorem getReviewStats_distribution_adds_up (st : Store) (userId : UserId) :
  reachable st ->
  let s := Review.getReviewStats userId (reviews st) in
  let d := Review.Stats.ratingDistribution s in
  (Review.RatingDistribution.fiveStar d + Review.RatingDistribution.fourStar d
   + Review.RatingDistribution.threeStar d + Review.RatingDistribution.twoStar d
   + Review.RatingDistribution.oneStar d)%nat = Review.Stats.totalReviews s
  /\ Review.Stats.totalReviews s = List.length (received userId st).
Proof.
  intros Hreach s d. subst d s.
  pose proof (wellFormed_received_ratings st userId (reachable_wellFormed st Hreach)) as Hall.
  unfold received in *. unfold Review.getReviewStats. rewrite find_byRecipient.
  destruct (filter (receivedBy userId) (Review.docs (reviews st))) as [|r g] eqn:Hg;
    [split; reflexivity|].
  cbn [Review.Stats.ratingDistribution Review.Stats.totalReviews
       Review.RatingDistribution.fiveStar Review.RatingDistribution.fourStar
       Review.RatingDistribution.threeStar Review.RatingDistribution.twoStar
       Review.RatingDistribution.oneStar].
  split; [apply starCounts_sum, Hall|reflexivity].
Qed.

Lemma reachable_fiveReviews : reachable Scenario.fiveReviews.
Proof.
  unfold Scenario.fiveReviews. cbn [fold_left fst snd].
  repeat match goal with
         | |- reachable (fst (createReview ?e ?s ?r)) =>
             apply (reachable_step e s (CreateReview r))
         end.
  exact reachable_empty.
Qed.

Lemma getReviewStats_distribution_adds_up_witness :
  let d := Review.Stats.ratingDistribution
             (Review.getReviewStats 2%nat (reviews Scenario.fiveReviews)) in
  (Review.RatingDistribution.fiveStar d + Review.RatingDistribution.fourStar d
   + Review.RatingDistribution.threeStar d + Review.RatingDistribution.twoStar d
   + Review.RatingDistribution.oneStar d)%nat
  = Review.Stats.totalReviews (Review.getReviewStats 2%nat (reviews Scenario.fiveReviews)).
Proof.
  exact (proj1 (getReviewStats_distribution_adds_up Scenario.fiveReviews 2%nat
                  reachable_fiveReviews)).
Defined.

(** X15. getAverageRating gives the same average and count as
    getReviewStats. In every store that the operations produce, it is
    (0, 0) for a user without reviews, and otherwise a count of at least
    one with an average between 1 and 5. *)
Theorem getAverageRating_agrees_and_is_bounded (st : Store) (userId : UserId) :
  reachable st ->
  let a := Review.getAverageRating userId (reviews st) in
  let s := Review.getReviewStats userId (reviews st) in
  a = (Review.Stats.averageRating s, Review.Stats.totalReviews s)
  /\ snd a = List.length (received userId st)
  /\ (received userId st = [] -> a = (0%Q, 0%nat))
  /\ (received userId st <> [] -> (1 <= fst a <= 5)%Q /\ (1 <= snd a)%nat).
Proof.
  intros Hreach a s. subst a s.
  pose proof (wellFormed_received_ratings st userId (reachable_wellFormed st Hreach)) as Hall.
  unfold received in *. unfold Review.getAverageRating, Review.getReviewStats.
  rewrite find_byRecipient.
  destruct (filter (receivedBy userId) (Review.docs (reviews st))) as [|r g] eqn:Hg.
  - split; [reflexivity|]. split; [reflexivity|]. split; [reflexivity|].
    intros Hne. contradiction.
  - cbn [fst snd Review.Stats.averageRating Review.Stats.totalReviews].
    split; [reflexivity|]. split; [reflexivity|]. split; [discriminate|].
    intros _. split; [|cbn; lia].
    rewrite orZero_avg. apply round1_bounds. apply mean_bounds; [discriminate|].
    rewrite Forall_forall in *. intros z Hz. apply in_map_iff in Hz.
    destruct Hz as (x & <- & Hx). apply Hall, Hx.
Qed.

Lemma getAverageRating_agrees_and_is_bounded_witness :
  let a := Review.getAverageRating 2%nat (reviews Scenario.fiveReviews) in
  (1 <= fst a <= 5)%Q /\ (1 <= snd a)%nat
  /\ Review.getAverageRating 1%nat (reviews Scenario.fiveReviews) = (0%Q, 0%nat).
Proof.
  intros a.
  destruct (getAverageRating_agrees_and_is_bounded Scenario.fiveReviews 2%nat
              reachable_fiveReviews) as (_ & _ & _ & Hsome).
  destruct (getAverageRating_agrees_and_is_bounded Scenario.fiveReviews 1%nat
              reachable_fiveReviews) as (_ & _ & Hnone & _).
  destruct Hsome as [Havg Hcount]; [vm_compute; discriminate|].
  split; [exact Havg|]. split; [exact Hcount|].
  apply Hnone. vm_compute; reflexivity.
Defined.

(** ** getJobReviews *)

Lemma matches_job_reviewer j rv r :
  Review.matches
    {| Review.q_job := Some j; Review.q_reviewer := Some rv;
       Review.q_recipient := None; Review.q_isPublic := None;
       Review.q_isReported := None |} r = true
  <-> Review.job r = j /\ Review.reviewer r = rv.
Proof.
  unfold Review.matches, Review.holdsNat, Review.holdsBool. cbn.
  rewrite !andb_true_r, andb_true_iff, !Nat.eqb_eq. reflexivity.
Qed.

Lemma findOne_job_reviewer j rv c :
  match Review.findOne
          {| Review.q_job := Some j; Review.q_reviewer := Some rv;
             Review.q_recipient := None; Review.q_isPublic := None;
             Review.q_isReported := None |} c with
  | Some r => In r (Review.docs c) /\ Review.job r = j /\ Review.reviewer r = rv
  | None => forall r, In r (Review.docs c) -> Review.job r = j -> Review.reviewer r <> rv
  end.
Proof.
  unfold Review.findOne.
  destruct (List.find _ (Review.docs c)) as [r|] eqn:Hf.
  - apply find_some in Hf. destruct Hf as [Hin Hm].
    apply matches_job_reviewer in Hm. tauto.
  - intros r Hin Hj Hrv. pose proof (find_none _ _ Hf r Hin) as Hm.
    assert (Ht : Review.matches
                   {| Review.q_job := Some j; Review.q_reviewer := Some rv;
                      Review.q_recipient := None; Review.q_isPublic := None;
                      Review.q_isReported := None |} r = true)
      by (apply matches_job_reviewer; tauto).
    rewrite Ht in Hm. discriminate.
Qed.

(** X16. getJobReviews answers 404 for an unknown job. For a known job it
    never writes, answers 200, and each of the two reviews it returns is
    exactly what the store holds for that job and that party: a returned
    review is stored, is of this job and is written by the job's client
    (respectively hired freelancer); none is returned only when the store
    holds no review of this job by that party. *)
Theorem getJobReviews_returns_the_parties_reviews
  (env : Env) (st : Store) (jobId : JobId) :
  fst (getJobReviews env st jobId) = st
  /\ (Job_findById env jobId = None ->
      snd (getJobReviews env st jobId) = errorResponse 404 (Text "Job not found"))
  /\ (forall job, Job_findById env jobId = Some job ->
      exists clientReview freelancerReview,
        snd (getJobReviews env st jobId)
        = successResponse 200 "Job reviews retrieved successfully"
            (JobReviewsData clientReview freelancerReview)
        /\ (forall party found,
              (party = Job.client job /\ found = clientReview)
              \/ (party = Job.hiredFreelancer job /\ found = freelancerReview) ->
              forall u, populate env party = Some u ->
              match found with
              | Some r => In r (Review.docs (reviews st))
                          /\ Review.job r = jobId /\ Review.reviewer r = User._id u
              | None => forall r, In r (Review.docs (reviews st)) ->
                          Review.job r = jobId -> Review.reviewer r <> User._id u
              end)).
Proof.
  unfold getJobReviews. split; [destruct (Job_findById env jobId); reflexivity|].
  split; [intros ->; reflexivity|].
  intros job ->. cbn [snd]. eexists. eexists. split; [reflexivity|].
  intros party found [[-> ->] | [-> ->]] u ->; apply findOne_job_reviewer.
Qed.

Lemma getJobReviews_returns_the_parties_reviews_witness :
  snd (getJobReviews Scenario.env Scenario.oneReview 7%nat)
  = errorResponse 404 (Text "Job not found")
  /\ exists clientReview freelancerReview,
       snd (getJobReviews Scenario.env Scenario.oneReview 1%nat)
       = successResponse 200 "Job reviews retrieved successfully"
           (JobReviewsData clientReview freelancerReview)
       /\ match clientReview with
          | Some r => In r (Review.docs (reviews Scenario.oneReview))
                      /\ Review.job r = 1%nat /\ Review.reviewer r = 1%nat
          | None => forall r, In r (Review.docs (reviews Scenario.oneReview)) ->
                      Review.job r = 1%nat -> Review.reviewer r <> 1%nat
          end.
Proof.
  split.
  - apply (getJobReviews_returns_the_parties_reviews Scenario.env Scenario.oneReview 7%nat).
    vm_compute; reflexivity.
  - destruct (getJobReviews_returns_the_parties_reviews
                Scenario.env Scenario.oneReview 1%nat) as (_ & _ & Hknown).
    destruct (Hknown Scenario.job1 eq_refl) as (c & f & Hresp & Hparty).
    exists c, f. split; [exact Hresp|].
    apply (Hparty (Job.client Scenario.job1) c (or_introl (conj eq_refl eq_refl))
             Scenario.client).
    vm_compute; reflexivity.
Defined.

(** * Further properties of the issue tracker *)

(** ** Strings and stored issues *)

Lemma trimEnd_idempotent s : Js.trimEnd (Js.trimEnd s) = Js.trimEnd s.
Proof.
  assert (Hstep : forall c r,
             Js.trimEnd (String c r)
             = match Js.trimEnd r with
               | EmptyString => if Js.isWhite c then EmptyString else String c EmptyString
               | r' => String c r'
               end) by reflexivity.
  induction s as [|c r IH]; [reflexivity|]. rewrite (Hstep c r).
  destruct (Js.trimEnd r) as [|c' r'] eqn:Hr.
  - destruct (Js.isWhite c) eqn:Hc; [reflexivity|]. rewrite Hstep, Hc. reflexivity.
  - rewrite Hstep, IH. reflexivity.
Qed.

Lemma trimStart_head s :
  Js.trimStart s = "" \/ exists c r, Js.trimStart s = String c r /\ Js.isWhite c = false.
Proof.
  induction s as [|c r IH]; [left; reflexivity|]. cbn [Js.trimStart].
  destruct (Js.isWhite c) eqn:Hc; [exact IH|]. right. exists c, r. split; [reflexivity|exact Hc].
Qed.

Lemma trimEnd_head c r :
  Js.isWhite c = false -> exists r', Js.trimEnd (String c r) = String c r'.
Proof.
  intros Hc. cbn [Js.trimEnd]. destruct (Js.trimEnd r) as [|c' r'].
  - rewrite Hc. exists "". reflexivity.
  - exists (String c' r'). reflexivity.
Qed.

Lemma trim_idempotent s : Js.trim (Js.trim s) = Js.trim s.
Proof.
  unfold Js.trim. destruct (trimStart_head s) as [-> | (c & r & -> & Hc)]; [reflexivity|].
  destruct (trimEnd_head c r Hc) as [r' Hr']. rewrite Hr' at 1.
  cbn [Js.trimStart]. rewrite Hc, <- Hr'. apply trimEnd_idempotent.
Qed.

Lemma Issue_findById_In id c d :
  Issue.findById id c = Some d -> In d c /\ Issue._id d = id.
Proof.
  unfold Issue.findById. intros H. apply find_some in H. destruct H as [Hin He].
  apply Nat.eqb_eq in He. split; assumption.
Qed.

Lemma Issue_findById_replace id c d v :
  Issue.findById id c = Some d -> Issue._id v = id ->
  Issue.findById id (Issue.replace v c) = Some v.
Proof.
  unfold Issue.findById, Issue.replace. intros Hf <-.
  induction c as [|x c IH]; [discriminate|]. cbn [map List.find] in *.
  destruct (Nat.eqb (Issue._id x) (Issue._id v)) eqn:Hx.
  - rewrite Nat.eqb_refl. reflexivity.
  - rewrite Hx. apply IH, Hf.
Qed.

Lemma Issue_findById_replace_other id c v :
  Issue._id v <> id -> Issue.findById id (Issue.replace v c) = Issue.findById id c.
Proof.
  unfold Issue.findById, Issue.replace. intros Hv.
  induction c as [|x c IH]; [reflexivity|]. cbn [map List.find].
  destruct (Nat.eqb (Issue._id x) (Issue._id v)) eqn:Hx.
  - apply Nat.eqb_eq in Hx. rewrite Hx.
    destruct (Nat.eqb (Issue._id v) id) eqn:Hvid; [apply Nat.eqb_eq in Hvid; contradiction|].
    exact IH.
  - rewrite IH. reflexivity.
Qed.


(** The six validated paths decide validity. *)
Lemma Issue_validate_nil d :
  Issue.validate d = [] <->
  (negb (Issue.required (Issue.title d)) || (200 <? String.length (Issue.title d))%nat = false
   /\ negb (Issue.required (Issue.description d))
      || (2000 <? String.length (Issue.description d))%nat = false
   /\ negb (Issue.required (Issue.category d))
      || negb (Issue.inEnum Issue.categories (Issue.category d)) = false)
  /\ Issue.inEnum Issue.priorities (Issue.priority d) = true
  /\ Issue.inEnum Issue.statuses (Issue.status d) = true
  /\ Issue.validateResponses 0 (Issue.responses d) = [].
Proof.
  unfold Issue.validate, Issue.invalidIf. split.
  - intros H.
    repeat match goal with
           | H : (_ ++ _)%list = [] |- _ => apply app_eq_nil in H; destruct H
           end.
    repeat match goal with
           | H : (if ?b then _ else _) = [] |- _ => destruct b eqn:?; [discriminate|clear H]
           end.
    repeat match goal with
           | H : negb ?b = false |- _ => apply negb_false_iff in H
           end.
    repeat split; assumption.
  - intros ((Ht & Hd & Hc) & Hp & Hs & Hr). rewrite Ht, Hd, Hc, Hp, Hs, Hr. reflexivity.
Qed.

Lemma validateResponses_app i l r :
  Issue.validateResponses i (l ++ [r]) = [] <->
  Issue.validateResponses i l = [] /\ Issue.required (Issue.Response.message r) = true.
Proof.
  revert i. induction l as [|x l IH]; intros i; cbn [app Issue.validateResponses].
  - unfold Issue.invalidIf. rewrite app_nil_r.
    destruct (Issue.required (Issue.Response.message r)); cbn; split;
      try tauto; try discriminate; intros [_ H]; discriminate.
  - split.
    + intros H. apply app_eq_nil in H. destruct H as [Hx Hl]. apply IH in Hl.
      destruct Hl as [Hl Hr]. rewrite Hx, Hl. split; [reflexivity|exact Hr].
    + intros [H Hr]. apply app_eq_nil in H. destruct H as [Hx Hl]. rewrite Hx.
      apply (proj2 (IH (S i))). split; assumption.
Qed.

Lemma required_trim m :
  (String.length (Js.trim m) =? 0)%nat = false -> Issue.required (Js.trim m) = true.
Proof.
  unfold Issue.required. destruct (Js.trim m); [discriminate|reflexivity].
Qed.

Lemma Issue_save_valid now d c :
  Issue.validate (Issue.preSave now d) = [] ->
  Issue.save now d c
  = (Issue.replace (Issue.preSave now d) c, inr (Issue.load (Issue.preSave now d))).
Proof. unfold Issue.save. intros ->. reflexivity. Qed.

Lemma Issue_save_invalid now d c :
  Issue.validate (Issue.preSave now d) <> [] ->
  Issue.save now d c = (c, inl (ValidationError (Issue.validate (Issue.preSave now d)))).
Proof.
  unfold Issue.save. destruct (Issue.validate (Issue.preSave now d)); [contradiction|reflexivity].
Qed.

(** ** closeIssue *)

Lemma closedIssue_valid now issue :
  Issue.validate issue = [] -> Issue.validate (closedIssue now issue) = [].
Proof.
  intros H. apply Issue_validate_nil. apply Issue_validate_nil in H.
  cbn. cbn in H. tauto.
Qed.

Lemma closeIssue_allowed env st user id issue :
  Issue.findById id (IssueController.issues st) = Some issue ->
  Issue.validate issue = [] ->
  Nat.eqb (Issue.submittedBy issue) (Account._id user) || IssueController.isAdmin user = true ->
  IssueController.closeIssue env st user id
  = (IssueController.withIssues
       (Issue.replace (closedIssue (IssueController.Date_now env) issue)
          (IssueController.issues st)) st,
     IssueController.successResponse 200 "Issue closed successfully"
       (IssueController.IssueData (closedIssue (IssueController.Date_now env) issue))).
Proof.
  intros Hfind Hvalid Hallowed. unfold IssueController.closeIssue. rewrite Hfind.
  rewrite <- negb_orb, Hallowed. cbn [negb].
  assert (Hsaved :
      Issue.preSave (IssueController.Date_now env)
        (Issue.assign (Issue.set_lastActivityAt (IssueController.Date_now env))
           (Issue.assignStatus "closed" (Issue.load issue)))
      = closedIssue (IssueController.Date_now env) issue)
    by (unfold Issue.preSave, Issue.assign, Issue.assignStatus, Issue.load;
        cbn [Issue.value Issue.responsesModified Issue.statusModified];
        match goal with |- context [if ?b then _ else _] => destruct b end; reflexivity).
  rewrite Issue_save_valid; rewrite Hsaved; [reflexivity|].
  apply closedIssue_valid, Hvalid.
Qed.

(** X17. closeIssue on a stored issue that passes validation: a user who
    is neither its submitter nor an administrator gets 403 and nothing is
    written; the submitter or an administrator gets 200, after which the
    issue is stored with status closed and the current time as last
    activity and is otherwise unchanged, every other issue is as before,
    and nobody is notified. *)
Theorem closeIssue_by_submitter_or_admin
  (env : IssueController.Env) (st : IssueController.Store)
  (user : Account.t) (id : IssueId) (issue : Issue.t) :
  Issue.findById id (IssueController.issues st) = Some issue ->
  Issue.validate issue = [] ->
  let closed := closedIssue (IssueController.Date_now env) issue in
  let st' := fst (IssueController.closeIssue env st user id) in
  let answer := snd (IssueController.closeIssue env st user id) in
  if Nat.eqb (Issue.submittedBy issue) (Account._id user) || IssueController.isAdmin user
  then answer = IssueController.successResponse 200 "Issue closed successfully"
                  (IssueController.IssueData closed)
       /\ Issue.status closed = "closed"
       /\ Issue.findById id (IssueController.issues st') = Some closed
       /\ (forall other, other <> id ->
           Issue.findById other (IssueController.issues st')
           = Issue.findById other (IssueController.issues st))
       /\ IssueController.notifications st' = IssueController.notifications st
       /\ IssueController.outbox st' = IssueController.outbox st
  else answer = IssueController.errorResponse 403 (Text "Not authorized to close this issue")
       /\ st' = st.
Proof.
  intros Hfind Hvalid closed st' answer. subst st' answer.
  destruct (Issue_findById_In _ _ _ Hfind) as [_ Hid].
  destruct (Nat.eqb (Issue.submittedBy issue) (Account._id user)
            || IssueController.isAdmin user) eqn:Hallowed.
  - rewrite (closeIssue_allowed env st user id issue Hfind Hvalid Hallowed).
    cbn [fst snd IssueController.withIssues IssueController.issues
         IssueController.notifications IssueController.outbox].
    split; [reflexivity|]. split; [reflexivity|]. split.
    + apply (Issue_findById_replace id _ issue); [exact Hfind|exact Hid].
    + split; [|split; reflexivity].
      intros other Hother. apply Issue_findById_replace_other.
      subst closed. cbn. congruence.
  - unfold IssueController.closeIssue. rewrite Hfind, <- negb_orb, Hallowed.
    split; reflexivity.
Qed.

Lemma closeIssue_by_submitter_or_admin_witness :
  (snd (IssueController.closeIssue Desk.env Desk.store Desk.stranger 1%nat)
   = IssueController.errorResponse 403 (Text "Not authorized to close this issue")
   /\ fst (IssueController.closeIssue Desk.env Desk.store Desk.stranger 1%nat) = Desk.store)
  /\ Issue.findById 1%nat
       (IssueController.issues
          (fst (IssueController.closeIssue Desk.env Desk.store Desk.submitter 1%nat)))
     = Some (closedIssue 5000 Desk.issue1).
Proof.
  split.
  - exact (closeIssue_by_submitter_or_admin Desk.env Desk.store Desk.stranger 1%nat
             Desk.issue1 eq_refl eq_refl).
  - destruct (closeIssue_by_submitter_or_admin Desk.env Desk.store Desk.submitter 1%nat
                Desk.issue1 eq_refl eq_refl) as (_ & _ & Hstored & _).
    exact Hstored.
Defined.

(** ** addResponse *)

Lemma notify_issues env n st :
  IssueController.issues (fst (IssueController.notify env n st)) = IssueController.issues st
  /\ IssueController.outbox (fst (IssueController.notify env n st)) = IssueController.outbox st.
Proof.
  unfold IssueController.notify.
  destruct (IssueController.Notification_create env n); split; reflexivity.
Qed.

Lemma notifyEach_issues env ns st :
  IssueController.issues (fst (IssueController.notifyEach env ns st))
  = IssueController.issues st
  /\ IssueController.outbox (fst (IssueController.notifyEach env ns st))
     = IssueController.outbox st.
Proof.
  revert st. induction ns as [|n ns IH]; intros st; [split; reflexivity|].
  cbn [IssueController.notifyEach].
  pose proof (notify_issues env n st) as [Hi Ho].
  destruct (IssueController.notify env n st) as [st1 e1]. cbn [fst] in Hi, Ho.
  pose proof (IH st1) as [Hi' Ho'].
  destruct (IssueController.notifyEach env ns st1) as [st2 e2]. cbn [fst] in *.
  split; congruence.
Qed.

Lemma mail_keeps env e st :
  IssueController.issues (IssueController.mail env e st) = IssueController.issues st
  /\ IssueController.notifications (IssueController.mail env e st)
     = IssueController.notifications st.
Proof.
  unfold IssueController.mail. destruct (IssueController.sendEmail env e); split; reflexivity.
Qed.

Lemma notifyEach_all_created env ns st :
  (forall n, IssueController.Notification_create env n = None) ->
  IssueController.notifyEach env ns st
  = ({| IssueController.issues := IssueController.issues st;
        IssueController.notifications := (IssueController.notifications st ++ ns)%list;
        IssueController.outbox := IssueController.outbox st |}, None).
Proof.
  intros Hok. revert st. induction ns as [|n ns IH]; intros st.
  - cbn. rewrite app_nil_r. destruct st; reflexivity.
  - cbn [IssueController.notifyEach]. unfold IssueController.notify at 1. rewrite Hok.
    rewrite IH. cbn. rewrite <- app_assoc. reflexivity.
Qed.

Lemma nth_error_last {A : Type} (l : list A) (x : A) :
  nth_error (l ++ [x]) (List.length (l ++ [x]) - 1) = Some x.
Proof.
  rewrite length_app. cbn [List.length]. rewrite Nat.add_1_r, Nat.sub_succ, Nat.sub_0_r.
  rewrite nth_error_app2 by lia. rewrite Nat.sub_diag. reflexivity.
Qed.

Lemma respondedIssue_valid now user byOwner m issue :
  Issue.validate issue = [] ->
  (String.length (Js.trim m) =? 0)%nat = false ->
  Issue.validate (respondedIssue now user byOwner m issue) = [].
Proof.
  intros H Hm. apply Issue_validate_nil. apply Issue_validate_nil in H.
  destruct H as (Hfix & Hp & Hs & Hr).
  assert (Hr' : Issue.validateResponses 0 (Issue.responses issue ++ [newResponse now user m]) = [])
    by (apply validateResponses_app; split; [exact Hr|apply required_trim, Hm]).
  unfold respondedIssue.
  destruct (byOwner && String.eqb (Issue.status issue) "closed"); cbn; tauto.
Qed.

Lemma respondedIssue_responses now user byOwner m issue :
  Issue.responses (respondedIssue now user byOwner m issue)
  = (Issue.responses issue ++ [newResponse now user m])%list.
Proof.
  unfold respondedIssue.
  destruct (byOwner && String.eqb (Issue.status issue) "closed"); reflexivity.
Qed.

(** The run of addResponse once the message, the issue, its submitter and
    the permission have been checked. *)
Lemma addResponse_allowed env st user id m issue submitter :
  (String.length (Js.trim m) =? 0)%nat = false ->
  Issue.findById id (IssueController.issues st) = Some issue ->
  Issue.validate issue = [] ->
  IssueController.User_findById env (Issue.submittedBy issue) = Some submitter ->
  let byOwner := Nat.eqb (Account._id submitter) (Account._id user) in
  byOwner || IssueController.isAdmin user || assignedToUser issue user = true ->
  let saved := respondedIssue (IssueController.Date_now env) user byOwner m issue in
  let st1 := IssueController.withIssues (Issue.replace saved (IssueController.issues st)) st in
  let answer :=
    IssueController.successResponse 200 "Response added successfully"
      (IssueController.ResponseData
         (Some (newResponse (IssueController.Date_now env) user m))) in
  IssueController.addResponse env st user id (Js.str m)
  = if IssueController.isAdmin user || assignedToUser issue user
    then
      match IssueController.notify env
              (IssueController.responseNotice saved submitter user) st1 with
      | (st2, Some e) => (st2, IssueController.errorResponse 500 (ErrorMessage e))
      | (st2, None) =>
          (IssueController.mail env (IssueController.responseEmail saved submitter) st2,
           answer)
      end
    else
      match IssueController.notifyEach env
              (map (IssueController.newResponseNotice saved submitter user)
                 (IssueController.notificationTargets env saved)) st1 with
      | (st2, Some e) => (st2, IssueController.errorResponse 500 (ErrorMessage e))
      | (st2, None) => (st2, answer)
      end.
Proof.
  intros Hm Hfind Hvalid Hsub byOwner Hauth saved st1 answer.
  unfold IssueController.addResponse.
  assert (Htruthy : Js.truthy (Js.str m) = true).
  { cbn. destruct m; [discriminate Hm|reflexivity]. }
  rewrite Htruthy. cbn [negb]. rewrite Hm, Hfind, Hsub.
  fold byOwner. change (match Issue.assignedTo issue with
                        | Some a => Nat.eqb a (Account._id user)
                        | None => false
                        end) with (assignedToUser issue user).
  rewrite <- !negb_orb, Hauth. cbn [negb].
  rewrite trim_idempotent.
  set (d := if byOwner && String.eqb _ "closed" then _ else _).
  assert (Hsaved : Issue.preSave (IssueController.Date_now env) d = saved).
  { subst d saved. unfold respondedIssue, Issue.preSave, Issue.assign, Issue.assignStatus,
      Issue.pushResponse, Issue.load, newResponse.
    cbn [Issue.value Issue.responsesModified Issue.statusModified Issue.status
         Issue.set_viewedByUser Issue.set_lastActivityAt Issue.push_response].
    destruct (byOwner && String.eqb (Issue.status issue) "closed"); reflexivity. }
  rewrite Issue_save_valid; rewrite Hsaved;
    [|apply respondedIssue_valid; assumption].
  cbn [Issue.value Issue.load]. fold st1.
  assert (Hlast : nth_error (Issue.responses saved) (List.length (Issue.responses saved) - 1)
                  = Some (newResponse (IssueController.Date_now env) user m)).
  { subst saved. rewrite respondedIssue_responses. apply nth_error_last. }
  rewrite Hlast. fold answer. reflexivity.
Qed.

Lemma addResponse_allowed_issues env st user id m issue submitter :
  (String.length (Js.trim m) =? 0)%nat = false ->
  Issue.findById id (IssueController.issues st) = Some issue ->
  Issue.validate issue = [] ->
  IssueController.User_findById env (Issue.submittedBy issue) = Some submitter ->
  Nat.eqb (Account._id submitter) (Account._id user)
  || IssueController.isAdmin user || assignedToUser issue user = true ->
  IssueController.issues (fst (IssueController.addResponse env st user id (Js.str m)))
  = Issue.replace
      (respondedIssue (IssueController.Date_now env) user
         (Nat.eqb (Account._id submitter) (Account._id user)) m issue)
      (IssueController.issues st)
  /\ (IssueController.status (snd (IssueController.addResponse env st user id (Js.str m))) = 200
      \/ IssueController.status (snd (IssueController.addResponse env st user id (Js.str m)))
         = 500).
Proof.
  intros Hm Hfind Hvalid Hsub Hauth.
  rewrite (addResponse_allowed env st user id m issue submitter Hm Hfind Hvalid Hsub Hauth).
  destruct (IssueController.isAdmin user || assignedToUser issue user).
  - match goal with
    | |- context [IssueController.notify ?e ?n ?s] =>
        pose proof (notify_issues e n s) as [Hi _];
        destruct (IssueController.notify e n s) as [st2 [err|]]
    end; cbn [fst snd IssueController.status] in *.
    + split; [exact Hi|right; reflexivity].
    + split; [|left; reflexivity].
      rewrite (proj1 (mail_keeps _ _ _)). exact Hi.
  - match goal with
    | |- context [IssueController.notifyEach ?e ?n ?s] =>
        pose proof (notifyEach_issues e n s) as [Hi _];
        destruct (IssueController.notifyEach e n s) as [st2 [err|]]
    end; cbn [fst snd IssueController.status] in *.
    + split; [exact Hi|right; reflexivity].
    + split; [exact Hi|left; reflexivity].
Qed.

(** X18. addResponse looks at the message before anything else: a missing
    or empty message, or one of white space only (NBSP counts as white
    space), is answered with 400 and a truthy message that is not a string
    with 500, whoever asks and whether or not the issue exists, and
    nothing is written. *)
Theorem addResponse_checks_the_message_first
  (env : IssueController.Env) (st : IssueController.Store)
  (user : Account.t) (id : IssueId) (message : Js.value) :
  (Js.truthy message = false \/ (exists m, message = Js.str m /\ Js.trim m = "") ->
   IssueController.addResponse env st user id message
   = (st, IssueController.errorResponse 400 (Text "Response message is required")))
  /\ (Js.truthy message = true -> (forall m, message <> Js.str m) ->
      IssueController.addResponse env st user id message
      = (st, IssueController.errorResponse 500
               (ErrorMessage (TypeError "message.trim is not a function")))).
Proof.
  unfold IssueController.addResponse. split.
  - intros [Hfalsy | (m & -> & Hblank)].
    + rewrite Hfalsy. reflexivity.
    + destruct (Js.truthy (Js.str m)); [|reflexivity]. cbn [negb].
      rewrite Hblank. reflexivity.
  - intros Htruthy Hother. rewrite Htruthy. cbn [negb].
    destruct message; try reflexivity. exfalso. apply (Hother s). reflexivity.
Qed.

Lemma addResponse_checks_the_message_first_witness :
  let nbsp := String (ascii_of_nat 160) EmptyString in
  IssueController.addResponse Desk.env Desk.store Desk.submitter 99%nat (Js.str "   ")
  = (Desk.store, IssueController.errorResponse 400 (Text "Response message is required"))
  /\ IssueController.addResponse Desk.env Desk.store Desk.submitter 1%nat
       (Js.str (nbsp ++ nbsp))
     = (Desk.store, IssueController.errorResponse 400 (Text "Response message is required"))
  /\ IssueController.addResponse Desk.env Desk.store Desk.submitter 1%nat (Js.num (Js.Int 7))
     = (Desk.store, IssueController.errorResponse 500
                      (ErrorMessage (TypeError "message.trim is not a function"))).
Proof.
  intros nbsp. split; [|split].
  - apply (addResponse_checks_the_message_first Desk.env Desk.store Desk.submitter 99%nat
             (Js.str "   ")).
    right. exists "   ". split; reflexivity.
  - apply (addResponse_checks_the_message_first Desk.env Desk.store Desk.submitter 1%nat
             (Js.str (nbsp ++ nbsp))).
    right. exists (nbsp ++ nbsp). split; reflexivity.
  - apply (addResponse_checks_the_message_first Desk.env Desk.store Desk.submitter 1%nat
             (Js.num (Js.Int 7))); [reflexivity|discriminate].
Defined.

(** X19. Once addResponse has accepted a response (a message that is not
    blank, on a stored issue that passes validation and whose submitter
    exists, from the submitter, an administrator or the assignee), the response is stored whatever
    the notification model and the mailer do: the issue's conversation is
    the old one followed by the trimmed message of the user, the last
    activity is now, the issue counts as viewed exactly when the
    submitter wrote, a closed issue is open again exactly when the
    submitter wrote, and every other issue is as before. The answer is
    200 or 500. *)
Theorem addResponse_stores_the_response
  (env : IssueController.Env) (st : IssueController.Store)
  (user : Account.t) (id : IssueId) (m : string) (issue : Issue.t) (submitter : Account.t) :
  (String.length (Js.trim m) =? 0)%nat = false ->
  Issue.findById id (IssueController.issues st) = Some issue ->
  Issue.validate issue = [] ->
  IssueController.User_findById env (Issue.submittedBy issue) = Some submitter ->
  let byOwner := Nat.eqb (Account._id submitter) (Account._id user) in
  byOwner || IssueController.isAdmin user || assignedToUser issue user = true ->
  let st' := fst (IssueController.addResponse env st user id (Js.str m)) in
  let answer := snd (IssueController.addResponse env st user id (Js.str m)) in
  (exists saved,
     Issue.findById id (IssueController.issues st') = Some saved
     /\ Issue.responses saved
        = (Issue.responses issue
           ++ [{| Issue.Response.message := Js.trim m;
                  Issue.Response.author := Account._id user;
                  Issue.Response.timestamp := IssueController.Date_now env |}])%list
     /\ Issue.lastActivityAt saved = IssueController.Date_now env
     /\ Issue.viewedByUser saved = byOwner
     /\ Issue.status saved
        = (if byOwner && String.eqb (Issue.status issue) "closed"
           then "open" else Issue.status issue)
     /\ continues issue saved)
  /\ (forall other, other <> id ->
      Issue.findById other (IssueController.issues st')
      = Issue.findById other (IssueController.issues st))
  /\ (IssueController.status answer = 200 \/ IssueController.status answer = 500).
Proof.
  intros Hm Hfind Hvalid Hsub byOwner Hauth st' answer. subst st' answer.
  destruct (addResponse_allowed_issues env st user id m issue submitter
              Hm Hfind Hvalid Hsub Hauth) as [Hissues Hstatus].
  fold byOwner in Hissues. rewrite Hissues.
  destruct (Issue_findById_In _ _ _ Hfind) as [_ Hid].
  assert (Hsame : Issue._id (respondedIssue (IssueController.Date_now env) user byOwner m issue)
                  = id)
    by (unfold respondedIssue;
        destruct (byOwner && String.eqb (Issue.status issue) "closed"); exact Hid).
  split; [|split; [|exact Hstatus]].
  - exists (respondedIssue (IssueController.Date_now env) user byOwner m issue).
    split; [apply (Issue_findById_replace id _ issue); assumption|].
    unfold respondedIssue, continues, newResponse.
    destruct (byOwner && String.eqb (Issue.status issue) "closed"); cbn;
      repeat split; try reflexivity;
      try (eexists; reflexivity); exists []; rewrite app_nil_r; reflexivity.
  - intros other Hother. apply Issue_findById_replace_other. congruence.
Qed.

Lemma addResponse_stores_the_response_witness :
  exists saved,
    Issue.findById 2%nat
      (IssueController.issues
         (fst (IssueController.addResponse Desk.envNotificationsDown Desk.store
                 Desk.submitter 2%nat (Js.str " It still fails. "))))
    = Some saved
    /\ Issue.status saved = "open"
    /\ List.length (Issue.responses saved) = 2%nat.
Proof.
  destruct (addResponse_stores_the_response Desk.envNotificationsDown Desk.store
              Desk.submitter 2%nat " It still fails. " Desk.issue2 Desk.submitter
              eq_refl eq_refl eq_refl eq_refl eq_refl)
    as ((saved & Hfound & Hresponses & _ & _ & Hstatus & _) & _).
  exists saved. split; [exact Hfound|]. split; [exact Hstatus|].
  rewrite Hresponses. reflexivity.
Defined.

Lemma respondedIssue_assignedTo now user byOwner m issue :
  Issue.assignedTo (respondedIssue now user byOwner m issue) = Issue.assignedTo issue
  /\ Issue._id (respondedIssue now user byOwner m issue) = Issue._id issue.
Proof.
  unfold respondedIssue.
  destruct (byOwner && String.eqb (Issue.status issue) "closed"); split; reflexivity.
Qed.

(** X20. Who hears of a response that addResponse has accepted (as in
    X19) when the notification model works: the issue's submitter when an administrator or the assignee
    wrote; otherwise the assignee, or every active administrator when
    nobody is assigned. Each notification names the issue and the writer,
    the answer is 200 with the stored response, and a failing mailer
    changes nothing of this. *)
Theorem addResponse_notifies_the_other_party
  (env : IssueController.Env) (st : IssueController.Store)
  (user : Account.t) (id : IssueId) (m : string) (issue : Issue.t) (submitter : Account.t) :
  (String.length (Js.trim m) =? 0)%nat = false ->
  Issue.findById id (IssueController.issues st) = Some issue ->
  Issue.validate issue = [] ->
  IssueController.User_findById env (Issue.submittedBy issue) = Some submitter ->
  Nat.eqb (Account._id submitter) (Account._id user)
  || IssueController.isAdmin user || assignedToUser issue user = true ->
  (forall n, IssueController.Notification_create env n = None) ->
  let st' := fst (IssueController.addResponse env st user id (Js.str m)) in
  let answer := snd (IssueController.addResponse env st user id (Js.str m)) in
  answer
  = IssueController.successResponse 200 "Response added successfully"
      (IssueController.ResponseData
         (Some (newResponse (IssueController.Date_now env) user m)))
  /\ exists new,
       IssueController.notifications st' = (IssueController.notifications st ++ new)%list
       /\ map IssueController.Notice.recipient new
          = (if IssueController.isAdmin user || assignedToUser issue user
             then [Account._id submitter]
             else match Issue.assignedTo issue with
                  | Some a => [a]
                  | None => map Account._id (IssueController.User_find_activeAdmins env)
                  end)
       /\ Forall (fun n => IssueController.Notice.data_issue n = id
                           /\ IssueController.Notice.data_sender n = Account._id user) new.
Proof.
  intros Hm Hfind Hvalid Hsub Hauth Hok st' answer. subst st' answer.
  rewrite (addResponse_allowed env st user id m issue submitter Hm Hfind Hvalid Hsub Hauth).
  destruct (Issue_findById_In _ _ _ Hfind) as [_ Hid].
  set (saved := respondedIssue _ _ _ _ _).
  destruct (respondedIssue_assignedTo (IssueController.Date_now env) user
              (Nat.eqb (Account._id submitter) (Account._id user)) m issue)
    as [Hassigned Hsame].
  fold saved in Hassigned, Hsame.
  destruct (IssueController.isAdmin user || assignedToUser issue user).
  - unfold IssueController.notify. rewrite Hok. cbn [fst snd].
    split; [reflexivity|].
    exists [IssueController.responseNotice saved submitter user].
    rewrite (proj2 (mail_keeps _ _ _)). cbn [IssueController.notifications].
    split; [reflexivity|]. split; [reflexivity|].
    constructor; [|constructor]. cbn. rewrite Hsame, Hid. split; reflexivity.
  - rewrite (notifyEach_all_created _ _ _ Hok). cbn [fst snd IssueController.notifications].
    split; [reflexivity|].
    eexists. split; [reflexivity|]. split.
    + rewrite map_map. cbn [IssueController.newResponseNotice
                              IssueController.systemNotification
                              IssueController.Notice.recipient].
      rewrite map_id. unfold IssueController.notificationTargets. rewrite Hassigned.
      reflexivity.
    + apply Forall_forall. intros n Hn. apply in_map_iff in Hn.
      destruct Hn as (target & <- & _). cbn. rewrite Hsame, Hid. split; reflexivity.
Qed.

Lemma addResponse_notifies_the_other_party_witness :
  exists new,
    IssueController.notifications
      (fst (IssueController.addResponse Desk.env Desk.store Desk.submitter 1%nat
              (Js.str "Any news?")))
    = (IssueController.notifications Desk.store ++ new)%list
    /\ map IssueController.Notice.recipient new = [20%nat; 21%nat].
Proof.
  destruct (addResponse_notifies_the_other_party Desk.env Desk.store Desk.submitter 1%nat
              "Any news?" Desk.issue1 Desk.submitter
              eq_refl eq_refl eq_refl eq_refl eq_refl (fun _ => eq_refl))
    as (_ & new & Hnew & Hrecipients & _).
  exists new. split; [exact Hnew|exact Hrecipients].
Defined.

(** X21. A failure of the notification model fails addResponse although
    the response has been stored: when an administrator or the assignee
    writes a message that is not blank on a stored, valid issue whose
    submitter exists, and Notification.create throws, the answer is 500 with the
    error of the notification model, and the stored conversation already
    ends with the new response. *)
Theorem addResponse_notification_failure_after_the_write
  (env : IssueController.Env) (st : IssueController.Store)
  (user : Account.t) (id : IssueId) (m : string) (issue : Issue.t) (submitter : Account.t)
  (reason : string) :
  (String.length (Js.trim m) =? 0)%nat = false ->
  Issue.findById id (IssueController.issues st) = Some issue ->
  Issue.validate issue = [] ->
  IssueController.User_findById env (Issue.submittedBy issue) = Some submitter ->
  IssueController.isAdmin user || assignedToUser issue user = true ->
  (forall n, IssueController.Notification_create env n = Some reason) ->
  let st' := fst (IssueController.addResponse env st user id (Js.str m)) in
  let answer := snd (IssueController.addResponse env st user id (Js.str m)) in
  answer = IssueController.errorResponse 500 (ErrorMessage (CollaboratorError reason))
  /\ IssueController.notifications st' = IssueController.notifications st
  /\ IssueController.outbox st' = IssueController.outbox st
  /\ exists saved,
       Issue.findById id (IssueController.issues st') = Some saved
       /\ Issue.responses saved
          = (Issue.responses issue ++ [newResponse (IssueController.Date_now env) user m])%list.
Proof.
  intros Hm Hfind Hvalid Hsub Hstaff Hdown st' answer. subst st' answer.
  assert (Hauth : Nat.eqb (Account._id submitter) (Account._id user)
                  || IssueController.isAdmin user || assignedToUser issue user = true).
  { rewrite <- orb_assoc, Hstaff. apply orb_true_r. }
  rewrite (addResponse_allowed env st user id m issue submitter Hm Hfind Hvalid Hsub Hauth).
  rewrite Hstaff. unfold IssueController.notify. rewrite Hdown.
  cbn [fst snd IssueController.withIssues IssueController.issues
       IssueController.notifications IssueController.outbox].
  repeat (split; [reflexivity|]).
  destruct (Issue_findById_In _ _ _ Hfind) as [_ Hid].
  eexists. split.
  - apply (Issue_findById_replace id _ issue); [exact Hfind|].
    rewrite (proj2 (respondedIssue_assignedTo _ _ _ _ _)). exact Hid.
  - apply respondedIssue_responses.
Qed.

Lemma addResponse_notification_failure_after_the_write_witness :
  snd (IssueController.addResponse Desk.envNotificationsDown Desk.store Desk.admin 1%nat
         (Js.str "We are looking into it."))
  = IssueController.errorResponse 500
      (ErrorMessage (CollaboratorError "notifications unavailable")).
Proof.
  exact (proj1 (addResponse_notification_failure_after_the_write
                  Desk.envNotificationsDown Desk.store Desk.admin 1%nat
                  "We are looking into it." Desk.issue1 Desk.submitter
                  "notifications unavailable"
                  eq_refl eq_refl eq_refl eq_refl eq_refl (fun _ => eq_refl))).
Defined.

(** X22. Closing and responding compose as the controller intends: after
    the submitter has closed a stored, valid issue, a response of the submitter opens
    it again, while a response of an administrator who is not the
    submitter leaves it closed. *)
Theorem closeIssue_then_addResponse
  (env : IssueController.Env) (st : IssueController.Store)
  (owner staff : Account.t) (id : IssueId) (m : string) (issue : Issue.t) :
  (String.length (Js.trim m) =? 0)%nat = false ->
  Issue.findById id (IssueController.issues st) = Some issue ->
  Issue.validate issue = [] ->
  IssueController.User_findById env (Issue.submittedBy issue) = Some owner ->
  Account._id owner = Issue.submittedBy issue ->
  IssueController.isAdmin staff = true ->
  Account._id staff <> Account._id owner ->
  let closed := fst (IssueController.closeIssue env st owner id) in
  let statusAfter (st' : IssueController.Store) :=
    option_map Issue.status (Issue.findById id (IssueController.issues st')) in
  statusAfter closed = Some "closed"
  /\ statusAfter (fst (IssueController.addResponse env closed owner id (Js.str m)))
     = Some "open"
  /\ statusAfter (fst (IssueController.addResponse env closed staff id (Js.str m)))
     = Some "closed".
Proof.
  intros Hm Hfind Hvalid Hsub Howner Hstaff Hother closed statusAfter.
  destruct (Issue_findById_In _ _ _ Hfind) as [_ Hid].
  assert (Hallowed : Nat.eqb (Issue.submittedBy issue) (Account._id owner)
                     || IssueController.isAdmin owner = true)
    by (rewrite Howner, Nat.eqb_refl; reflexivity).
  assert (Hclosed : Issue.findById id (IssueController.issues closed)
                    = Some (closedIssue (IssueController.Date_now env) issue)).
  { subst closed. rewrite (closeIssue_allowed env st owner id issue Hfind Hvalid Hallowed).
    cbn [fst IssueController.withIssues IssueController.issues].
    apply (Issue_findById_replace id _ issue); [exact Hfind|exact Hid]. }
  assert (Hcv := closedIssue_valid (IssueController.Date_now env) issue Hvalid).
  assert (Hsub' : IssueController.User_findById env
                    (Issue.submittedBy (closedIssue (IssueController.Date_now env) issue))
                  = Some owner) by exact Hsub.
  subst statusAfter. cbn beta. rewrite Hclosed. split; [reflexivity|]. split.
  - assert (Hauth : Nat.eqb (Account._id owner) (Account._id owner)
                    || IssueController.isAdmin owner
                    || assignedToUser (closedIssue (IssueController.Date_now env) issue) owner
                    = true) by (rewrite Nat.eqb_refl; reflexivity).
    destruct (addResponse_allowed_issues env closed owner id m _ owner
                Hm Hclosed Hcv Hsub' Hauth) as [-> _].
    rewrite (Issue_findById_replace id _ _ _ Hclosed).
    + rewrite Nat.eqb_refl. reflexivity.
    + rewrite (proj2 (respondedIssue_assignedTo _ _ _ _ _)). exact Hid.
  - assert (Hauth : Nat.eqb (Account._id owner) (Account._id staff)
                    || IssueController.isAdmin staff
                    || assignedToUser (closedIssue (IssueController.Date_now env) issue) staff
                    = true) by (rewrite Hstaff, orb_true_r; reflexivity).
    destruct (addResponse_allowed_issues env closed staff id m _ owner
                Hm Hclosed Hcv Hsub' Hauth) as [-> _].
    rewrite (Issue_findById_replace id _ _ _ Hclosed).
    + assert (Hne : Nat.eqb (Account._id owner) (Account._id staff) = false)
        by (apply Nat.eqb_neq; congruence).
      rewrite Hne. reflexivity.
    + rewrite (proj2 (respondedIssue_assignedTo _ _ _ _ _)). exact Hid.
Qed.

Lemma closeIssue_then_addResponse_witness :
  let closed := fst (IssueController.closeIssue Desk.env Desk.store Desk.submitter 1%nat) in
  option_map Issue.status
    (Issue.findById 1%nat
       (IssueController.issues
          (fst (IssueController.addResponse Desk.env closed Desk.submitter 1%nat
                  (Js.str "Sorry, it is back.")))))
  = Some "open".
Proof.
  intros closed.
  assert (Hdistinct : Account._id Desk.admin <> Account._id Desk.submitter) by discriminate.
  exact (proj1 (proj2 (closeIssue_then_addResponse Desk.env Desk.store Desk.submitter
                         Desk.admin 1%nat "Sorry, it is back." Desk.issue1
                         eq_refl eq_refl eq_refl eq_refl eq_refl eq_refl Hdistinct))).
Defined.

(** ** updateIssueStatus *)

Lemma statusChangedIssue_fields now user status resolution internalNote issue :
  let saved := statusChangedIssue now user status resolution internalNote issue in
  Issue._id saved = Issue._id issue
  /\ Issue.status saved = Js.ToString status
  /\ Issue.lastActivityAt saved = now
  /\ Issue.priority saved = Issue.priority issue
  /\ Issue.assignedTo saved = Issue.assignedTo issue
  /\ Issue.viewedByUser saved = Issue.viewedByUser issue
  /\ Issue.responses saved = Issue.responses issue
  /\ Issue.title saved = Issue.title issue
  /\ Issue.description saved = Issue.description issue
  /\ Issue.category saved = Issue.category issue
  /\ Issue.submittedBy saved = Issue.submittedBy issue
  /\ Issue.createdAt saved = Issue.createdAt issue.
Proof.
  unfold statusChangedIssue.
  destruct (IssueController.isString "resolved" status && Js.truthy resolution);
    destruct (Js.truthy internalNote); cbn; repeat split; reflexivity.
Qed.

Lemma statusChangedIssue_validate now user status resolution internalNote issue :
  Issue.validate issue = [] ->
  Issue.validate (statusChangedIssue now user status resolution internalNote issue)
  = if Issue.inEnum Issue.statuses (Js.ToString status) then [] else ["status"].
Proof.
  intros H. apply Issue_validate_nil in H. destruct H as ((Ht & Hd & Hc) & Hp & _ & Hr).
  pose proof (statusChangedIssue_fields now user status resolution internalNote issue)
    as (_ & Hs' & _ & Hp' & _ & _ & Hr' & Ht' & Hd' & Hc' & _).
  unfold Issue.validate. rewrite Ht', Hd', Hc', Hp', Hs', Hr', Ht, Hd, Hc, Hp, Hr.
  cbn [Issue.invalidIf negb app]. rewrite app_nil_r.
  destruct (Issue.inEnum Issue.statuses (Js.ToString status)); reflexivity.
Qed.

(** The run of updateIssueStatus on a stored issue. *)
Lemma updateIssueStatus_found env st user id status resolution internalNote issue :
  Js.truthy status = true ->
  Issue.findById id (IssueController.issues st) = Some issue ->
  let saved :=
    statusChangedIssue (IssueController.Date_now env) user status resolution internalNote
      issue in
  IssueController.updateIssueStatus env st user id status resolution internalNote
  = match Issue.validate saved with
    | [] =>
        let st1 :=
          IssueController.withIssues (Issue.replace saved (IssueController.issues st)) st in
        match IssueController.User_findById env (Issue.submittedBy issue) with
        | None =>
            (st1, IssueController.errorResponse 500 (ErrorMessage IssueController.nullId))
        | Some submitter =>
            match IssueController.notify env
                    (IssueController.statusNotice saved submitter user (Issue.status issue)
                       status) st1 with
            | (st2, Some e) => (st2, IssueController.errorResponse 500 (ErrorMessage e))
            | (st2, None) =>
                (if IssueController.isString "resolved" status
                    || IssueController.isString "closed" status
                 then IssueController.mail env
                        (IssueController.statusEmail saved submitter status) st2
                 else st2,
                 IssueController.successResponse 200 "Issue status updated successfully"
                   (IssueController.IssueData saved))
            end
        end
    | ps => (st, IssueController.errorResponse 500 (ErrorMessage (ValidationError ps)))
    end.
Proof.
  intros Htruthy Hfind saved. unfold IssueController.updateIssueStatus.
  rewrite Htruthy, Hfind. cbn [negb].
  set (d := if Js.truthy internalNote then _ else _).
  assert (Hsaved : Issue.preSave (IssueController.Date_now env) d = saved).
  { subst d saved. unfold statusChangedIssue, Issue.preSave, Issue.assign,
      Issue.assignStatus, Issue.load.
    destruct (IssueController.isString "resolved" status && Js.truthy resolution);
      destruct (Js.truthy internalNote);
      cbn [Issue.value Issue.responsesModified Issue.statusModified];
      match goal with |- context [if ?b then _ else _] => destruct b end; reflexivity. }
  unfold Issue.save. rewrite Hsaved.
  destruct (Issue.validate saved); reflexivity.
Qed.

(** X23. updateIssueStatus does not store a status outside the schema's
    four: for a stored issue that passes validation, a status of the body that is not one of
    open, in_progress, resolved and closed is answered with 500, the
    validation error of the path status, and nothing is written and
    nobody is notified. *)
Theorem updateIssueStatus_rejects_unknown_status
  (env : IssueController.Env) (st : IssueController.Store)
  (user : Account.t) (id : IssueId) (status resolution internalNote : Js.value)
  (issue : Issue.t) :
  Js.truthy status = true ->
  Issue.findById id (IssueController.issues st) = Some issue ->
  Issue.validate issue = [] ->
  ~ In (Js.ToString status) ["open"; "in_progress"; "resolved"; "closed"] ->
  IssueController.updateIssueStatus env st user id status resolution internalNote
  = (st, IssueController.errorResponse 500 (ErrorMessage (ValidationError ["status"]))).
Proof.
  intros Htruthy Hfind Hvalid Hunknown.
  rewrite (updateIssueStatus_found env st user id status resolution internalNote issue
             Htruthy Hfind).
  rewrite (statusChangedIssue_validate _ _ _ _ _ _ Hvalid).
  assert (Hno : Issue.inEnum Issue.statuses (Js.ToString status) = false).
  { destruct (Issue.inEnum Issue.statuses (Js.ToString status)) eqn:E; [|reflexivity].
    exfalso. apply Hunknown. unfold Issue.inEnum in E. apply existsb_exists in E.
    destruct E as (x & Hin & Hx). apply String.eqb_eq in Hx. subst x. exact Hin. }
  rewrite Hno. reflexivity.
Qed.

Lemma updateIssueStatus_rejects_unknown_status_witness :
  IssueController.updateIssueStatus Desk.env Desk.store Desk.admin 1%nat
    (Js.str "done") Js.undefined Js.undefined
  = (Desk.store,
     IssueController.errorResponse 500 (ErrorMessage (ValidationError ["status"]))).
Proof.
  apply (updateIssueStatus_rejects_unknown_status Desk.env Desk.store Desk.admin 1%nat
           (Js.str "done") Js.undefined Js.undefined Desk.issue1);
    try reflexivity.
  cbn. intros [H | [H | [H | [H | H]]]]; try discriminate H; exact H.
Defined.

Lemma known_status_validates now user status resolution internalNote issue :
  Issue.validate issue = [] ->
  In (Js.ToString status) Issue.statuses ->
  Issue.validate (statusChangedIssue now user status resolution internalNote issue) = [].
Proof.
  intros Hvalid Hknown. rewrite (statusChangedIssue_validate _ _ _ _ _ _ Hvalid).
  assert (Hyes : Issue.inEnum Issue.statuses (Js.ToString status) = true).
  { unfold Issue.inEnum. apply existsb_exists. exists (Js.ToString status).
    split; [exact Hknown|apply String.eqb_refl]. }
  rewrite Hyes. reflexivity.
Qed.

Lemma statusChangedIssue_continues now user status resolution internalNote issue :
  continues issue (statusChangedIssue now user status resolution internalNote issue).
Proof.
  unfold continues, statusChangedIssue.
  destruct (IssueController.isString "resolved" status && Js.truthy resolution);
    destruct (Js.truthy internalNote); cbn; repeat split; try reflexivity;
    try (exists []; rewrite app_nil_r; reflexivity); eexists; reflexivity.
Qed.

(** X24. updateIssueStatus with one of the four statuses, on a stored,
    valid issue whose submitter exists and with a working notification
    model:
    the answer is 200; the issue is stored with the new status and the
    current time as last activity; a resolution is recorded only for the
    status resolved with a resolution in the body, and an internal note
    only when the body has one; the submitter gets one notification that
    names the old and the new status; and a mail goes out only for the
    statuses resolved and closed, its failure changing nothing else. *)
Theorem updateIssueStatus_stores_and_notifies
  (env : IssueController.Env) (st : IssueController.Store)
  (user : Account.t) (id : IssueId) (status resolution internalNote : Js.value)
  (issue : Issue.t) (submitter : Account.t) :
  Js.truthy status = true ->
  Issue.findById id (IssueController.issues st) = Some issue ->
  Issue.validate issue = [] ->
  In (Js.ToString status) Issue.statuses ->
  IssueController.User_findById env (Issue.submittedBy issue) = Some submitter ->
  (forall n, IssueController.Notification_create env n = None) ->
  let now := IssueController.Date_now env in
  let st' :=
    fst (IssueController.updateIssueStatus env st user id status resolution internalNote) in
  let answer :=
    snd (IssueController.updateIssueStatus env st user id status resolution internalNote) in
  exists saved notice,
    answer = IssueController.successResponse 200 "Issue status updated successfully"
               (IssueController.IssueData saved)
    /\ Issue.findById id (IssueController.issues st') = Some saved
    /\ Issue.status saved = Js.ToString status
    /\ Issue.lastActivityAt saved = now
    /\ Issue.resolution saved
       = (if IssueController.isString "resolved" status && Js.truthy resolution
          then Some {| Issue.Resolution.summary := Js.ToString resolution;
                       Issue.Resolution.resolvedBy := Account._id user;
                       Issue.Resolution.resolvedAt := now;
                       Issue.Resolution.resolution := Js.ToString resolution |}
          else Issue.resolution issue)
    /\ Issue.internalNotes saved
       = (Issue.internalNotes issue
          ++ (if Js.truthy internalNote
              then [{| Issue.Note.note := Js.ToString internalNote;
                       Issue.Note.author := Account._id user;
                       Issue.Note.timestamp := now |}]
              else []))%list
    /\ continues issue saved
    /\ IssueController.notifications st' = (IssueController.notifications st ++ [notice])%list
    /\ IssueController.Notice.recipient notice = Account._id submitter
    /\ IssueController.Notice.data_oldStatus notice = Some (Issue.status issue)
    /\ IssueController.Notice.data_newStatus notice = Some status
    /\ (IssueController.outbox st' = IssueController.outbox st
        \/ IssueController.outbox st'
           = (IssueController.outbox st
              ++ [IssueController.statusEmail saved submitter status])%list
           /\ (IssueController.isString "resolved" status
               || IssueController.isString "closed" status = true)).
Proof.
  intros Htruthy Hfind Hvalid Hknown Hsub Hok now st' answer. subst st' answer.
  rewrite (updateIssueStatus_found env st user id status resolution internalNote issue
             Htruthy Hfind).
  rewrite (known_status_validates _ user status resolution internalNote issue Hvalid Hknown).
  rewrite Hsub. unfold IssueController.notify. rewrite Hok. fold now.
  set (saved := statusChangedIssue now user status resolution internalNote issue).
  pose proof (statusChangedIssue_fields now user status resolution internalNote issue)
    as (Hid' & Hs' & Hl' & _).
  fold saved in Hid', Hs', Hl'.
  destruct (Issue_findById_In _ _ _ Hfind) as [_ Hid].
  exists saved, (IssueController.statusNotice saved submitter user (Issue.status issue) status).
  cbn [fst snd]. split; [reflexivity|].
  assert (Hstored :
            Issue.findById id (Issue.replace saved (IssueController.issues st)) = Some saved)
    by (apply (Issue_findById_replace id _ issue); [exact Hfind|congruence]).
  assert (Hres : Issue.resolution saved
                 = (if IssueController.isString "resolved" status && Js.truthy resolution
                    then Some {| Issue.Resolution.summary := Js.ToString resolution;
                                 Issue.Resolution.resolvedBy := Account._id user;
                                 Issue.Resolution.resolvedAt := now;
                                 Issue.Resolution.resolution := Js.ToString resolution |}
                    else Issue.resolution issue)).
  { subst saved. unfold statusChangedIssue.
    destruct (IssueController.isString "resolved" status && Js.truthy resolution);
      destruct (Js.truthy internalNote); reflexivity. }
  assert (Hnotes : Issue.internalNotes saved
                   = (Issue.internalNotes issue
                      ++ (if Js.truthy internalNote
                          then [{| Issue.Note.note := Js.ToString internalNote;
                                   Issue.Note.author := Account._id user;
                                   Issue.Note.timestamp := now |}]
                          else []))%list).
  { subst saved. unfold statusChangedIssue.
    destruct (IssueController.isString "resolved" status && Js.truthy resolution);
      destruct (Js.truthy internalNote); cbn; rewrite ?app_nil_r; reflexivity. }
  pose proof (statusChangedIssue_continues now user status resolution internalNote issue)
    as Hcont. fold saved in Hcont.
  destruct (IssueController.isString "resolved" status
            || IssueController.isString "closed" status) eqn:Hmail.
  - unfold IssueController.mail.
    destruct (IssueController.sendEmail env _);
      cbn [IssueController.issues IssueController.notifications IssueController.outbox
           IssueController.withIssues IssueController.Notice.recipient
           IssueController.Notice.data_oldStatus IssueController.Notice.data_newStatus
           IssueController.statusNotice];
      (split; [exact Hstored|]);
      repeat (split; [first [assumption | reflexivity]|]).
    + left. reflexivity.
    + right. split; reflexivity.
  - cbn [IssueController.issues IssueController.notifications IssueController.outbox
         IssueController.withIssues IssueController.Notice.recipient
         IssueController.Notice.data_oldStatus IssueController.Notice.data_newStatus
         IssueController.statusNotice].
    split; [exact Hstored|].
    repeat (split; [first [assumption | reflexivity]|]).
    left. reflexivity.
Qed.

Lemma updateIssueStatus_stores_and_notifies_witness :
  exists saved,
    Issue.findById 1%nat
      (IssueController.issues
         (fst (IssueController.updateIssueStatus Desk.env Desk.store Desk.admin 1%nat
                 (Js.str "resolved") (Js.str "Paid out again.") Js.undefined)))
    = Some saved
    /\ Issue.status saved = "resolved"
    /\ option_map Issue.Resolution.resolvedBy (Issue.resolution saved) = Some 20%nat.
Proof.
  destruct (updateIssueStatus_stores_and_notifies Desk.env Desk.store Desk.admin 1%nat
              (Js.str "resolved") (Js.str "Paid out again.") Js.undefined
              Desk.issue1 Desk.submitter eq_refl eq_refl eq_refl
              (or_intror (or_intror (or_introl eq_refl))) eq_refl (fun _ => eq_refl))
    as (saved & notice & _ & Hfound & Hstatus & _ & Hresolution & _).
  exists saved. split; [exact Hfound|]. split; [exact Hstatus|].
  rewrite Hresolution. reflexivity.
Defined.

(** X25. updateIssueStatus writes before it can fail: for one of the four
    statuses on a stored, valid issue, when the submitter of the issue no
    longer exists, or when the notification model throws,
    the answer is 500 and nobody is notified or mailed, but the issue is
    already stored with the new status. *)
Theorem updateIssueStatus_fails_after_the_write
  (env : IssueController.Env) (st : IssueController.Store)
  (user : Account.t) (id : IssueId) (status resolution internalNote : Js.value)
  (issue : Issue.t) :
  Js.truthy status = true ->
  Issue.findById id (IssueController.issues st) = Some issue ->
  Issue.validate issue = [] ->
  In (Js.ToString status) Issue.statuses ->
  IssueController.User_findById env (Issue.submittedBy issue) = None
  \/ (forall n, IssueController.Notification_create env n <> None) ->
  let st' :=
    fst (IssueController.updateIssueStatus env st user id status resolution internalNote) in
  let answer :=
    snd (IssueController.updateIssueStatus env st user id status resolution internalNote) in
  IssueController.status answer = 500
  /\ option_map Issue.status (Issue.findById id (IssueController.issues st'))
     = Some (Js.ToString status)
  /\ IssueController.notifications st' = IssueController.notifications st
  /\ IssueController.outbox st' = IssueController.outbox st.
Proof.
  intros Htruthy Hfind Hvalid Hknown Hfail st' answer. subst st' answer.
  rewrite (updateIssueStatus_found env st user id status resolution internalNote issue
             Htruthy Hfind).
  rewrite (known_status_validates _ user status resolution internalNote issue Hvalid Hknown).
  set (saved := statusChangedIssue _ user status resolution internalNote issue).
  pose proof (statusChangedIssue_fields (IssueController.Date_now env) user status resolution
                internalNote issue) as (Hid' & Hs' & _).
  fold saved in Hid', Hs'.
  destruct (Issue_findById_In _ _ _ Hfind) as [_ Hid].
  assert (Hstored : option_map Issue.status
                      (Issue.findById id (Issue.replace saved (IssueController.issues st)))
                    = Some (Js.ToString status)).
  { rewrite (Issue_findById_replace id _ issue saved Hfind) by congruence.
    cbn. rewrite Hs'. reflexivity. }
  destruct (IssueController.User_findById env (Issue.submittedBy issue)) as [submitter|] eqn:Hsub.
  - destruct Hfail as [Hnone | Hdown]; [discriminate|].
    unfold IssueController.notify.
    destruct (IssueController.Notification_create env _) eqn:Hcreate;
      [|exfalso; exact (Hdown _ Hcreate)].
    cbn [fst snd IssueController.status IssueController.withIssues IssueController.issues
         IssueController.notifications IssueController.outbox].
    repeat split; try reflexivity. exact Hstored.
  - cbn [fst snd IssueController.status IssueController.withIssues IssueController.issues
         IssueController.notifications IssueController.outbox].
    repeat split; try reflexivity. exact Hstored.
Qed.

Lemma updateIssueStatus_fails_after_the_write_witness :
  IssueController.status
    (snd (IssueController.updateIssueStatus Desk.envNotificationsDown Desk.store Desk.admin
            1%nat (Js.str "in_progress") Js.undefined Js.undefined)) = 500
  /\ option_map Issue.status
       (Issue.findById 1%nat
          (IssueController.issues
             (fst (IssueController.updateIssueStatus Desk.envNotificationsDown Desk.store
                     Desk.admin 1%nat (Js.str "in_progress") Js.undefined Js.undefined))))
     = Some "in_progress".
Proof.
  assert (Hdown : forall n,
             IssueController.Notification_create Desk.envNotificationsDown n <> None)
    by (intros n; discriminate).
  destruct (updateIssueStatus_fails_after_the_write Desk.envNotificationsDown Desk.store
              Desk.admin 1%nat (Js.str "in_progress") Js.undefined Js.undefined Desk.issue1
              eq_refl eq_refl eq_refl (or_intror (or_introl eq_refl)) (or_intror Hdown))
    as (Hanswer & Hstored & _).
  split; [exact Hanswer|exact Hstored].
Defined.

(** ** assignIssue, updateIssuePriority and getIssueById *)

Lemma Issue_save_unmodified now f issue c :
  Issue.validate (f issue) = [] ->
  Issue.save now (Issue.assign f (Issue.load issue)) c
  = (Issue.replace (f issue) c, inr (Issue.load (f issue))).
Proof.
  intros H. unfold Issue.save.
  change (Issue.preSave now (Issue.assign f (Issue.load issue))) with (f issue).
  rewrite H. reflexivity.
Qed.

(** Rewrites the save of the goal, whose document is [v] and is valid. *)
Ltac save_as v Hv :=
  try unfold Issue.save;
  match goal with
  | |- context [Issue.preSave ?n ?d] => change (Issue.preSave n d) with v
  end;
  rewrite Hv; cbn zeta.

(** X26. assignIssue on a stored, valid issue accepts as assignee only an
    existing user whose role is admin: any other assignee is answered
    with 400 and nothing is written. With a working notification model,
    an accepted assignee is stored and is the one user who is notified; without an assignee in the body the issue is stored
    unassigned and nobody is notified. Either way the last activity is
    now. *)
Theorem assignIssue_assignee_is_an_admin
  (env : IssueController.Env) (st : IssueController.Store)
  (user : Account.t) (id : IssueId) (assignedTo : option UserId) (issue : Issue.t) :
  Issue.findById id (IssueController.issues st) = Some issue ->
  Issue.validate issue = [] ->
  (forall n, IssueController.Notification_create env n = None) ->
  let saved :=
    Issue.set_lastActivityAt (IssueController.Date_now env)
      (Issue.set_assignedTo assignedTo issue) in
  let acceptable :=
    match assignedTo with
    | Some a =>
        match IssueController.User_findById env a with
        | Some assignee => String.eqb (Account.role assignee) "admin"
        | None => false
        end
    | None => true
    end in
  let st' := fst (IssueController.assignIssue env st user id assignedTo) in
  let answer := snd (IssueController.assignIssue env st user id assignedTo) in
  if acceptable
  then answer
       = IssueController.successResponse 200
           (match assignedTo with
            | Some _ => "Issue assigned successfully"
            | None => "Issue unassigned successfully"
            end) (IssueController.IssueData saved)
       /\ Issue.findById id (IssueController.issues st') = Some saved
       /\ exists new,
            IssueController.notifications st' = (IssueController.notifications st ++ new)%list
            /\ map IssueController.Notice.recipient new
               = match assignedTo with Some a => [a] | None => [] end
  else answer = IssueController.errorResponse 400 (Text "Assignee must be an admin user")
       /\ st' = st.
Proof.
  intros Hfind Hvalid Hok saved acceptable st' answer. subst st' answer acceptable.
  destruct (Issue_findById_In _ _ _ Hfind) as [_ Hid].
  assert (Hsv : Issue.validate saved = []).
  { apply Issue_validate_nil. apply Issue_validate_nil in Hvalid. exact Hvalid. }
  assert (Hstored : Issue.findById id (Issue.replace saved (IssueController.issues st))
                    = Some saved)
    by (apply (Issue_findById_replace id _ issue); [exact Hfind|exact Hid]).
  unfold IssueController.assignIssue. rewrite Hfind.
  destruct assignedTo as [a|].
  - destruct (IssueController.User_findById env a) as [assignee|];
      [destruct (String.eqb (Account.role assignee) "admin")|];
      cbn [negb]; try (split; reflexivity).
    save_as saved Hsv.
    unfold IssueController.notify. rewrite Hok. cbn [fst snd IssueController.issues
      IssueController.notifications IssueController.withIssues Issue.value Issue.load].
    split; [reflexivity|]. split; [exact Hstored|].
    eexists. split; reflexivity.
  - save_as saved Hsv. cbn [fst snd IssueController.issues
      IssueController.notifications IssueController.withIssues Issue.value Issue.load].
    split; [reflexivity|]. split; [exact Hstored|].
    exists []. rewrite app_nil_r. split; reflexivity.
Qed.

Lemma assignIssue_assignee_is_an_admin_witness :
  (snd (IssueController.assignIssue Desk.env Desk.store Desk.admin 1%nat (Some 30%nat))
   = IssueController.errorResponse 400 (Text "Assignee must be an admin user")
   /\ fst (IssueController.assignIssue Desk.env Desk.store Desk.admin 1%nat (Some 30%nat))
      = Desk.store)
  /\ option_map Issue.assignedTo
       (Issue.findById 1%nat
          (IssueController.issues
             (fst (IssueController.assignIssue Desk.env Desk.store Desk.admin 1%nat
                     (Some 21%nat)))))
     = Some (Some 21%nat).
Proof.
  split.
  - exact (assignIssue_assignee_is_an_admin Desk.env Desk.store Desk.admin 1%nat
             (Some 30%nat) Desk.issue1 eq_refl eq_refl (fun _ => eq_refl)).
  - destruct (assignIssue_assignee_is_an_admin Desk.env Desk.store Desk.admin 1%nat
                (Some 21%nat) Desk.issue1 eq_refl eq_refl (fun _ => eq_refl))
      as (_ & Hstored & _).
    rewrite Hstored. reflexivity.
Defined.

(** X27. updateIssuePriority answers 400 for a priority that is not one
    of low, medium, high and urgent before it looks the issue up. For one
    of the four on a stored, valid issue it answers 200 and stores the priority
    together with one more internal note, written by the user, that
    names the old and the new priority; status and conversation stay as
    they were and nobody is notified. *)
Theorem updateIssuePriority_records_the_change
  (env : IssueController.Env) (st : IssueController.Store)
  (user : Account.t) (id : IssueId) (priority : Js.value) :
  ((forall p, priority = Js.str p -> ~ In p Issue.priorities) ->
   IssueController.updateIssuePriority env st user id priority
   = (st, IssueController.errorResponse 400 (Text "Valid priority is required")))
  /\ (forall p issue,
        priority = Js.str p -> In p Issue.priorities ->
        Issue.findById id (IssueController.issues st) = Some issue ->
        Issue.validate issue = [] ->
        let st' := fst (IssueController.updateIssuePriority env st user id priority) in
        let answer := snd (IssueController.updateIssuePriority env st user id priority) in
        exists saved,
          answer = IssueController.successResponse 200 "Issue priority updated successfully"
                     (IssueController.IssueData saved)
          /\ Issue.findById id (IssueController.issues st') = Some saved
          /\ Issue.priority saved = p
          /\ Issue.internalNotes saved
             = (Issue.internalNotes issue
                ++ [{| Issue.Note.note :=
                         "Priority changed from " ++ Issue.priority issue ++ " to " ++ p;
                       Issue.Note.author := Account._id user;
                       Issue.Note.timestamp := IssueController.Date_now env |}])%list
          /\ Issue.lastActivityAt saved = IssueController.Date_now env
          /\ Issue.status saved = Issue.status issue
          /\ Issue.responses saved = Issue.responses issue
          /\ IssueController.notifications st' = IssueController.notifications st
          /\ IssueController.outbox st' = IssueController.outbox st).
Proof.
  split.
  - intros Hnot. unfold IssueController.updateIssuePriority.
    destruct priority; try reflexivity.
    destruct (Issue.inEnum Issue.priorities s) eqn:E;
      [|rewrite orb_true_r; reflexivity].
    exfalso. apply (Hnot s eq_refl). unfold Issue.inEnum in E. apply existsb_exists in E.
    destruct E as (x & Hin & Hx). apply String.eqb_eq in Hx. subst x. exact Hin.
  - intros p issue -> Hp Hfind Hvalid st' answer. subst st' answer.
    destruct (Issue_findById_In _ _ _ Hfind) as [_ Hid].
    assert (Hyes : Issue.inEnum Issue.priorities p = true).
    { unfold Issue.inEnum. apply existsb_exists. exists p.
      split; [exact Hp|apply String.eqb_refl]. }
    assert (Htruthy : Js.truthy (Js.str p) = true).
    { destruct p; [|reflexivity]. cbn in Hp. intuition discriminate. }
    unfold IssueController.updateIssuePriority.
    rewrite Htruthy, Hyes, Hfind. cbn [negb orb].
    set (first := Issue.set_lastActivityAt (IssueController.Date_now env)
                    (Issue.set_priority p issue)).
    assert (Hfv : Issue.validate first = []).
    { apply Issue_validate_nil. apply Issue_validate_nil in Hvalid.
      subst first. cbn. cbn in Hvalid. tauto. }
    save_as first Hfv.
    set (note := {| Issue.Note.note := _; Issue.Note.author := _; Issue.Note.timestamp := _ |}).
    assert (Hsv : Issue.validate (Issue.push_note note first) = []).
    { apply Issue_validate_nil. apply Issue_validate_nil in Hfv. exact Hfv. }
    save_as (Issue.push_note note first) Hsv.
    cbn [fst snd IssueController.withIssues IssueController.issues
         IssueController.notifications IssueController.outbox Issue.value Issue.load].
    exists (Issue.push_note note first).
    split; [reflexivity|]. split.
    + apply (Issue_findById_replace id _ first); [|exact Hid].
      apply (Issue_findById_replace id _ issue); [exact Hfind|exact Hid].
    + repeat split; reflexivity.
Qed.

Lemma updateIssuePriority_records_the_change_witness :
  IssueController.updateIssuePriority Desk.env Desk.store Desk.admin 99%nat (Js.str "top")
  = (Desk.store, IssueController.errorResponse 400 (Text "Valid priority is required"))
  /\ exists saved,
       Issue.findById 1%nat
         (IssueController.issues
            (fst (IssueController.updateIssuePriority Desk.env Desk.store Desk.admin 1%nat
                    (Js.str "urgent")))) = Some saved
       /\ map Issue.Note.note (Issue.internalNotes saved)
          = ["Priority changed from medium to urgent"].
Proof.
  split.
  - apply (updateIssuePriority_records_the_change Desk.env Desk.store Desk.admin 99%nat
             (Js.str "top")).
    intros p Hp. inversion Hp; subst p. cbn.
    intros [H | [H | [H | [H | H]]]]; try discriminate H; exact H.
  - destruct (proj2 (updateIssuePriority_records_the_change Desk.env Desk.store Desk.admin
                       1%nat (Js.str "urgent"))
                "urgent" Desk.issue1 eq_refl
                (or_intror (or_intror (or_intror (or_introl eq_refl)))) eq_refl eq_refl)
      as (saved & _ & Hstored & _ & Hnotes & _).
    exists saved. split; [exact Hstored|]. rewrite Hnotes. reflexivity.
Defined.

(** X28. getIssueById shows a stored, valid issue whose submitter exists
    only to its submitter, to an
    administrator and to its assignee; anybody else gets 403. A view
    writes at most one thing: the first view of the submitter marks the
    issue as viewed. Status, conversation and last activity are never
    touched, and nobody is notified. *)
Theorem getIssueById_only_marks_the_issue_viewed
  (env : IssueController.Env) (st : IssueController.Store)
  (user : Account.t) (id : IssueId) (issue : Issue.t) (submitter : Account.t) :
  Issue.findById id (IssueController.issues st) = Some issue ->
  Issue.validate issue = [] ->
  IssueController.User_findById env (Issue.submittedBy issue) = Some submitter ->
  let byOwner := Nat.eqb (Account._id submitter) (Account._id user) in
  let byAssignee :=
    match Issue.assignedTo issue with
    | Some a =>
        match IssueController.User_findById env a with
        | Some assignee => Nat.eqb (Account._id assignee) (Account._id user)
        | None => false
        end
    | None => false
    end in
  let st' := fst (IssueController.getIssueById env st user id) in
  let answer := snd (IssueController.getIssueById env st user id) in
  if byOwner || IssueController.isAdmin user || byAssignee
  then exists shown,
         answer = IssueController.successResponse 200 "Issue retrieved successfully"
                    (IssueController.IssueData shown)
         /\ Issue.findById id (IssueController.issues st') = Some shown
         /\ Issue.viewedByUser shown = Issue.viewedByUser issue || byOwner
         /\ Issue.set_viewedByUser (Issue.viewedByUser issue) shown = issue
         /\ (forall other, other <> id ->
             Issue.findById other (IssueController.issues st')
             = Issue.findById other (IssueController.issues st))
         /\ IssueController.notifications st' = IssueController.notifications st
         /\ IssueController.outbox st' = IssueController.outbox st
  else answer = IssueController.errorResponse 403 (Text "Not authorized to view this issue")
       /\ st' = st.
Proof.
  intros Hfind Hvalid Hsub byOwner byAssignee st' answer. subst st' answer.
  destruct (Issue_findById_In _ _ _ Hfind) as [_ Hid].
  unfold IssueController.getIssueById. rewrite Hfind, Hsub.
  fold byOwner. fold byAssignee. rewrite <- !negb_orb.
  destruct (byOwner || IssueController.isAdmin user || byAssignee) eqn:Hallowed;
    cbn [negb]; [|split; reflexivity].
  assert (Heta : Issue.set_viewedByUser (Issue.viewedByUser issue) issue = issue)
    by (destruct issue; reflexivity).
  destruct (byOwner && negb (Issue.viewedByUser issue)) eqn:Hmark.
  - apply andb_prop in Hmark. destruct Hmark as [Hown Hnot].
    apply negb_true_iff in Hnot.
    assert (Hsv : Issue.validate (Issue.set_viewedByUser true issue) = []).
    { apply Issue_validate_nil. apply Issue_validate_nil in Hvalid. exact Hvalid. }
    rewrite (Issue_save_unmodified _ (Issue.set_viewedByUser true) issue _ Hsv).
    cbn [fst snd IssueController.withIssues IssueController.issues
         IssueController.notifications IssueController.outbox Issue.value Issue.load].
    exists (Issue.set_viewedByUser true issue).
    split; [reflexivity|]. split.
    + apply (Issue_findById_replace id _ issue); [exact Hfind|exact Hid].
    + rewrite Hown, Hnot. repeat split; try reflexivity.
      * rewrite <- Heta at 2. rewrite Hnot. reflexivity.
      * intros other Hother. apply Issue_findById_replace_other. cbn. congruence.
  - cbn [fst snd]. exists issue. split; [reflexivity|]. split; [exact Hfind|].
    split; [|split; [exact Heta|repeat split; reflexivity]].
    destruct byOwner; [|rewrite orb_false_r; reflexivity].
    cbn in Hmark. apply negb_false_iff in Hmark. rewrite Hmark. reflexivity.
Qed.

Lemma getIssueById_only_marks_the_issue_viewed_witness :
  (snd (IssueController.getIssueById Desk.env Desk.store Desk.stranger 1%nat)
   = IssueController.errorResponse 403 (Text "Not authorized to view this issue")
   /\ fst (IssueController.getIssueById Desk.env Desk.store Desk.stranger 1%nat) = Desk.store)
  /\ option_map Issue.viewedByUser
       (Issue.findById 1%nat
          (IssueController.issues
             (fst (IssueController.getIssueById Desk.env Desk.store Desk.submitter 1%nat))))
     = Some true.
Proof.
  split.
  - exact (getIssueById_only_marks_the_issue_viewed Desk.env Desk.store Desk.stranger 1%nat
             Desk.issue1 Desk.submitter eq_refl eq_refl eq_refl).
  - destruct (getIssueById_only_marks_the_issue_viewed Desk.env Desk.store Desk.submitter
                1%nat Desk.issue1 Desk.submitter eq_refl eq_refl eq_refl)
      as (shown & _ & Hstored & Hviewed & _).
    rewrite Hstored. cbn [option_map]. rewrite Hviewed. reflexivity.
Defined.

(** ** What no request changes *)





















(** ** The statistics of the issues *)

Lemma sumCounts_bump k g : sumCounts (Issue.bump k g) = S (sumCounts g).
Proof.
  induction g as [|[k' n] g IH]; [reflexivity|]. cbn [Issue.bump].
  destruct (String.eqb k' k); cbn [sumCounts fold_right snd] in *.
  - reflexivity.
  - fold (sumCounts (Issue.bump k g)). fold (sumCounts g). rewrite IH. lia.
Qed.

Lemma countFor_bump k k' g :
  countFor k (Issue.bump k' g)
  = ((if String.eqb k' k then 1 else 0) + countFor k g)%nat.
Proof.
  unfold countFor. induction g as [|[k0 n] g IH]; cbn [Issue.bump List.find fst snd].
  - destruct (String.eqb k' k); reflexivity.
  - destruct (String.eqb k0 k') eqn:E0; cbn [List.find fst snd].
    + apply String.eqb_eq in E0. subst k0.
      destruct (String.eqb k' k); reflexivity.
    + destruct (String.eqb k0 k) eqn:E1; [|exact IH].
      apply String.eqb_eq in E1. subst k0.
      rewrite String.eqb_sym, E0. reflexivity.
Qed.

Lemma keys_bump k k' g :
  In k (map fst (Issue.bump k' g)) <-> k = k' \/ In k (map fst g).
Proof.
  induction g as [|[k0 n] g IH]; cbn [Issue.bump map fst In].
  - split; [intros [H|[]]; left; congruence|intros [H|[]]; left; congruence].
  - destruct (String.eqb k0 k') eqn:E0; cbn [map fst In].
    + apply String.eqb_eq in E0. subst k0. intuition congruence.
    + rewrite IH. tauto.
Qed.

Lemma NoDup_bump k g : NoDup (map fst g) -> NoDup (map fst (Issue.bump k g)).
Proof.
  induction g as [|[k0 n] g IH]; cbn [Issue.bump map fst]; intros Hnd.
  - constructor; [intros []|constructor].
  - inversion Hnd as [|? ? Hnot Hnd']; subst.
    destruct (String.eqb k0 k) eqn:E0; cbn [map fst].
    + constructor; assumption.
    + constructor; [|apply IH, Hnd'].
      intros Hin. apply keys_bump in Hin. destruct Hin as [->|Hin]; [|contradiction].
      rewrite String.eqb_refl in E0. discriminate.
Qed.

Lemma groupCount_from key c g :
  sumCounts (fold_left (fun g d => Issue.bump (key d) g) c g)
  = (List.length c + sumCounts g)%nat
  /\ (forall k,
        countFor k (fold_left (fun g d => Issue.bump (key d) g) c g)
        = (Issue.countDocuments (fun d => String.eqb (key d) k) c + countFor k g)%nat)
  /\ (NoDup (map fst g) ->
      NoDup (map fst (fold_left (fun g d => Issue.bump (key d) g) c g))).
Proof.
  revert g. induction c as [|d c IH]; intros g; cbn [fold_left].
  - split; [reflexivity|]. split; [reflexivity|auto].
  - destruct (IH (Issue.bump (key d) g)) as (H1 & H2 & H3).
    split; [rewrite H1, sumCounts_bump; cbn [List.length]; lia|].
    split.
    + intros k. rewrite H2, countFor_bump. unfold Issue.countDocuments.
      cbn [filter]. destruct (String.eqb (key d) k); cbn [List.length]; lia.
    + intros Hnd. apply H3, NoDup_bump, Hnd.
Qed.

Lemma Issue_insertDesc_In d x l : In x (Issue.insertDesc d l) <-> x = d \/ In x l.
Proof.
  induction l as [|y l IH]; cbn [Issue.insertDesc In].
  - split; intros [H|[]]; left; congruence.
  - destruct (Issue.createdAt y <? Issue.createdAt d); cbn [In].
    + split; intros H; intuition congruence.
    + rewrite IH. split; intros H; intuition congruence.
Qed.

Lemma Issue_insertDesc_recentFirst d l :
  recentFirst l -> recentFirst (Issue.insertDesc d l).
Proof.
  unfold recentFirst. induction 1 as [|x l Hs IH Hx]; cbn [Issue.insertDesc].
  - constructor; constructor.
  - destruct (Z.ltb_spec (Issue.createdAt x) (Issue.createdAt d)) as [Hlt|Hge].
    + constructor; [constructor; assumption|].
      constructor; [lia|].
      rewrite Forall_forall in *. intros y Hy. specialize (Hx y Hy). cbn in *. lia.
    + constructor; [exact IH|].
      rewrite Forall_forall in *. intros y Hy. apply Issue_insertDesc_In in Hy.
      destruct Hy as [->|Hy]; [lia|auto].
Qed.

Lemma Issue_sortDesc_facts l :
  recentFirst (Issue.sortDesc l)
  /\ List.length (Issue.sortDesc l) = List.length l
  /\ (forall x, In x (Issue.sortDesc l) <-> In x l).
Proof.
  unfold Issue.sortDesc. induction l as [|d l (IH1 & IH2 & IH3)]; cbn [fold_right].
  - split; [constructor|]. split; [reflexivity|tauto].
  - split; [apply Issue_insertDesc_recentFirst, IH1|]. split.
    + cbn [List.length]. rewrite <- IH2. generalize (fold_right Issue.insertDesc [] l).
      intros s. induction s as [|y s IHs]; cbn [Issue.insertDesc]; [reflexivity|].
      destruct (Issue.createdAt y <? Issue.createdAt d); cbn [List.length]; congruence.
    + intros x. rewrite Issue_insertDesc_In, IH3. cbn [In]. intuition congruence.
Qed.

Lemma status_counts_add_up c :
  Forall (fun d => Issue.inEnum Issue.statuses (Issue.status d) = true) c ->
  (Issue.countDocuments (Issue.hasStatus "open") c
   + Issue.countDocuments (Issue.hasStatus "in_progress") c
   + Issue.countDocuments (Issue.hasStatus "resolved") c
   + Issue.countDocuments (Issue.hasStatus "closed") c)%nat = List.length c.
Proof.
  unfold Issue.countDocuments, Issue.hasStatus.
  induction 1 as [|d c Hd _ IH]; [reflexivity|]. cbn [filter List.length].
  unfold Issue.inEnum, Issue.statuses in Hd. cbn [existsb] in Hd.
  rewrite orb_false_r in Hd.
  destruct (String.eqb (Issue.status d) "open") eqn:E1;
    [apply String.eqb_eq in E1; rewrite E1; cbn; lia|].
  destruct (String.eqb (Issue.status d) "in_progress") eqn:E2;
    [apply String.eqb_eq in E2; rewrite E2; cbn; lia|].
  destruct (String.eqb (Issue.status d) "resolved") eqn:E3;
    [apply String.eqb_eq in E3; rewrite E3; cbn; lia|].
  destruct (String.eqb (Issue.status d) "closed") eqn:E4; [|discriminate].
  cbn [List.length]. lia.
Qed.

Lemma countDocuments_all c : Issue.countDocuments (fun _ => true) c = List.length c.
Proof.
  unfold Issue.countDocuments. induction c as [|x c IH]; [reflexivity|].
  cbn [filter List.length]. rewrite IH. reflexivity.
Qed.

(** X30. The statistics count every stored issue exactly once. Each of
    the three breakdowns of Issue.getStatistics has one group per key,
    lists for a key the number of issues with that key, and adds up to
    the number of issues; the same holds for the two breakdowns of the
    admin dashboard. The dashboard's four status counts add up to its
    total when every stored status is one of the schema's four, and its
    recent issues are stored issues, five of them (all, if there are
    fewer), newest first. *)
Theorem issue_statistics_count_every_issue (c : list Issue.t) :
  let s := Issue.getStatistics c in
  let d := Dashboard.getIssueStatsForDashboard c in
  (forall g key,
     In (g, key)
        [(Issue.statusStats s, Issue.status); (Issue.priorityStats s, Issue.priority);
         (Issue.categoryStats s, Issue.category);
         (Dashboard.priorityBreakdown d, Issue.priority);
         (Dashboard.categoryBreakdown d, Issue.category)] ->
     sumCounts g = List.length c
     /\ NoDup (map fst g)
     /\ forall k, countFor k g = Issue.countDocuments (fun x => String.eqb (key x) k) c)
  /\ Dashboard.totalIssues d = List.length c
  /\ (Forall (fun x => In (Issue.status x) Issue.statuses) c ->
      (Dashboard.openIssues d + Dashboard.inProgressIssues d + Dashboard.resolvedIssues d
       + Dashboard.closedIssues d)%nat = Dashboard.totalIssues d)
  /\ recentFirst (Dashboard.recentIssues d)
  /\ List.length (Dashboard.recentIssues d) = Nat.min 5 (List.length c)
  /\ (forall x, In x (Dashboard.recentIssues d) -> In x c).
Proof.
  intros s d. subst s d.
  assert (Hgroup : forall key,
             sumCounts (Issue.groupCount key c) = List.length c
             /\ NoDup (map fst (Issue.groupCount key c))
             /\ forall k, countFor k (Issue.groupCount key c)
                          = Issue.countDocuments (fun x => String.eqb (key x) k) c).
  { intros key. unfold Issue.groupCount.
    destruct (groupCount_from key c []) as (H1 & H2 & H3).
    split; [rewrite H1; cbn; lia|]. split; [apply H3; constructor|].
    intros k. rewrite H2. cbn. lia. }
  pose proof (countDocuments_all c) as Htotal.
  destruct (Issue_sortDesc_facts c) as (Hsorted & Hlen & Hin).
  split; [|split; [exact Htotal|split; [|split; [|split]]]].
  - intros g key Hg. cbn [In] in Hg.
    destruct Hg as [Hg|[Hg|[Hg|[Hg|[Hg|[]]]]]]; inversion Hg; subst; apply Hgroup.
  - intros Hvalid. cbn [Dashboard.getIssueStatsForDashboard Dashboard.openIssues
                        Dashboard.inProgressIssues Dashboard.resolvedIssues
                        Dashboard.closedIssues Dashboard.totalIssues].
    rewrite Htotal. apply status_counts_add_up.
    rewrite Forall_forall in *. intros x Hx.
    unfold Issue.inEnum. apply existsb_exists. exists (Issue.status x).
    split; [apply Hvalid, Hx|apply String.eqb_refl].
  - cbn [Dashboard.getIssueStatsForDashboard Dashboard.recentIssues].
    apply StronglySorted_firstn, Hsorted.
  - cbn [Dashboard.getIssueStatsForDashboard Dashboard.recentIssues].
    rewrite length_firstn, Hlen. reflexivity.
  - cbn [Dashboard.getIssueStatsForDashboard Dashboard.recentIssues].
    intros x Hx. apply Hin. rewrite <- (firstn_skipn 5 (Issue.sortDesc c)).
    apply in_or_app. left. exact Hx.
Qed.

Lemma issue_statistics_count_every_issue_witness :
  let d := Dashboard.getIssueStatsForDashboard (IssueController.issues Desk.store) in
  (Dashboard.openIssues d + Dashboard.inProgressIssues d + Dashboard.resolvedIssues d
   + Dashboard.closedIssues d)%nat = Dashboard.totalIssues d.
Proof.
  intros d.
  destruct (issue_statistics_count_every_issue (IssueController.issues Desk.store))
    as (_ & _ & Hstatus & _).
  apply Hstatus. repeat constructor; cbn; tauto.
Defined.
